(** * Batch analysis engine of the C# code reviewer: model and properties

    A shallow embedding of [app/core/api_client.py] (the retry loop of
    [APIClient.analyze_code] and the lazily evaluated [_stream_response]) and of
    [app/core/batch_analyzer.py] ([BatchAnalyzer.analyze_files] and
    [BatchAnalyzer._analyze_single_file]).

    Modelling conventions.
    - A Python [str] is the list of its code points ([str := list N]); the
      literals of the source are written as UTF-8 text and decoded once.
    - Python exceptions are values of [exn]: a class and the text of [str(e)].
      Only subclasses of [Exception] are represented (what [except Exception]
      catches); [KeyboardInterrupt] and the like are outside the model.
    - Side effects are made explicit: the file system and the LLM client live in
      an abstract environment that is threaded through every call, the user
      callbacks have a state of their own, and every observable action
      (opening a file, building a prompt, calling the client, sleeping,
      printing, invoking a callback) is appended to an event trace.
    - Wall-clock fields ([analysis_time], [total_time], [start_time],
      [end_time]) are readings of the real clock and are not represented. *)

From Stdlib Require Import List Bool Arith NArith ZArith Lia.
From Stdlib Require Import Ascii String DecimalString.
Import ListNotations.

Set Implicit Arguments.

(* ================================================================== *)
(** ** Python strings *)

Module PyStr.

(** A [str] is a sequence of Unicode code points. *)
Definition str : Type := list N.

Definition bytes_of_string (s : string) : list N :=
  map N_of_ascii (list_ascii_of_string s).

(** Decoder for the UTF-8 literals of this file (the source files are UTF-8).
    A truncated sequence is kept byte by byte; the literals below are all
    well formed. *)
Fixpoint utf8_decode (bs : list N) : str :=
  let cont b := N.land b 63 in
  match bs with
  | [] => []
  | b0 :: r0 =>
    if (b0 <? 128)%N then b0 :: utf8_decode r0
    else if (b0 <? 224)%N then
      match r0 with
      | b1 :: r1 =>
        (N.lor (N.shiftl (N.land b0 31) 6) (cont b1)) :: utf8_decode r1
      | [] => [b0]
      end
    else if (b0 <? 240)%N then
      match r0 with
      | b1 :: b2 :: r2 =>
        (N.lor (N.shiftl (N.land b0 15) 12)
           (N.lor (N.shiftl (cont b1) 6) (cont b2))) :: utf8_decode r2
      | _ => b0 :: r0
      end
    else
      match r0 with
      | b1 :: b2 :: b3 :: r3 =>
        (N.lor (N.shiftl (N.land b0 7) 18)
           (N.lor (N.shiftl (cont b1) 12)
              (N.lor (N.shiftl (cont b2) 6) (cont b3)))) :: utf8_decode r3
      | _ => b0 :: r0
      end
  end.

(** [lit "..."] is the Python string written by that literal. *)
Definition lit (s : string) : str := utf8_decode (bytes_of_string s).

(** [str(n)] for a non-negative [int]. *)
Definition str_of_nat (n : nat) : str :=
  bytes_of_string (NilZero.string_of_uint (Nat.to_uint n)).

(** [str(z)] for an [int]. *)
Definition str_of_Z (z : Z) : str :=
  bytes_of_string (NilZero.string_of_int (Z.to_int z)).

(** [s.startswith(p)]. *)
Fixpoint startswith (p s : str) : bool :=
  match p, s with
  | [], _ => true
  | _ :: _, [] => false
  | a :: p', b :: s' => (a =? b)%N && startswith p' s'
  end.

(** [p in s]: [p] occurs in [s] as a contiguous substring. *)
Fixpoint contains (p s : str) : bool :=
  startswith p s ||
  match s with
  | [] => false
  | _ :: s' => contains p s'
  end.

(** Truthiness of a string: [bool(s)]. *)
Definition truthy (s : str) : bool :=
  match s with [] => false | _ :: _ => true end.

(** The code points [str.strip()] removes (CPython's [Py_UNICODE_ISSPACE]). *)
Definition isspace (c : N) : bool :=
  ((9 <=? c) && (c <=? 13) || (28 <=? c) && (c <=? 32)
   || (c =? 133) || (c =? 160) || (c =? 5760)
   || (8192 <=? c) && (c <=? 8202)
   || (c =? 8232) || (c =? 8233) || (c =? 8239) || (c =? 8287)
   || (c =? 12288))%N.

Fixpoint lstrip (s : str) : str :=
  match s with
  | [] => []
  | c :: s' => if isspace c then lstrip s' else s
  end.

Definition rstrip (s : str) : str := rev (lstrip (rev s)).

(** [s.strip()]. *)
Definition strip (s : str) : str := rstrip (lstrip s).

(** [a == b]. *)
Fixpoint eqb (a b : str) : bool :=
  match a, b with
  | [], [] => true
  | x :: a', y :: b' => (x =? y)%N && eqb a' b'
  | _, _ => false
  end.

End PyStr.
Import PyStr.

(* ================================================================== *)
(** ** Exceptions *)

(** The exception classes the two modules tell apart.  [APIConnectionError],
    [ModelNotFoundError], [APIKeyMissingError] and [PromptTooLongError] derive
    from [APIClientError] (api_client.py, lines 22-44); every other subclass
    of [Exception] that matters to no handler is [OtherException]. *)
Inductive exn_class : Type :=
| APIClientError
| APIConnectionError
| ModelNotFoundError
| APIKeyMissingError
| PromptTooLongError
| UnicodeDecodeError
| TypeError
| OtherException.

(** An exception object: its class and [str(e)]. *)
Record exn : Type := Exn { exn_cls : exn_class; exn_str : str }.

(** [isinstance(e, APIClientError)], what [except APIClientError] tests. *)
Definition isinstance_APIClientError (e : exn) : bool :=
  match exn_cls e with
  | APIClientError | APIConnectionError | ModelNotFoundError
  | APIKeyMissingError | PromptTooLongError => true
  | UnicodeDecodeError | TypeError | OtherException => false
  end.

(** [isinstance(e, UnicodeDecodeError)]. *)
Definition isinstance_UnicodeDecodeError (e : exn) : bool :=
  match exn_cls e with
  | UnicodeDecodeError => true
  | _ => false
  end.

(** How a call ends: it returns a value or raises. *)
Inductive outcome (A : Type) : Type :=
| Returned (a : A)
| Raised (e : exn).
Arguments Returned {A} a.
Arguments Raised {A} e.

(** [range(n)] for a Python [int]: empty when [n <= 0]. *)
Definition range (n : Z) : list Z := map Z.of_nat (seq 0 (Z.to_nat n)).

(* ================================================================== *)
(** ** app/core/api_client.py *)

Module APIClient.

Inductive provider : Type := openai | anthropic.

(** What the client does to the outside, in order.  The logger calls carry
    the values they interpolate; the elapsed-time texts are left out. *)
Inductive event : Type :=
| SdkRequest (streaming : bool) (prompt : str)
| BackoffSleep (seconds : Z)
| LogSending (streaming : bool)
| LogReceived
| LogStreamCompleted
| LogRequestFailed (e : exn)
| LogStreamingFailed (e : exn)
| LogAttemptFailed (attempt_no max_retries : Z) (e : exn)
| LogRetrying (wait_time : Z)
| LogAllFailed (max_retries : Z).

(** What iterating a value to exhaustion gives its consumer: the items
    delivered, then a normal end or the exception that cut it short. *)
Record drained : Type := Drained { delivered : list str; failure : option exn }.

(** The values [analyze_code] can hand back: the text of [_get_response], the
    generator object of [_stream_response] (created, its body not yet started;
    it closes over the prompt), or [None] when the loop body never ran. *)
Inductive ret : Type :=
| RetText (text : str)
| RetGenerator (prompt : str)
| RetNone.

Section Client.

(** State of the provider and of the network. *)
Variable Net : Type.
Variable self_provider : provider.
(** [self.client....create(..., stream=False)] and the extraction of the
    response text: the text, or the exception raised on the way. *)
Variable sdk_create : str -> Net -> (exn + str) * Net.
(** The provider's stream, read to its end: the contents of its chunks and
    the exception that interrupted it, if one did. *)
Variable sdk_stream : str -> Net -> (list str * option exn) * Net.

(** [_get_response] (lines 291-342): one blocking request; a failure is
    logged and raised again. *)
Definition _get_response (prompt : str) (net : Net)
  : outcome str * Net * list event :=
  match sdk_create prompt net with
  | (inr response_text, net') =>
    (Returned response_text, net',
     [LogSending false; SdkRequest false prompt; LogReceived])
  | (inl e, net') =>
    (Raised e, net',
     [LogSending false; SdkRequest false prompt; LogRequestFailed e])
  end.

(** The body of the generator [_stream_response] (lines 236-289), run by a
    consumer that takes every chunk.  For [openai] only chunks with a truthy
    content are yielded (line 271); a failure is logged and raised again, into
    the consumer.  Nothing of this runs when the generator is created. *)
Definition _stream_response_body (prompt : str) (net : Net)
  : drained * Net * list event :=
  match sdk_stream prompt net with
  | (chunks, fault, net') =>
    let yielded :=
      match self_provider with
      | openai => filter truthy chunks
      | anthropic => chunks
      end in
    match fault with
    | None =>
      (Drained yielded None, net',
       [LogSending true; SdkRequest true prompt; LogStreamCompleted])
    | Some e =>
      (Drained yielded (Some e), net',
       [LogSending true; SdkRequest true prompt; LogStreamingFailed e])
    end
  end.

(** The [try] block of [analyze_code] (lines 219-222).  With [stream] it
    evaluates the call [self._stream_response(prompt)], which builds the
    generator and returns at once. *)
Definition try_block (prompt : str) (stream : bool) (net : Net)
  : outcome ret * Net * list event :=
  if stream then (Returned (RetGenerator prompt), net, [])
  else
    match _get_response prompt net with
    | (Returned text, net', ev) => (Returned (RetText text), net', ev)
    | (Raised e, net', ev) => (Raised e, net', ev)
    end.

Definition failed_after (max_retries : Z) (e : exn) : exn :=
  Exn APIConnectionError
    (lit "Failed to get LLM response after " ++ str_of_Z max_retries
       ++ lit " attempts: " ++ exn_str e).

(** The loop of [analyze_code] over the remaining values of [attempt]. *)
Fixpoint analyze_code_loop (prompt : str) (stream : bool) (max_retries : Z)
    (attempts : list Z) (net : Net) : outcome ret * Net * list event :=
  match attempts with
  | [] => (Returned RetNone, net, [])
  | attempt :: rest =>
    match try_block prompt stream net with
    | (Returned r, net', ev) => (Returned r, net', ev)
    | (Raised e, net', ev) =>
      let warning := LogAttemptFailed (attempt + 1) max_retries e in
      if (attempt <? max_retries - 1)%Z then
        let wait_time := (2 ^ attempt)%Z in
        match analyze_code_loop prompt stream max_retries rest net' with
        | (r, net'', ev') =>
          (r, net'',
           ev ++ [warning; LogRetrying wait_time; BackoffSleep wait_time]
              ++ ev')
        end
      else
        (Raised (failed_after max_retries e), net',
         ev ++ [warning; LogAllFailed max_retries])
    end
  end.

(** [analyze_code] (lines 196-234). *)
Definition analyze_code (prompt : str) (stream : bool) (max_retries : Z)
    (net : Net) : outcome ret * Net * list event :=
  analyze_code_loop prompt stream max_retries (range max_retries) net.

(** Iterating what [analyze_code] returned, to exhaustion. *)
Definition iterate (r : ret) (net : Net) : drained * Net * list event :=
  match r with
  | RetGenerator prompt => _stream_response_body prompt net
  | RetText text => (Drained (map (fun c => [c]) text) None, net, [])
  | RetNone =>
    (Drained [] (Some (Exn TypeError (lit "'NoneType' object is not iterable"))),
     net, [])
  end.

(** [for token in client.analyze_code(prompt, stream=True, max_retries)],
    the way every caller uses the streaming mode (api_client.py line 402,
    batch_analyzer.py line 212, main_window.py line 703): what the caller's
    loop receives. *)
Definition for_token_in_analyze_code (prompt : str) (max_retries : Z)
    (net : Net) : drained * Net * list event :=
  match analyze_code prompt true max_retries net with
  | (Returned r, net1, ev1) =>
    match iterate r net1 with
    | (d, net2, ev2) => (d, net2, ev1 ++ ev2)
    end
  | (Raised e, net1, ev1) => (Drained [] (Some e), net1, ev1)
  end.

End Client.

(** *** Reading a trace *)

Definition sleeps (tr : list event) : list Z :=
  flat_map (fun ev => match ev with BackoffSleep s => [s] | _ => [] end) tr.

Definition requests (tr : list event) : list bool :=
  flat_map (fun ev => match ev with SdkRequest b _ => [b] | _ => [] end) tr.

(** The errors the retry loop caught, in order. *)
Definition caught (tr : list event) : list exn :=
  flat_map
    (fun ev => match ev with LogAttemptFailed _ _ e => [e] | _ => [] end) tr.

(** The retry loop seen from outside: a request went out, attempt [k]
    (0-based) failed with [e], or the loop waited. *)
Inductive step : Type :=
| Tried
| Failed (k : Z) (e : exn)
| Waited (seconds : Z).

Definition steps (tr : list event) : list step :=
  flat_map
    (fun ev =>
       match ev with
       | SdkRequest _ _ => [Tried]
       | LogAttemptFailed a _ e => [Failed (a - 1) e]
       | BackoffSleep s => [Waited s]
       | _ => []
       end) tr.

(** The call ended with a response text in hand. *)
Definition answered (o : outcome ret) : bool :=
  match o with
  | Returned (RetText _) => true
  | _ => false
  end.

(** The retry policy as the specification words it, for the attempts
    numbered from [k] on: each attempt sends a request; the error of attempt
    [k] is followed by a wait of [2^k] seconds when [k < n - 1] and by
    nothing when it is the last attempt; after the errors comes the request
    that was answered, when one was. *)
Fixpoint backoff_schedule (n k : Z) (errors : list exn) (answer : bool)
  : list step :=
  match errors with
  | [] => if answer then [Tried] else []
  | e :: errors' =>
    Tried :: Failed k e
      :: (if (k <? n - 1)%Z then [Waited (2 ^ k)%Z] else [])
      ++ backoff_schedule n (k + 1) errors' answer
  end.

End APIClient.

(* ================================================================== *)
(** ** app/core/batch_analyzer.py *)

Module BatchAnalyzer.

(** [ReviewCategory] and [OutputFormat] of app/core/prompt_builder.py. *)
Inductive ReviewCategory : Type :=
| NULL_REFERENCE
| EXCEPTION_HANDLING
| RESOURCE_MANAGEMENT
| PERFORMANCE
| SECURITY
| NAMING_CONVENTION
| CODE_DOCUMENTATION
| HARDCODING_TO_CONFIG.

Definition ReviewCategory_value (c : ReviewCategory) : str :=
  match c with
  | NULL_REFERENCE => lit "null_reference"
  | EXCEPTION_HANDLING => lit "exception_handling"
  | RESOURCE_MANAGEMENT => lit "resource_management"
  | PERFORMANCE => lit "performance"
  | SECURITY => lit "security"
  | NAMING_CONVENTION => lit "naming_convention"
  | CODE_DOCUMENTATION => lit "code_documentation"
  | HARDCODING_TO_CONFIG => lit "hardcoding_to_config"
  end.

Inductive OutputFormat : Type := IMPROVED_CODE | CODE_COMMENTS | FLOW_DIAGRAM.

(** [FileAnalysisResult] (lines 19-30), without [analysis_time]. *)
Record FileAnalysisResult : Type := mkFileAnalysisResult {
  file_path : str;
  file_name : str;
  success : bool;
  original_code : str;
  improved_code : str;
  report_markdown : str;
  error_message : str;
  retry_count : nat
}.

(** [BatchAnalysisResult] (lines 33-43), without the three clock fields. *)
Record BatchAnalysisResult : Type := mkBatchAnalysisResult {
  total_files : nat;
  success_count : nat;
  failure_count : nat;
  skipped_count : nat;
  results : list FileAnalysisResult
}.

Definition MAX_RETRIES : nat := 3.

(** [self.categories] (lines 78-86). *)
Definition categories : list ReviewCategory :=
  [NULL_REFERENCE; EXCEPTION_HANDLING; RESOURCE_MANAGEMENT; PERFORMANCE;
   SECURITY; NAMING_CONVENTION; CODE_DOCUMENTATION].

(** The marker the tally looks for (line 130). *)
Definition SKIP_MARKER : str := Eval vm_compute in lit "스킵".

(** The texts of lines 172, 181, 190 and 267. *)
Definition MSG_EMPTY_FILE : str := Eval vm_compute in lit "빈 파일 (스킵)".
Definition MSG_UTF8_ERROR : str :=
  Eval vm_compute in lit "UTF-8 인코딩 오류 (스킵)".
Definition msg_read_failed (e : exn) : str :=
  lit "파일 읽기 실패: " ++ exn_str e ++ lit " (스킵)".
Definition msg_llm_failed (last_error : option exn) : str :=
  lit "LLM 분석 실패 (" ++ str_of_nat MAX_RETRIES ++ lit "회 재시도): "
    ++ match last_error with
       | Some e => exn_str e
       | None => lit "None"
       end.

(** The lines printed at 243, 252 and 115. *)
Definition line_api_error (file_name : str) (attempt : nat) (e : exn) : str :=
  lit "⚠️ " ++ file_name ++ lit " 분석 실패 (시도 " ++ str_of_nat (attempt + 1)
    ++ lit "/" ++ str_of_nat MAX_RETRIES ++ lit "): " ++ exn_str e.
Definition line_unexpected (file_name : str) (attempt : nat) (e : exn) : str :=
  lit "❌ " ++ file_name ++ lit " 분석 중 예상치 못한 오류 (시도 "
    ++ str_of_nat (attempt + 1) ++ lit "/" ++ str_of_nat MAX_RETRIES
    ++ lit "): " ++ exn_str e.
Definition line_cancelled (i total : nat) : str :=
  lit "⚠️ 분석이 취소되었습니다. (처리된 파일: " ++ str_of_nat i ++ lit "/"
    ++ str_of_nat total ++ lit ")".

(** What the analyzer does to the outside, in order. *)
Inductive event : Type :=
| OpenFile (file_path : str)
| BuildReviewPrompt (code : str)
| AnalyzeCode (prompt : str) (stream : bool)
| GenerateReport (original improved : str)
| TimeSleep (seconds : nat)
| PrintLine (line : str)
| PrintTraceback
| IsCancelled (answer : bool)
| Progress (i total : nat) (file_name : str).

(** One use of the client by the analyzer (lines 212-216): the call
    [analyze_code(prompt=..., stream=True)] raises, or returns something the
    [for] loop iterates to its end, or until the iteration raises. *)
Inductive call : Type :=
| CallRaised (e : exn)
| CallIterated (tokens : list str) (fault : option exn).

Definition call_error (c : call) : option exn :=
  match c with
  | CallRaised e => Some e
  | CallIterated _ fault => fault
  end.

Section Analyzer.

(** Everything outside the analyzer: files, clock, client, collaborators. *)
Variable Env : Type.
(** [Path(file_path).name]. *)
Variable Path_name : str -> str.
(** [open(file_path, 'r', encoding='utf-8')] and [f.read()] (lines 164-165). *)
Variable open_read : str -> Env -> (exn + str) * Env.
(** [self.prompt_builder]: [SYSTEM_PROMPT] and [build_review_prompt]. *)
Variable SYSTEM_PROMPT : str.
Variable build_review_prompt :
  str -> list ReviewCategory -> OutputFormat -> bool -> Env -> (exn + str) * Env.
(** [self.api_client.analyze_code(prompt, stream)] together with the
    iteration of its result. *)
Variable analyze_code : str -> bool -> Env -> call * Env.
(** [self.report_generator.generate_report]. *)
Variable generate_report :
  str -> str -> list str -> str -> Env -> (exn + str) * Env.

(** [improved_code = ""] followed by [improved_code += token] per token. *)
Definition accumulate (tokens : list str) : str :=
  fold_left (fun improved_code token => improved_code ++ token) tokens [].

(** The [try] block of one attempt (lines 199-238): the improved code and
    the report, or the exception that left the block.  The two line feeds
    of line 208 are the code points 10, 10. *)
Definition try_block (original_code : str) (env : Env)
  : (exn + (str * str)) * Env * list event :=
  match build_review_prompt original_code categories IMPROVED_CODE true env with
  | (inl e, env1) => (inl e, env1, [BuildReviewPrompt original_code])
  | (inr prompt, env1) =>
    let full_prompt := SYSTEM_PROMPT ++ [10; 10]%N ++ prompt in
    let ev2 := [BuildReviewPrompt original_code; AnalyzeCode full_prompt true] in
    match analyze_code full_prompt true env1 with
    | (CallRaised e, env2) => (inl e, env2, ev2)
    | (CallIterated _ (Some e), env2) => (inl e, env2, ev2)
    | (CallIterated tokens None, env2) =>
      let improved_code := accumulate tokens in
      let ev3 := ev2 ++ [GenerateReport original_code improved_code] in
      match generate_report original_code improved_code
              (map ReviewCategory_value categories) (lit "phi3:mini") env2 with
      | (inl e, env3) => (inl e, env3, ev3)
      | (inr report_markdown, env3) =>
        (inr (improved_code, report_markdown), env3, ev3)
      end
    end
  end.

(** The line a handler prints: line 243 for an [APIClientError], line 252
    for any other exception. *)
Definition handler_line (file_name : str) (attempt : nat) (e : exn) : str :=
  if isinstance_APIClientError e
  then line_api_error file_name attempt e
  else line_unexpected file_name attempt e.

(** The two handlers (lines 240-257): what they print and whether they
    sleep.  Both add one to [retry_count] and store [e] in [last_error]. *)
Definition except_block (file_name : str) (attempt : nat) (e : exn)
  : list event :=
  (if isinstance_APIClientError e
   then [PrintLine (line_api_error file_name attempt e)]
   else [PrintLine (line_unexpected file_name attempt e); PrintTraceback])
  ++ (if attempt <? MAX_RETRIES - 1 then [TimeSleep 1] else []).

(** The retry loop (lines 198-257) over the remaining values of [attempt],
    and the final [return] (lines 262-270) when it runs out. *)
Fixpoint retry_loop (file_path file_name original_code : str)
    (attempts : list nat) (retry_count : nat) (last_error : option exn)
    (env : Env) : FileAnalysisResult * Env * list event :=
  match attempts with
  | [] =>
    ({| file_path := file_path; file_name := file_name; success := false;
        original_code := original_code; improved_code := [];
        report_markdown := []; error_message := msg_llm_failed last_error;
        retry_count := retry_count |}, env, [])
  | attempt :: rest =>
    match try_block original_code env with
    | (inr (improved_code, report_markdown), env', ev) =>
      ({| file_path := file_path; file_name := file_name; success := true;
          original_code := original_code; improved_code := improved_code;
          report_markdown := report_markdown; error_message := [];
          retry_count := retry_count |}, env', ev)
    | (inl e, env', ev) =>
      match retry_loop file_path file_name original_code rest
              (retry_count + 1) (Some e) env' with
      | (r, env'', ev') =>
        (r, env'', ev ++ except_block file_name attempt e ++ ev')
      end
    end
  end.

(** The result of lines 168-192: a failure with only a message. *)
Definition skipped (file_path file_name message : str) : FileAnalysisResult :=
  {| file_path := file_path; file_name := file_name; success := false;
     original_code := []; improved_code := []; report_markdown := [];
     error_message := message; retry_count := 0 |}.

(** [_analyze_single_file] (lines 149-270). *)
Definition _analyze_single_file (file_path : str) (env : Env)
  : FileAnalysisResult * Env * list event :=
  let file_name := Path_name file_path in
  match open_read file_path env with
  | (inr text, env1) =>
    let original_code := strip text in
    if negb (truthy original_code) then
      (skipped file_path file_name MSG_EMPTY_FILE, env1, [OpenFile file_path])
    else
      match retry_loop file_path file_name original_code
              (seq 0 MAX_RETRIES) 0 None env1 with
      | (r, env2, ev) => (r, env2, OpenFile file_path :: ev)
      end
  | (inl e, env1) =>
    if isinstance_UnicodeDecodeError e then
      (skipped file_path file_name MSG_UTF8_ERROR, env1, [OpenFile file_path])
    else
      (skipped file_path file_name (msg_read_failed e), env1,
       [OpenFile file_path])
  end.

(** The load step fails: the read raised, or what it returned is empty once
    stripped. *)
Definition load_fails (o : exn + str) : bool :=
  match o with
  | inl _ => true
  | inr text => negb (truthy (strip text))
  end.

(** One attempt in which the prompt builder works and the use of the client
    ends as [c], taking the environment from [env] to [env']. *)
Definition attempt_with_client (original_code : str) (env : Env) (c : call)
    (env' : Env) : Prop :=
  exists prompt env1,
    build_review_prompt original_code categories IMPROVED_CODE true env
    = (inr prompt, env1)
    /\ analyze_code (SYSTEM_PROMPT ++ [10; 10]%N ++ prompt) true env1
       = (c, env').

(** The result is that of an attempt that went through (lines 211-238): its
    [improved_code] is the concatenation of the tokens the client delivered
    and its [report_markdown] is what the report generator returned for
    it. *)
Definition from_successful_attempt (r : FileAnalysisResult) : Prop :=
  exists env tokens env1 env2,
    attempt_with_client (original_code r) env (CallIterated tokens None) env1
    /\ improved_code r = accumulate tokens
    /\ generate_report (original_code r) (improved_code r)
         (map ReviewCategory_value categories) (lit "phi3:mini") env1
       = (inr (report_markdown r), env2).

(** The running totals of [analyze_files]: [results] and the three counters. *)
Record tally : Type := mkTally {
  t_results : list FileAnalysisResult;
  t_success : nat;
  t_failure : nat;
  t_skipped : nat
}.

Definition tally0 : tally := mkTally [] 0 0 0.

(** The test of line 130. *)
Definition is_skip (result : FileAnalysisResult) : bool :=
  truthy (error_message result) && contains SKIP_MARKER (error_message result).

(** Lines 125-133: append the result and count it. *)
Definition record_result (t : tally) (result : FileAnalysisResult) : tally :=
  let rs := t_results t ++ [result] in
  if success result then
    mkTally rs (t_success t + 1) (t_failure t) (t_skipped t)
  else if is_skip result then
    mkTally rs (t_success t) (t_failure t) (t_skipped t + 1)
  else
    mkTally rs (t_success t) (t_failure t + 1) (t_skipped t).

(** State of the caller's callbacks; the two callbacks may share it. *)
Variable W : Type.
Variable progress_callback : option (nat -> nat -> str -> W -> W).
Variable is_cancelled_callback : option (W -> bool * W).

(** Line 114: [is_cancelled_callback and is_cancelled_callback()]. *)
Definition check_cancelled (w : W) : bool * W * list event :=
  match is_cancelled_callback with
  | None => (false, w, [])
  | Some f => let (answer, w') := f w in (answer, w', [IsCancelled answer])
  end.

(** Lines 120-121. *)
Definition notify_progress (i total : nat) (file_name : str) (w : W)
  : W * list event :=
  match progress_callback with
  | None => (w, [])
  | Some f => (f i total file_name w, [Progress i total file_name])
  end.

(** The loop of [analyze_files] (lines 112-133) from index [i] on. *)
Fixpoint analyze_files_loop (total i : nat) (file_paths : list str)
    (t : tally) (w : W) (env : Env) : tally * W * Env * list event :=
  match file_paths with
  | [] => (t, w, env, [])
  | file_path :: rest =>
    match check_cancelled w with
    | (true, w1, ev_c) => (t, w1, env, ev_c ++ [PrintLine (line_cancelled i total)])
    | (false, w1, ev_c) =>
      let file_name := Path_name file_path in
      match notify_progress i total file_name w1 with
      | (w2, ev_p) =>
        match _analyze_single_file file_path env with
        | (result, env1, ev_a) =>
          match analyze_files_loop total (S i) rest (record_result t result)
                  w2 env1 with
          | (t', w3, env2, ev') => (t', w3, env2, ev_c ++ ev_p ++ ev_a ++ ev')
          end
        end
      end
    end
  end.

(** [analyze_files] (lines 88-147). *)
Definition analyze_files (file_paths : list str) (w : W) (env : Env)
  : BatchAnalysisResult * W * Env * list event :=
  match analyze_files_loop (List.length file_paths) 0 file_paths tally0 w env with
  | (t, w', env', ev) =>
    ({| total_files := List.length file_paths;
        success_count := t_success t;
        failure_count := t_failure t;
        skipped_count := t_skipped t;
        results := t_results t |}, w', env', ev)
  end.

End Analyzer.

(** *** Reading a result *)

(** What holds of the messages of every result the analyzer builds. *)
Definition message_invariant (r : FileAnalysisResult) : Prop :=
  (success r = true -> error_message r = [])
  /\ (success r = false ->
      error_message r <> [] /\ improved_code r = [] /\ report_markdown r = []).

(** The three counters account for every result recorded so far. *)
Definition counts_add_up (t : tally) : Prop :=
  t_success t + t_failure t + t_skipped t = List.length (t_results t).

(** The three counters are what line 128-133 would give if applied to the
    finished list: successes, non-successes whose message holds the marker,
    and the other non-successes. *)
Definition is_marked_failure (r : FileAnalysisResult) : bool :=
  negb (success r) && contains SKIP_MARKER (error_message r).
Definition is_plain_failure (r : FileAnalysisResult) : bool :=
  negb (success r) && negb (contains SKIP_MARKER (error_message r)).

Definition counts_by_marker (t : tally) : Prop :=
  t_success t = List.length (filter success (t_results t))
  /\ t_skipped t = List.length (filter is_marked_failure (t_results t))
  /\ t_failure t = List.length (filter is_plain_failure (t_results t)).

(** *** Reading a trace *)

(** The events that are invocations of a callback. *)
Definition from_callback (ev : event) : bool :=
  match ev with
  | IsCancelled _ | Progress _ _ _ => true
  | _ => false
  end.

Definition callback_free (tr : list event) : Prop :=
  Forall (fun ev => from_callback ev = false) tr.

(** The events of the analyzer proper, the callbacks left out. *)
Definition without_callbacks (tr : list event) : list event :=
  filter (fun ev => negb (from_callback ev)) tr.

Definition printed (tr : list event) : list str :=
  flat_map (fun ev => match ev with PrintLine l => [l] | _ => [] end) tr.

(** The prompts of the client invocations, in order. *)
Definition client_calls (tr : list event) : list str :=
  flat_map (fun ev => match ev with AnalyzeCode p _ => [p] | _ => [] end) tr.

Definition prompt_builds (tr : list event) : list str :=
  flat_map (fun ev => match ev with BuildReviewPrompt c => [c] | _ => [] end) tr.

Definition progress_calls (tr : list event) : list (nat * nat * str) :=
  flat_map
    (fun ev => match ev with Progress i n f => [(i, n, f)] | _ => [] end) tr.

Definition cancel_checks (tr : list event) : list bool :=
  flat_map (fun ev => match ev with IsCancelled b => [b] | _ => [] end) tr.

Definition time_sleeps (tr : list event) : list nat :=
  flat_map (fun ev => match ev with TimeSleep s => [s] | _ => [] end) tr.

End BatchAnalyzer.

(* ================================================================== *)
(** ** Concrete environments

    Small deterministic stand-ins for the provider, the files, the
    collaborators and the callbacks, used to run the definitions above. *)

Module Stub.

(** *** A provider for [APIClient]: the state counts the requests made. *)

Definition timeout_error : exn := Exn OtherException (lit "Request timed out.").
Definition reset_error : exn := Exn OtherException (lit "Connection reset").

(** Every blocking request times out. *)
Definition create_timing_out (_ : str) (n : nat) : (exn + str) * nat :=
  (inl timeout_error, S n).

(** The first two blocking requests time out, the third answers. *)
Definition create_third_time_lucky (_ : str) (n : nat) : (exn + str) * nat :=
  if n <? 2 then (inl timeout_error, S n) else (inr (lit "fixed"), S n).

(** Every stream delivers one chunk and then breaks. *)
Definition stream_breaking (_ : str) (n : nat)
  : (list str * option exn) * nat :=
  ((([lit "public "], Some reset_error)), S n).

(** *** An environment for [BatchAnalyzer]: the state counts the uses of the
    client. *)

Definition Path_name (file_path : str) : str := file_path.

Definition file_not_found : exn :=
  Exn OtherException (lit "[Errno 2] No such file or directory").
Definition bad_utf8 : exn :=
  Exn UnicodeDecodeError (lit "'utf-8' codec can't decode byte 0xff").

(** Four kinds of files, by name. *)
Definition open_read (file_path : str) (n : nat) : (exn + str) * nat :=
  if eqb file_path (lit "Blank.cs") then (inr (lit "   " ++ [10; 9]%N), n)
  else if eqb file_path (lit "Missing.cs") then (inl file_not_found, n)
  else if eqb file_path (lit "Latin1.cs") then (inl bad_utf8, n)
  else (inr (lit "public class A{}" ++ [10]%N), n).

Definition SYSTEM_PROMPT : str := lit "You review C# code.".

Definition build_review_prompt (code : str)
    (_ : list BatchAnalyzer.ReviewCategory) (_ : BatchAnalyzer.OutputFormat)
    (_ : bool) (n : nat) : (exn + str) * nat :=
  (inr (lit "Review: " ++ code), n).

Definition generate_report (original improved : str) (_ : list str) (_ : str)
    (n : nat) : (exn + str) * nat :=
  (inr (lit "# Report"), n).

(** A client that raises [e] on its first [k] uses and streams two chunks
    afterwards. *)
Definition client_failing (k : nat) (e : exn) (_ : str) (_ : bool) (n : nat)
  : BatchAnalyzer.call * nat :=
  if n <? k then (BatchAnalyzer.CallRaised e, S n)
  else (BatchAnalyzer.CallIterated [lit "IMPR"; lit "OVED"] None, S n).

(** A client that plays a script: its [n]-th use ends as the [n]-th entry,
    and as [CallIterated [] None] once the script is over. *)
Definition client_scripted (script : list BatchAnalyzer.call) (_ : str)
    (_ : bool) (n : nat) : BatchAnalyzer.call * nat :=
  (nth n script (BatchAnalyzer.CallIterated [] None), S n).

(** A client whose stream ends without a single chunk. *)
Definition client_silent (_ : str) (_ : bool) (n : nat)
  : BatchAnalyzer.call * nat :=
  (BatchAnalyzer.CallIterated [] None, S n).

Definition temporary_error : exn := Exn APIClientError (lit "Temporary error").
Definition boom_api : exn := Exn APIConnectionError (lit "boom").
Definition boom_bug : exn := Exn OtherException (lit "boom").
(** An error whose text happens to contain the skip marker. *)
Definition quota_error : exn :=
  Exn APIClientError (lit "요청 한도 초과: 요청 스킵됨").

(** [_analyze_single_file] and [analyze_files] over these stand-ins, for a
    given client. *)
Definition single (client : str -> bool -> nat -> BatchAnalyzer.call * nat) :=
  BatchAnalyzer._analyze_single_file Path_name open_read SYSTEM_PROMPT
    build_review_prompt client generate_report.

Definition batch (client : str -> bool -> nat -> BatchAnalyzer.call * nat)
    (W : Type) :=
  @BatchAnalyzer.analyze_files nat Path_name open_read SYSTEM_PROMPT
    build_review_prompt client generate_report W.

(** Callbacks: the state counts the cancellation checks made; the answer is
    [True] from the third check on. *)
Definition cancel_from_third_check (w : nat) : bool * nat := (2 <=? w, S w).
Definition never_cancel (w : nat) : bool * nat := (false, S w).
Definition progress_noop (_ _ : nat) (_ : str) (w : nat) : nat := w.

Definition five_files : list str :=
  [lit "A.cs"; lit "B.cs"; lit "C.cs"; lit "D.cs"; lit "E.cs"].

End Stub.

(* ================================================================== *)
(** ** Reading a run of the batch analyzer *)

Module BatchRun.

Import BatchAnalyzer.

(** A cancellation callback that is absent or always answers [False]. *)
Definition never_cancels (W : Type) (is_cancelled_callback : option (W -> bool * W))
  : Prop :=
  match is_cancelled_callback with
  | None => True
  | Some f => forall w, fst (f w) = false
  end.

(** The progress notifications expected for the files [done], the first of
    which has index [i]: one per file, in order, with consecutive indices. *)
Definition expected_progress (Path_name : str -> str) (total i : nat)
    (done : list str) : list (nat * nat * str) :=
  map (fun ip => (fst ip, total, Path_name (snd ip)))
    (combine (seq i (List.length done)) done).



(** The number of attempts behind a result: the failed ones, and the one
    that succeeded if one did. *)
Definition attempts_made (r : FileAnalysisResult) : nat :=
  retry_count r + (if success r then 1 else 0).

End BatchRun.

(* ================================================================== *)
(** ** Reading a run of the client *)

Module APIClientRun.

(** The time spent in [time.sleep], in seconds. *)
Definition total_seconds (waits : list Z) : Z := fold_right Z.add 0%Z waits.

(** The exception a [for] loop raises when asked to iterate [None]. *)
Definition none_not_iterable : exn :=
  Exn TypeError (lit "'NoneType' object is not iterable").

Section Provider.

Variable Net : Type.
Variable sdk_create : str -> Net -> (exn + str) * Net.

(** What the provider does: asked for [prompt] again and again from the
    state [net], its blocking requests fail with [errors], one after the
    other, and leave it in the state [net']. *)
Fixpoint fails_with (prompt : str) (errors : list exn) (net net' : Net)
  : Prop :=
  match errors with
  | [] => net' = net
  | e :: errors' =>
    exists net1,
      sdk_create prompt net = (inl e, net1)
      /\ fails_with prompt errors' net1 net'
  end.

End Provider.

End APIClientRun.

(* ================================================================== *)
(** ** The analyzer wired to the client

    [BatchAnalyzer] as the application builds it (main_window.py, lines
    1068-1071): its [api_client] is an [APIClient].  The environment of the
    analyzer is then the provider's state, the trace of what the client did,
    and the rest of the world (files, clock, collaborators), which the
    client does not touch. *)

Module Wiring.

Import BatchAnalyzer.

Section RealClient.

Variable Net : Type.
Variable Rest : Type.
Variable self_provider : APIClient.provider.
Variable sdk_create : str -> Net -> (exn + str) * Net.
Variable sdk_stream : str -> Net -> (list str * option exn) * Net.

Record world : Type := World {
  net : Net;
  client_log : list APIClient.event;
  rest : Rest
}.

(** [self.api_client.analyze_code(prompt=full_prompt, stream=stream)], with
    the default [max_retries=3] of api_client.py line 200, and the [for]
    loop that iterates what it returns (batch_analyzer.py, lines 212-216). *)
Definition api_client_analyze_code (prompt : str) (stream : bool) (env : world)
  : call * world :=
  match APIClient.analyze_code sdk_create prompt stream 3 (net env) with
  | (Returned r, net1, ev1) =>
    match APIClient.iterate self_provider sdk_stream r net1 with
    | (d, net2, ev2) =>
      (CallIterated (APIClient.delivered d) (APIClient.failure d),
       World net2 (client_log env ++ ev1 ++ ev2) (rest env))
    end
  | (Raised e, net1, ev1) =>
    (CallRaised e, World net1 (client_log env ++ ev1) (rest env))
  end.

(** An operation of the rest of the world, seen from the analyzer. *)
Definition on_rest (A : Type) (f : Rest -> A * Rest) (env : world) : A * world :=
  match f (rest env) with
  | (a, rest') => (a, World (net env) (client_log env) rest')
  end.

Variable Path_name : str -> str.
Variable open_read : str -> Rest -> (exn + str) * Rest.
Variable SYSTEM_PROMPT : str.
Variable build_review_prompt :
  str -> list ReviewCategory -> OutputFormat -> bool -> Rest ->
  (exn + str) * Rest.
Variable generate_report :
  str -> str -> list str -> str -> Rest -> (exn + str) * Rest.

(** [_analyze_single_file] of an analyzer built on the client. *)
Definition _analyze_single_file (file_path : str) (env : world)
  : FileAnalysisResult * world * list event :=
  BatchAnalyzer._analyze_single_file Path_name
    (fun path => on_rest (open_read path))
    SYSTEM_PROMPT
    (fun code cats fmt ex => on_rest (build_review_prompt code cats fmt ex))
    api_client_analyze_code
    (fun original improved cats model =>
       on_rest (generate_report original improved cats model))
    file_path env.

(** No exception coming from the provider's stream or from a collaborator
    is an [APIClientError]. *)
Definition no_client_error_from_outside : Prop :=
  (forall prompt n e,
      snd (fst (sdk_stream prompt n)) = Some e ->
      isinstance_APIClientError e = false)
  /\ (forall code cats fmt ex r e,
        fst (build_review_prompt code cats fmt ex r) = inl e ->
        isinstance_APIClientError e = false)
  /\ (forall original improved cats model r e,
        fst (generate_report original improved cats model r) = inl e ->
        isinstance_APIClientError e = false).

End RealClient.

(** What the client has done since its log was [log]: only streaming
    requests, [k] of them, no error caught by its retry loop and no wait. *)
Definition only_requests (log log' : list APIClient.event) (k : nat) : Prop :=
  exists new,
    log' = log ++ new
    /\ APIClient.requests new = repeat true k
    /\ APIClient.sleeps new = []
    /\ APIClient.caught new = [].

(** A line printed by the handler of unexpected exceptions (line 252). *)
Definition unexpected_line (file_name line : str) : Prop :=
  exists attempt e, line = line_unexpected file_name attempt e.

End Wiring.

(* ================================================================== *)
(** ** app/core/prompt_builder.py *)

Module PromptBuilder.

Import BatchAnalyzer.

(** The members of [ReviewCategory], in the order of their definition. *)
Definition all_categories : list ReviewCategory :=
  [NULL_REFERENCE; EXCEPTION_HANDLING; RESOURCE_MANAGEMENT; PERFORMANCE;
   SECURITY; NAMING_CONVENTION; CODE_DOCUMENTATION; HARDCODING_TO_CONFIG].

Definition ReviewCategory_name (c : ReviewCategory) : str :=
  match c with
  | NULL_REFERENCE => lit "NULL_REFERENCE"
  | EXCEPTION_HANDLING => lit "EXCEPTION_HANDLING"
  | RESOURCE_MANAGEMENT => lit "RESOURCE_MANAGEMENT"
  | PERFORMANCE => lit "PERFORMANCE"
  | SECURITY => lit "SECURITY"
  | NAMING_CONVENTION => lit "NAMING_CONVENTION"
  | CODE_DOCUMENTATION => lit "CODE_DOCUMENTATION"
  | HARDCODING_TO_CONFIG => lit "HARDCODING_TO_CONFIG"
  end.

(** [c1 == c2] on the members of the enumeration. *)
Definition ReviewCategory_eqb (c1 c2 : ReviewCategory) : bool :=
  match c1, c2 with
  | NULL_REFERENCE, NULL_REFERENCE
  | EXCEPTION_HANDLING, EXCEPTION_HANDLING
  | RESOURCE_MANAGEMENT, RESOURCE_MANAGEMENT
  | PERFORMANCE, PERFORMANCE
  | SECURITY, SECURITY
  | NAMING_CONVENTION, NAMING_CONVENTION
  | CODE_DOCUMENTATION, CODE_DOCUMENTATION
  | HARDCODING_TO_CONFIG, HARDCODING_TO_CONFIG => true
  | _, _ => false
  end.

(** [repr(c)], the text of the [KeyError] raised for a missing key [c]. *)
Definition ReviewCategory_repr (c : ReviewCategory) : str :=
  lit "<ReviewCategory." ++ ReviewCategory_name c ++ lit ": '"
    ++ ReviewCategory_value c ++ lit "'>".

(** The [KeyError] of [self.review_templates[c]]. *)
Definition KeyError (c : ReviewCategory) : exn :=
  Exn OtherException (ReviewCategory_repr c).

(** An entry of [review_templates] and an entry of [few_shot_examples]. *)
Record template : Type := Template {
  t_name : str;
  t_description : str;
  t_rules : list str
}.

Record example : Type := Example {
  ex_category : ReviewCategory;
  ex_before : str;
  ex_after : str
}.

(** [SYSTEM_PROMPT] (lines 49-61). *)
Definition SYSTEM_PROMPT : str :=
  Eval vm_compute in
    lit "당신은 C# 코드 리뷰 전문가입니다. 입력된 원본 코드를 분석하고, 문제점을 수정한 개선 버전을 작성합니다.

다음 원칙을 따르세요:
1. 클래스/메서드 이름은 유지하되, 내부 구조는 개선할 수 있습니다
2. 하드코딩을 제거하려면 IConfiguration, 생성자 주입 등 필요한 구조를 추가하세요
3. Null 체크, Exception 처리, using 문 등 필요한 코드를 추가하세요
4. 보안 문제(SQL Injection 등)는 반드시 수정하세요
5. 반드시 C# 문법으로만 출력 (Python, Java 등 다른 언어 사용 금지)
6. 순수 C# 코드만 출력하세요 (마크다운 코드 블록 ```csharp 등은 제외)
7. XML 문서 주석(///)은 코드의 일부이므로 모든 public 클래스/메서드에 반드시 추가하세요
8. 일반 설명문(자연어 텍스트)은 출력하지 마세요

⚠️ 중요: 개선을 위해 필요하다면 클래스에 필드, 생성자, 프로퍼티를 추가할 수 있습니다!".

(** [REVIEW_TEMPLATES] (lines 64-148), the templates used with
    [use_markdown=False]. *)
Definition REVIEW_TEMPLATES (c : ReviewCategory) : option template :=
  match c with
  | NULL_REFERENCE =>
    Some {| t_name := lit "Null 참조 체크";
            t_description := lit "null 참조 예외를 방지하는 검증 로직 추가";
            t_rules :=
              [lit "메서드 파라미터에 null 체크 추가";
          lit "null 조건 연산자 (?., ??) 활용";
          lit "ArgumentNullException 던지기"] |}
  | EXCEPTION_HANDLING =>
    Some {| t_name := lit "Exception 처리";
            t_description := lit "적절한 예외 처리 및 에러 핸들링";
            t_rules :=
              [lit "try-catch 블록으로 예외 처리";
          lit "구체적인 예외 타입 사용";
          lit "예외 메시지 명확하게 작성";
          lit "finally 블록으로 정리 작업"] |}
  | RESOURCE_MANAGEMENT =>
    Some {| t_name := lit "리소스 관리";
            t_description := lit "IDisposable 리소스의 올바른 해제";
            t_rules :=
              [lit "using 문으로 자동 해제";
          lit "IDisposable 구현 확인";
          lit "파일/DB 연결 명시적 닫기"] |}
  | PERFORMANCE =>
    Some {| t_name := lit "성능 최적화";
            t_description := lit "불필요한 연산 제거 및 효율성 향상";
            t_rules :=
              [lit "LINQ 최적화 (ToList() 남용 방지)";
          lit "StringBuilder 사용 (문자열 연결)";
          lit "불필요한 반복문 제거";
          lit "캐싱 활용"] |}
  | SECURITY =>
    Some {| t_name := lit "보안";
            t_description := lit "보안 취약점 제거";
            t_rules :=
              [lit "SQL Injection 방지 (파라미터화)";
          lit "입력 값 검증";
          lit "민감 정보 암호화";
          lit "권한 체크"] |}
  | NAMING_CONVENTION =>
    Some {| t_name := lit "네이밍 규칙";
            t_description := lit "C# 네이밍 컨벤션 준수";
            t_rules :=
              [lit "PascalCase: 클래스, 메서드, 프로퍼티";
          lit "camelCase: 로컬 변수, 파라미터";
          lit "_camelCase: private 필드";
          lit "의미 있는 이름 사용"] |}
  | CODE_DOCUMENTATION =>
    Some {| t_name := lit "XML 문서 주석";
            t_description := lit "C# XML 문서 주석 작성 (///, <summary>, <param>, <returns> 등)";
            t_rules :=
              [lit "모든 public 클래스/메서드에 /// 주석 추가";
          lit "<summary>: 한 줄 요약";
          lit "<param>: 매개변수 설명";
          lit "<returns>: 반환값 설명";
          lit "<exception>: 발생 가능한 예외";
          lit "<remarks>: 상세 설명 (옵션)";
          lit "<example>: 사용 예제 (옵션)"] |}
  | HARDCODING_TO_CONFIG =>
    Some {| t_name := lit "하드코딩 → Config 파일";
            t_description := lit "하드코딩된 설정값을 외부 설정 파일(appsettings.json, .env)로 분리";
            t_rules :=
              [lit "연결 문자열은 appsettings.json의 ConnectionStrings 섹션으로";
          lit "API URL은 appsettings.json의 ApiSettings 섹션으로";
          lit "매직 넘버는 상수(const) 또는 enum으로 분리";
          lit "파일 경로는 IConfiguration으로 관리";
          lit "환경별 설정은 appsettings.{Environment}.json 활용";
          lit "IConfiguration 인터페이스를 통한 의존성 주입"] |}
  end.

(** [_get_output_instruction] (lines 482-542).  The dictionary has the three
    members of [OutputFormat] as keys, so the default of [get] is never
    used. *)
Definition _get_output_instruction (output_format : OutputFormat) : str :=
  match output_format with
  | IMPROVED_CODE =>
    lit "입력된 원본 코드를 개선하여 출력하세요.

개선 규칙:
1. 클래스/메서드/필드 이름은 유지하되, 필요하면 새로운 필드/생성자/프로퍼티를 추가하세요
2. 하드코딩 제거: 하드코딩된 값을 IConfiguration으로 변경하고, 생성자 주입을 추가하세요
3. Null 체크, using 문, try-catch 등 필요한 구조를 추가하세요
4. SQL Injection 방지: 문자열 연결 대신 파라미터화된 쿼리를 사용하세요
5. XML 문서 주석(///)을 모든 public 클래스/메서드에 추가하세요
6. 순수 C# 코드만 출력 (마크다운 코드 블록이나 설명 텍스트 제외)
7. 반드시 유효한 C# 문법으로만 출력

예시:
입력:
```
class UserService {
    string apiUrl = "
    ++ [34]%N
    ++ lit "https://api.com"
    ++ [34]%N
    ++ lit ";
    void GetData() { /* ... */ }
}
```

출력:
```
/// <summary>
/// 사용자 서비스 클래스
/// </summary>
class UserService {
    private readonly IConfiguration _config;

    /// <summary>
    /// UserService 생성자
    /// </summary>
    /// <param name="
    ++ [34]%N
    ++ lit "config"
    ++ [34]%N
    ++ lit ">설정 객체</param>
    public UserService(IConfiguration config) { _config = config; }

    /// <summary>
    /// 데이터를 가져옵니다
    /// </summary>
    void GetData() {
        string apiUrl = _config["
    ++ [34]%N
    ++ lit "ApiSettings:Url"
    ++ [34]%N
    ++ lit "];
        /* ... */
    }
}
```"
  | CODE_COMMENTS =>
    lit "원본 코드에 XML 문서 주석을 추가하여 출력하세요."
  | FLOW_DIAGRAM =>
    lit "Mermaid 형식의 플로우 다이어그램을 출력하세요."
  end.

(** ['\n'.join(parts)]. *)
Fixpoint join_lines (parts : list str) : str :=
  match parts with
  | [] => []
  | [part] => part
  | part :: parts' => part ++ [10]%N ++ join_lines parts'
  end.

Section Builder.

(** [self.review_templates], a dictionary keyed by category, and
    [self.few_shot_examples], as [__init__] left them. *)
Variable review_templates : ReviewCategory -> option template.
Variable few_shot_examples : list example.

(** Lines 400-402: one line per category; a category without a template
    raises [KeyError] at its turn. *)
Fixpoint category_parts (categories : list ReviewCategory)
  : exn + list str :=
  match categories with
  | [] => inr []
  | category :: categories' =>
    match review_templates category with
    | None => inl (KeyError category)
    | Some template =>
      match category_parts categories' with
      | inl e => inl e
      | inr parts =>
        inr (([10]%N ++ lit "• " ++ t_name template ++ lit ": "
                ++ t_description template) :: parts)
      end
    end
  end.

(** Lines 406-409: the examples of the requested categories. *)
Definition relevant_examples (categories : list ReviewCategory)
  : list example :=
  filter
    (fun ex => existsb (ReviewCategory_eqb (ex_category ex)) categories)
    few_shot_examples.

(** Lines 413-417: three parts per example. *)
Fixpoint example_parts (examples : list example) : exn + list str :=
  match examples with
  | [] => inr []
  | ex :: examples' =>
    match review_templates (ex_category ex) with
    | None => inl (KeyError (ex_category ex))
    | Some template =>
      match example_parts examples' with
      | inl e => inl e
      | inr parts =>
        inr (([10]%N ++ lit "[" ++ t_name template ++ lit "]")
               :: (lit "Before:" ++ [10]%N ++ ex_before ex)
               :: ([10]%N ++ lit "After:" ++ [10]%N ++ ex_after ex
                     ++ [10]%N)
               :: parts)
      end
    end
  end.

(** The part of line 420 and the part of line 423. *)
Definition code_part (code : str) : str :=
  [10]%N ++ lit "분석할 코드:" ++ [10]%N ++ lit "```csharp" ++ [10]%N ++ code
    ++ [10]%N ++ lit "```".

Definition instruction_part (output_format : OutputFormat) : str :=
  [10]%N ++ _get_output_instruction output_format.

(** [build_review_prompt] (lines 376-425): the list [prompt_parts], or the
    exception raised while it was being filled. *)
Definition prompt_parts (code : str) (categories : list ReviewCategory)
    (output_format : OutputFormat) (include_examples : bool)
  : exn + list str :=
  match
    match categories with
    | [] => inr []
    | _ :: _ =>
      match category_parts categories with
      | inl e => inl e
      | inr parts => inr (lit "다음 항목을 중점적으로 검토하세요:" :: parts)
      end
    end
  with
  | inl e => inl e
  | inr parts1 =>
    match
      if include_examples && negb (Nat.eqb (List.length categories) 0) then
        match relevant_examples categories with
        | [] => inr []
        | ex :: exs =>
          match example_parts (firstn 2 (ex :: exs)) with
          | inl e => inl e
          | inr parts => inr (([10; 10]%N ++ lit "예제:") :: parts)
          end
        end
      else inr []
    with
    | inl e => inl e
    | inr parts2 =>
      inr (parts1 ++ parts2
             ++ [code_part code; instruction_part output_format])
    end
  end.

Definition build_review_prompt (code : str) (categories : list ReviewCategory)
    (output_format : OutputFormat) (include_examples : bool) : exn + str :=
  match prompt_parts code categories output_format include_examples with
  | inl e => inl e
  | inr parts => inr (join_lines parts)
  end.

End Builder.

(** What [__init__] reads from the Markdown files for one category
    ([CategoryLoader.load_all], a dictionary keyed by the category's value). *)
Record category_data : Type := CategoryData {
  d_name : str;
  d_description : str;
  d_rules : list str;
  d_examples : list (str * str)
}.

Section FromMarkdown.

Variable categories_data : str -> option category_data.

(** [_build_templates_from_markdown] (lines 321-345): a template for each
    category whose value is a key of the loaded data. *)
Definition _build_templates_from_markdown (c : ReviewCategory)
  : option template :=
  match categories_data (ReviewCategory_value c) with
  | Some data => Some (Template (d_name data) (d_description data) (d_rules data))
  | None => None
  end.

(** [_build_examples_from_markdown] (lines 347-374): in the order of the
    enumeration, the first example of each category that has data and at
    least one example. *)
Definition _build_examples_from_markdown : list example :=
  flat_map
    (fun c =>
       match categories_data (ReviewCategory_value c) with
       | Some data =>
         match d_examples data with
         | first_example :: _ =>
           [Example c (fst first_example) (snd first_example)]
         | [] => []
         end
       | None => []
       end)
    all_categories.

End FromMarkdown.

End PromptBuilder.

(* ================================================================== *)
(** ** The analyzer with its prompt builder

    [BatchAnalyzer] with a [PromptBuilder] as its [prompt_builder]
    (batch_analyzer.py, line 74): building a prompt reads the builder's
    templates and examples and leaves the environment alone. *)

Module WithPromptBuilder.

Import BatchAnalyzer PromptBuilder.

(** The first of [categories] for which the builder has no template. *)
Definition first_without_template
    (review_templates : ReviewCategory -> option template)
    (categories : list ReviewCategory) : option ReviewCategory :=
  find
    (fun c => match review_templates c with None => true | Some _ => false end)
    categories.

Section Analyzer.

Variable Env : Type.
Variable review_templates : ReviewCategory -> option template.
Variable few_shot_examples : list example.

(** [self.prompt_builder.build_review_prompt], seen from the analyzer. *)
Definition prompt_builder_build (code : str) (cats : list ReviewCategory)
    (fmt : OutputFormat) (include_examples : bool) (env : Env)
  : (exn + str) * Env :=
  (build_review_prompt review_templates few_shot_examples code cats fmt
     include_examples, env).

Variable Path_name : str -> str.
Variable open_read : str -> Env -> (exn + str) * Env.
Variable analyze_code : str -> bool -> Env -> call * Env.
Variable generate_report :
  str -> str -> list str -> str -> Env -> (exn + str) * Env.

Definition _analyze_single_file (file_path : str) (env : Env)
  : FileAnalysisResult * Env * list event :=
  BatchAnalyzer._analyze_single_file Path_name open_read
    PromptBuilder.SYSTEM_PROMPT prompt_builder_build analyze_code
    generate_report file_path env.

End Analyzer.

End WithPromptBuilder.

(* ================================================================== *)
(** ** app/core/api_client.py: construction *)

Module APIClientSetup.

(** An entry of [MODELS]: ['max_tokens'] and ['context_window']. *)
Record model_config : Type := ModelConfig {
  cfg_max_tokens : Z;
  cfg_context_window : Z
}.

(** [MODELS] (lines 60-94): a dictionary of dictionaries, in source order. *)
Definition MODELS : list (str * list (str * model_config)) :=
  Eval vm_compute in
  [
   (lit "openai",
     [(lit "gpt-5.1", ModelConfig 16384 128000);
      (lit "gpt-5", ModelConfig 16384 128000);
      (lit "gpt-5-mini", ModelConfig 16384 128000);
      (lit "gpt-5-nano", ModelConfig 16384 128000);
      (lit "gpt-5.1-chat-latest", ModelConfig 16384 128000);
      (lit "gpt-5-chat-latest", ModelConfig 16384 128000);
      (lit "gpt-5.1-codex", ModelConfig 16384 128000);
      (lit "gpt-5-codex", ModelConfig 16384 128000);
      (lit "gpt-5-pro", ModelConfig 16384 128000);
      (lit "gpt-4.1", ModelConfig 16384 128000);
      (lit "gpt-4.1-mini", ModelConfig 16384 128000);
      (lit "gpt-4.1-nano", ModelConfig 16384 128000);
      (lit "gpt-4", ModelConfig 8192 8192);
      (lit "gpt-4-turbo", ModelConfig 4096 128000);
      (lit "gpt-4o", ModelConfig 4096 128000);
      (lit "gpt-4o-2024-05-13", ModelConfig 4096 128000);
      (lit "gpt-4o-mini", ModelConfig 16384 128000);
      (lit "gpt-3.5-turbo", ModelConfig 4096 16385);
      (lit "gpt-realtime", ModelConfig 4096 128000)]);
   (lit "anthropic",
     [(lit "claude-3-5-sonnet-20241022", ModelConfig 8192 200000);
      (lit "claude-3-5-haiku-20241022", ModelConfig 8192 200000);
      (lit "claude-3-opus-20240229", ModelConfig 4096 200000);
      (lit "claude-3-sonnet-20240229", ModelConfig 4096 200000);
      (lit "claude-3-haiku-20240307", ModelConfig 4096 200000)])
  ]%Z.

(** [d.get(key)] on a dictionary written as the list of its items. *)
Fixpoint dict_get (V : Type) (key : str) (d : list (str * V)) : option V :=
  match d with
  | [] => None
  | (k, v) :: d' => if eqb k key then Some v else dict_get key d'
  end.

(** Lines 119-123: the model used when none is named. *)
Definition default_model (provider : str) : str :=
  if eqb provider (lit "openai") then lit "gpt-4o-mini"
  else lit "claude-3-5-haiku-20241022".

(** Line 128: [provider in MODELS and model_name in MODELS[provider]]. *)
Definition lookup (provider model_name : str) : option model_config :=
  match dict_get provider MODELS with
  | None => None
  | Some models => dict_get model_name models
  end.

Definition model_not_found (model_name provider : str) : exn :=
  Exn ModelNotFoundError
    (lit "Model '" ++ model_name ++ lit "' not found for provider '"
       ++ provider ++ lit "'").

Definition openai_key_missing : exn :=
  Exn APIKeyMissingError
    (lit "OPENAI_API_KEY not found in environment variables").
Definition anthropic_key_missing : exn :=
  Exn APIKeyMissingError
    (lit "ANTHROPIC_API_KEY not found in environment variables").
Definition openai_not_installed : exn :=
  Exn APIClientError
    (lit "openai package not installed. Run: pip install openai").
Definition anthropic_not_installed : exn :=
  Exn APIClientError
    (lit "anthropic package not installed. Run: pip install anthropic").

Section Init.

(** The type of [temperature] (a float) and of the SDK's client object. *)
Variable Temperature : Type.
Variable Handle : Type.
(** [os.getenv], whether [from <package> import ...] succeeds, and the
    constructor of the SDK's client ([OpenAI(api_key=..., timeout=...)] or
    [Anthropic(...)]), whose exception, if it raises one, is taken not to be
    an [ImportError]. *)
Variable getenv : str -> option str.
Variable importable : str -> bool.
Variable sdk_new : str -> str -> Z -> exn + Handle.

(** The attributes of a constructed [APIClient]; [client] is [None] when
    [_init_clients] assigned nothing. *)
Record client : Type := Client {
  provider : str;
  timeout : Z;
  temperature : Temperature;
  model_name : str;
  context_window : Z;
  max_tokens : Z;
  handle : option Handle
}.

(** One branch of [_init_clients] (lines 143-151 and 154-162): import the
    package, read the key, build the SDK's client. *)
Definition init_with (package key_name : str) (not_installed key_missing : exn)
    (timeout : Z) : outcome (option Handle) :=
  if importable package then
    match getenv key_name with
    | None => Raised key_missing
    | Some api_key =>
      if truthy api_key then
        match sdk_new package api_key timeout with
        | inl e => Raised e
        | inr h => Returned (Some h)
        end
      else Raised key_missing
    end
  else Raised not_installed.

(** [_init_clients] (lines 140-162). *)
Definition _init_clients (provider : str) (timeout : Z)
  : outcome (option Handle) :=
  if eqb provider (lit "openai") then
    init_with (lit "openai") (lit "OPENAI_API_KEY") openai_not_installed
      openai_key_missing timeout
  else if eqb provider (lit "anthropic") then
    init_with (lit "anthropic") (lit "ANTHROPIC_API_KEY")
      anthropic_not_installed anthropic_key_missing timeout
  else Returned None.

(** [__init__] (lines 96-138), the calls to the logger left out:
    [model_name] and [max_tokens] are [None] when not given. *)
Definition __init__ (provider : str) (model_name : option str) (timeout : Z)
    (temperature : Temperature) (max_tokens : option Z) : outcome client :=
  let model_name :=
    match model_name with
    | None => default_model provider
    | Some name => name
    end in
  match lookup provider model_name with
  | None => Raised (model_not_found model_name provider)
  | Some model_config =>
    let max_tokens :=
      match max_tokens with
      | None => cfg_max_tokens model_config
      | Some m => if (m =? 0)%Z then cfg_max_tokens model_config else m
      end in
    match _init_clients provider timeout with
    | Raised e => Raised e
    | Returned h =>
      Returned
        (Client provider timeout temperature model_name
           (cfg_context_window model_config) max_tokens h)
    end
  end.

(** [get_model_info] (lines 344-357): the values under the keys
    ['provider'], ['name'], ['context_window'], ['max_tokens'] and
    ['temperature']. *)
Definition get_model_info (self : client)
  : str * str * Z * Z * Temperature :=
  (provider self, model_name self, context_window self, max_tokens self,
   temperature self).

End Init.

(** The environment variable [_init_clients] reads for a provider. *)
Definition api_key_name (provider : str) : str :=
  if eqb provider (lit "openai") then lit "OPENAI_API_KEY"
  else lit "ANTHROPIC_API_KEY".

(** [not os.getenv(name)]: the variable is unset or empty. *)
Definition key_unset (getenv : str -> option str) (name : str) : bool :=
  match getenv name with
  | None => true
  | Some value => negb (truthy value)
  end.

(** Every entry of a table of models satisfies [P]. *)
Definition all_models (P : model_config -> bool) : bool :=
  forallb (fun entry => forallb (fun m => P (snd m)) (snd entry)) MODELS.

End APIClientSetup.

(* ================================================================== *)
(** ** app/core/report_generator.py *)

Module ReportGenerator.

Import PromptBuilder.

(** [s.split('\n')]: the lines of [s]; one more than it has line feeds. *)
Fixpoint split_lines (s : str) : list str :=
  match s with
  | [] => [[]]
  | c :: s' =>
    if (c =? 10)%N then [] :: split_lines s'
    else
      match split_lines s' with
      | [] => [[c]]
      | line :: lines => (c :: line) :: lines
      end
  end.

(** ['\n\n'.join(sections)]. *)
Fixpoint join_sections (sections : list str) : str :=
  match sections with
  | [] => []
  | [section] => section
  | section :: sections' => section ++ [10; 10]%N ++ join_sections sections'
  end.

(** [f"{z:+d}"]: the sign is always written. *)
Definition signed (z : Z) : str :=
  if (z <? 0)%Z then str_of_Z z else lit "+" ++ str_of_Z z.

(** [len([l for l in s.split('\n') if l.strip()])]. *)
Definition count_lines (s : str) : nat :=
  List.length (filter (fun l => truthy (strip l)) (split_lines s)).

(** [_generate_header] (lines 115-121); [time_text] is
    [analysis_time.strftime('%Y-%m-%d %H:%M:%S')]. *)
Definition _generate_header (time_text model_name : str) : str :=
  lit "# C# 코드 리뷰 리포트"
    ++ [10; 10]%N
    ++ lit "**생성 일시**: "
    ++ time_text
    ++ [10]%N
    ++ lit "**분석 모델**: "
    ++ model_name
    ++ [10]%N
    ++ lit "**생성 도구**: C# Code Reviewer v1.0.0".

(** [_generate_summary] (lines 123-134). *)
Definition _generate_summary (original improved : str) (categories : list str)
  : str :=
  let original_lines := count_lines original in
  let improved_lines := count_lines improved in
  let added_lines := (Z.of_nat improved_lines - Z.of_nat original_lines)%Z in
  lit "## 📊 요약"
    ++ [10; 10]%N
    ++ lit "- **원본 코드**: "
    ++ str_of_nat original_lines
    ++ lit " 줄"
    ++ [10]%N
    ++ lit "- **개선 코드**: "
    ++ str_of_nat improved_lines
    ++ lit " 줄"
    ++ [10]%N
    ++ lit "- **추가된 줄**: "
    ++ signed added_lines
    ++ lit " 줄"
    ++ [10]%N
    ++ lit "- **적용 카테고리**: "
    ++ str_of_nat (List.length categories)
    ++ lit "개".

(** The dictionary [category_names] (lines 138-147). *)
Definition category_names : list (str * str) :=
  [(lit "null_reference", lit "Null 참조 체크");
   (lit "exception_handling", lit "Exception 처리");
   (lit "resource_management", lit "리소스 관리");
   (lit "performance", lit "성능 최적화");
   (lit "security", lit "보안");
   (lit "naming_convention", lit "네이밍 컨벤션");
   (lit "code_documentation", lit "XML 문서 주석");
   (lit "hardcoding_to_config", lit "하드코딩 → Config 파일")].

(** [category_names.get(cat, cat)]. *)
Definition display_name (cat : str) : str :=
  match APIClientSetup.dict_get cat category_names with
  | Some name => name
  | None => cat
  end.

(** [_generate_categories_section] (lines 136-153). *)
Definition _generate_categories_section (categories : list str) : str :=
  let items :=
    map (fun cat => lit "- ✅ **" ++ display_name cat ++ lit "**") categories in
  lit "## 🎯 적용된 리뷰 카테고리"
    ++ [10; 10]%N
    ++ join_lines items.

(** [_generate_code_comparison] (lines 155-169). *)
Definition _generate_code_comparison (original improved : str) : str :=
  lit "## 📝 코드 비교"
    ++ [10; 10]%N
    ++ lit "### Before (원본 코드)"
    ++ [10; 10]%N
    ++ lit "```csharp"
    ++ [10]%N
    ++ original
    ++ [10]%N
    ++ lit "```"
    ++ [10; 10]%N
    ++ lit "### After (개선된 코드)"
    ++ [10; 10]%N
    ++ lit "```csharp"
    ++ [10]%N
    ++ improved
    ++ [10]%N
    ++ lit "```".

(** The bullets of [_generate_improvements_section] (lines 177-189). *)
Definition bullet_null : str :=
  lit "- 🔍 **Null 체크 추가**: 입력 검증으로 NullReferenceException 방지".
Definition bullet_using : str :=
  lit "- 🧹 **리소스 관리 개선**: using 문으로 자동 리소스 해제".
Definition bullet_try : str :=
  lit "- ⚠️ **예외 처리 추가**: try-catch 블록으로 에러 핸들링 강화".
Definition bullet_throw : str :=
  lit "- 🚫 **명시적 예외 발생**: 잘못된 입력에 대한 명확한 피드백".
Definition bullet_generic : str :=
  lit "- ✨ 코드 품질 개선".

Section Generator.

(** [str.lower], and [re.findall] with the pattern of line 85 and the flags
    of line 86: the contents of the fenced code blocks of a response. *)
Variable lower : str -> str.
Variable findall_code_blocks : str -> list str.

(** The list [improvements] (lines 173-189). *)
Definition improvements (original improved : str) : list str :=
  let found :=
    (if contains (lit "null") (lower improved)
        && negb (contains (lit "null") (lower original))
     then [bullet_null] else [])
    ++ (if contains (lit "using") improved
           && negb (contains (lit "using") original)
        then [bullet_using] else [])
    ++ (if contains (lit "try") improved || contains (lit "catch") improved
        then [bullet_try] else [])
    ++ (if contains (lit "throw") improved
           && negb (contains (lit "throw") original)
        then [bullet_throw] else []) in
  match found with
  | [] => [bullet_generic]
  | _ :: _ => found
  end.

(** [_generate_improvements_section] (lines 171-195). *)
Definition _generate_improvements_section (original improved : str) : str :=
  let improvements_text := join_lines (improvements original improved) in
  lit "## 🔍 주요 개선 사항"
    ++ [10; 10]%N
    ++ improvements_text.

(** [_generate_footer] (lines 197-207). *)
Definition _generate_footer (model_name : str) : str :=
  lit "---"
    ++ [10; 10]%N
    ++ lit "## 📌 참고사항"
    ++ [10; 10]%N
    ++ lit "이 리포트는 AI("
    ++ model_name
    ++ lit ")가 자동으로 생성한 코드 리뷰 결과입니다."
    ++ [10]%N
    ++ lit "최종 적용 전에 반드시 개발자가 검토해야 합니다."
    ++ [10; 10]%N
    ++ lit "**생성 도구**: [C# Code Reviewer (API)](https://github.com/daehyub71/csharp-code-reviewer-api)"
    ++ [10]%N
    ++ lit "**사용 모델**: "
    ++ model_name.

(** The words that open an explanation (line 100) and the starts of a line
    of code (lines 105-107). *)
Definition explanation_keywords : list str :=
  [lit "분석:"; lit "개선:"; lit "설명:"; lit "Analysis:"; lit "Improvement:"].

Definition code_starts : list str :=
  [lit "public"; lit "private"; lit "protected"; lit "internal";
   lit "class"; lit "interface"; lit "namespace"; lit "using";
   lit "{"; lit "}"; lit "//"].

(** The loop of lines 98-108, [in_code] being its state. *)
Fixpoint code_lines (lines : list str) (in_code : bool) : list str :=
  match lines with
  | [] => []
  | line :: lines' =>
    if existsb (fun keyword => contains keyword line) explanation_keywords
    then code_lines lines' false
    else if in_code
            || existsb (fun start => startswith start (strip line)) code_starts
    then line :: code_lines lines' in_code
    else code_lines lines' in_code
  end.

(** [_extract_code_from_response] (lines 74-113). *)
Definition _extract_code_from_response (llm_response : str) : str :=
  match findall_code_blocks llm_response with
  | first_block :: _ => strip first_block
  | [] =>
    let result :=
      strip (join_lines (code_lines (split_lines llm_response) true)) in
    if truthy result then result else strip llm_response
  end.

(** [generate_report] (lines 24-72); [time_text] is the formatted
    [analysis_time], the current time when none is given. *)
Definition generate_report (original_code improved_code : str)
    (categories : list str) (model_name time_text : str) : str :=
  let clean_improved_code := _extract_code_from_response improved_code in
  join_sections
    [_generate_header time_text model_name;
     _generate_summary original_code clean_improved_code categories;
     _generate_categories_section categories;
     _generate_code_comparison original_code clean_improved_code;
     _generate_improvements_section original_code clean_improved_code;
     _generate_footer model_name].

End Generator.

End ReportGenerator.

(* ================================================================== *)
(** ** app/ui/main_window.py: the caller of the batch analyzer *)

Module MainWindow.

Import BatchAnalyzer.

(** The line printed at 1136. *)
Definition line_save_failed (file_name : str) (save_error : exn) : str :=
  file_name ++ lit " 리포트 저장 실패: " ++ exn_str save_error.

(** What the loop of lines 1123-1136 does to the outside. *)
Inductive event : Type :=
| SaveReport (result : FileAnalysisResult)
| PrintLine (line : str).

Section SaveLoop.

(** The report store, and [self.report_saver.save_report] called with the
    fields of a result (lines 1126-1133); the three values it returns are
    not used. *)
Variable Store : Type.
Variable save_report : FileAnalysisResult -> Store -> outcome unit * Store.

(** The loop of lines 1123-1136, [saved_count] being its counter. *)
Fixpoint save_loop (results : list FileAnalysisResult) (saved_count : nat)
    (store : Store) : nat * Store * list event :=
  match results with
  | [] => (saved_count, store, [])
  | result :: results' =>
    if success result then
      match save_report result store with
      | (Returned _, store1) =>
        match save_loop results' (saved_count + 1) store1 with
        | (n, store2, ev) => (n, store2, SaveReport result :: ev)
        end
      | (Raised save_error, store1) =>
        match save_loop results' saved_count store1 with
        | (n, store2, ev) =>
          (n, store2,
           SaveReport result
             :: PrintLine (line_save_failed (file_name result) save_error)
             :: ev)
        end
      end
    else save_loop results' saved_count store
  end.

(** Lines 1122-1136: [saved_count = 0] and the loop over
    [batch_result.results]. *)
Definition save_successful_reports (batch_result : BatchAnalysisResult)
    (store : Store) : nat * Store * list event :=
  save_loop (results batch_result) 0 store.

End SaveLoop.

(** The results handed to the saver, in order, and the lines printed. *)
Definition saves (tr : list event) : list FileAnalysisResult :=
  flat_map (fun ev => match ev with SaveReport r => [r] | _ => [] end) tr.

Definition printed (tr : list event) : list str :=
  flat_map (fun ev => match ev with PrintLine l => [l] | _ => [] end) tr.

End MainWindow.

(* ================================================================== *)
(** ** More stand-ins, for the examples of the later sections *)

Module StubMore.

Import BatchAnalyzer.

(** The built-in templates, the one of [SECURITY] missing. *)
Definition templates_without_security (c : ReviewCategory)
  : option PromptBuilder.template :=
  match c with
  | SECURITY => None
  | _ => PromptBuilder.REVIEW_TEMPLATES c
  end.

(** A machine with both packages installed and both keys set; the SDK's
    constructor returns the handle 7. *)
Definition getenv (_ : str) : option str := Some (lit "sk-test").
Definition importable (_ : str) : bool := true.
Definition sdk_new (_ _ : str) (_ : Z) : exn + nat := inr 7.

(** The client [APIClient('openai', timeout=60)] builds there. *)
Definition default_openai_client : APIClientSetup.client unit nat :=
  @APIClientSetup.Client unit nat (lit "openai") 60%Z tt (lit "gpt-4o-mini")
    128000%Z 16384%Z (Some 7).

(** A response without a fenced block: the pattern finds nothing. *)
Definition no_code_block (_ : str) : list str := [].
Definition plain_response : str :=
  lit "  public class A{}" ++ [10]%N ++ lit "// checked" ++ [10]%N.

(** The world of the wired analyzer before anything happened. *)
Definition fresh_world : Wiring.world nat nat := @Wiring.World nat nat 0 [] 0.

End StubMore.

(* ================================================================== *)
(** ** Facts about strings *)

Section StringFacts.

Lemma startswith_nil_r (p : str) : truthy p = true -> startswith p [] = false.
Proof. destruct p; simpl; [discriminate | reflexivity]. Qed.

Lemma contains_nil_r (p : str) : truthy p = true -> contains p [] = false.
Proof. destruct p; simpl; [discriminate | reflexivity]. Qed.

(** An occurrence in a suffix is an occurrence in the whole. *)
Lemma contains_app_r (p a b : str) :
  contains p b = true -> contains p (a ++ b) = true.
Proof.
  intros Hb. induction a as [|c a IH]; simpl; [exact Hb|].
  rewrite IH. apply orb_true_r.
Qed.

(** A text in which the first code point of [p] does not occur cannot hold
    the start of an occurrence of [p]. *)
Lemma contains_skip_prefix (m : N) (p a b : str) :
  forallb (fun c => negb (m =? c)%N) a = true ->
  contains (m :: p) (a ++ b) = contains (m :: p) b.
Proof.
  induction a as [|c a IH]; intros Ha; [reflexivity|].
  simpl in Ha. apply andb_true_iff in Ha as [Hc Ha].
  change (contains (m :: p) ((c :: a) ++ b))
    with (startswith (m :: p) (c :: a ++ b) || contains (m :: p) (a ++ b)).
  rewrite (IH Ha). simpl startswith.
  apply negb_true_iff in Hc. rewrite Hc. reflexivity.
Qed.

Lemma truthy_app_l (a b : str) : truthy a = true -> truthy (a ++ b) = true.
Proof. destruct a; simpl; [discriminate | reflexivity]. Qed.

Lemma truthy_false_nil (s : str) : truthy s = false <-> s = [].
Proof. destruct s; simpl; split; congruence. Qed.

End StringFacts.

(* ================================================================== *)
(** ** Properties of [APIClient] *)

Section APIClientProperties.

Import APIClient APIClientRun.

Variable Net : Type.
Variable self_provider : provider.
Variable sdk_create : str -> Net -> (exn + str) * Net.
Variable sdk_stream : str -> Net -> (list str * option exn) * Net.

Local Abbreviation analyze_code := (analyze_code sdk_create).
Local Abbreviation analyze_code_loop := (analyze_code_loop sdk_create).
Local Abbreviation try_block := (try_block sdk_create).
Local Abbreviation for_token_in_analyze_code :=
  (for_token_in_analyze_code self_provider sdk_create sdk_stream).
Local Abbreviation _stream_response_body :=
  (_stream_response_body self_provider sdk_stream).

Lemma range_pos (n : Z) :
  (0 < n)%Z -> range n = 0%Z :: map Z.of_nat (seq 1 (Z.to_nat n - 1)).
Proof.
  intros Hn. unfold range.
  replace (Z.to_nat n) with (S (Z.to_nat n - 1)) at 1 by lia.
  reflexivity.
Qed.

Lemma range_nonpos (n : Z) : (n <= 0)%Z -> range n = [].
Proof.
  intros Hn. unfold range. replace (Z.to_nat n) with 0 by lia. reflexivity.
Qed.

(** In streaming mode the first pass through the loop returns the generator:
    no request has been made and nothing can have been caught. *)
Lemma analyze_code_stream_returns_generator (prompt : str) (n : Z) (net : Net) :
  (0 < n)%Z ->
  analyze_code prompt true n net = (Returned (RetGenerator prompt), net, []).
Proof.
  intros Hn. unfold analyze_code. rewrite (range_pos Hn). reflexivity.
Qed.

(** The caller's loop then runs the generator body once, outside the retry
    loop, and receives whatever it raises. *)
Lemma streaming_runs_body_once (prompt : str) (n : Z) (net : Net) :
  (0 < n)%Z ->
  for_token_in_analyze_code prompt n net = _stream_response_body prompt net.
Proof.
  intros Hn. unfold for_token_in_analyze_code.
  rewrite (analyze_code_stream_returns_generator prompt net Hn).
  simpl. destruct (_stream_response_body prompt net) as [[d net'] ev].
  reflexivity.
Qed.

Lemma steps_app (a b : list event) : steps (a ++ b) = steps a ++ steps b.
Proof. apply flat_map_app. Qed.

Lemma caught_app (a b : list event) : caught (a ++ b) = caught a ++ caught b.
Proof. apply flat_map_app. Qed.

Lemma requests_app (a b : list event) :
  requests (a ++ b) = requests a ++ requests b.
Proof. apply flat_map_app. Qed.

Lemma sleeps_app (a b : list event) : sleeps (a ++ b) = sleeps a ++ sleeps b.
Proof. apply flat_map_app. Qed.

(** What one pass through the [try] block leaves in the trace. *)
Lemma try_block_trace (prompt : str) (stream : bool) (net : Net) :
  match try_block prompt stream net with
  | (o, _, ev) =>
    caught ev = [] /\ sleeps ev = [] /\ o <> Returned RetNone
    /\ match o with
       | Returned _ =>
         steps ev = (if answered o then [Tried] else [])
         /\ List.length (requests ev) <= 1
       | Raised _ => steps ev = [Tried] /\ requests ev = [false]
       end
  end.
Proof.
  unfold APIClient.try_block, _get_response. destruct stream.
  - repeat split; simpl; auto; discriminate.
  - destruct (sdk_create prompt net) as [[e|text] net'];
      repeat split; simpl; auto; discriminate.
Qed.

(** One turn of the loop. *)
Lemma analyze_code_loop_cons (prompt : str) (stream : bool) (n attempt : Z)
    (rest : list Z) (net : Net) :
  analyze_code_loop prompt stream n (attempt :: rest) net
  = match try_block prompt stream net with
    | (Returned r, net', ev) => (Returned r, net', ev)
    | (Raised e, net', ev) =>
      if (attempt <? n - 1)%Z then
        match analyze_code_loop prompt stream n rest net' with
        | (r, net'', ev') =>
          (r, net'',
           ev ++ [LogAttemptFailed (attempt + 1) n e;
                  LogRetrying (2 ^ attempt)%Z; BackoffSleep (2 ^ attempt)%Z]
              ++ ev')
        end
      else
        (Raised (failed_after n e), net',
         ev ++ [LogAttemptFailed (attempt + 1) n e; LogAllFailed n])
    end.
Proof. reflexivity. Qed.

(** The loop over the attempts [a, a+1, ..., a+len-1], the last of which is
    attempt [n-1]. *)
Lemma analyze_code_loop_schedule (prompt : str) (stream : bool) (len : nat) :
  forall (a : nat) (net : Net),
    let n := Z.of_nat (a + S len) in
    match analyze_code_loop prompt stream n
            (map Z.of_nat (seq a (S len))) net with
    | (o, _, tr) =>
      steps tr = backoff_schedule n (Z.of_nat a) (caught tr) (answered o)
      /\ List.length (requests tr) <= S len
      /\ sleeps tr
         = map (fun k => (2 ^ Z.of_nat k)%Z)
             (seq a (Nat.min (List.length (caught tr)) len))
      /\ match o with
         | Raised x =>
           List.length (caught tr) = S len
           /\ exists errs e, caught tr = errs ++ [e] /\ x = failed_after n e
         | Returned r => List.length (caught tr) < S len /\ r <> RetNone
         end
    end.
Proof.
  induction len as [|len IH]; intros a net n.
  - (* the last attempt *)
    change (map Z.of_nat (seq a 1)) with [Z.of_nat a].
    rewrite analyze_code_loop_cons.
    pose proof (try_block_trace prompt stream net) as Ht.
    destruct (try_block prompt stream net) as [[[r|e] net'] ev];
      destruct Ht as (Hc & Hs & Hnone & Ho).
    + destruct Ho as [Hst Hrq]. rewrite Hc, Hs, Hst. simpl.
      repeat split; auto. congruence.
    + destruct Ho as [Hst Hrq].
      replace (Z.of_nat a <? n - 1)%Z with false
        by (symmetry; apply Z.ltb_ge; subst n; lia).
      rewrite steps_app, caught_app, requests_app, sleeps_app, Hc, Hs, Hst, Hrq.
      simpl. rewrite Z.add_simpl_r.
      replace (Z.of_nat a <? n - 1)%Z with false
        by (symmetry; apply Z.ltb_ge; subst n; lia).
      repeat split; auto.
      exists [], e. split; reflexivity.
  - (* an earlier attempt *)
    change (map Z.of_nat (seq a (S (S len))))
      with (Z.of_nat a :: map Z.of_nat (seq (S a) (S len))).
    rewrite analyze_code_loop_cons.
    pose proof (try_block_trace prompt stream net) as Ht.
    destruct (try_block prompt stream net) as [[[r|e] net'] ev];
      destruct Ht as (Hc & Hs & Hnone & Ho).
    + destruct Ho as [Hst Hrq]. rewrite Hc, Hs, Hst. simpl.
      repeat split; auto; try lia. congruence.
    + destruct Ho as [Hst Hrq].
      replace (Z.of_nat a <? n - 1)%Z with true
        by (symmetry; apply Z.ltb_lt; subst n; lia).
      specialize (IH (S a) net'). cbv zeta in IH.
      replace (Z.of_nat (S a + S len)) with n in IH by (subst n; lia).
      destruct (analyze_code_loop prompt stream n
                  (map Z.of_nat (seq (S a) (S len))) net')
        as [[o net''] tr'].
      destruct IH as (IHst & IHrq & IHsl & IHo). cbv beta iota.
      rewrite !steps_app, !caught_app, !requests_app, !sleeps_app,
        Hc, Hs, Hst, Hrq.
      simpl. rewrite Z.add_simpl_r, IHst, IHsl.
      replace (Z.of_nat a <? n - 1)%Z with true
        by (symmetry; apply Z.ltb_lt; subst n; lia).
      replace (Z.of_nat a + 1)%Z with (Z.of_nat (S a)) by lia.
      repeat split; auto; try lia.
      destruct o as [r|x].
      * destruct IHo as [Hlt Hr]. split; [lia | exact Hr].
      * destruct IHo as [Hlen (errs & e' & Herrs & Hx)]. split; [lia|].
        exists (e :: errs), e'. rewrite Herrs. split; [reflexivity | exact Hx].
Qed.

(** One blocking attempt, by what the provider does. *)
Lemma try_block_blocking_failure (prompt : str) (net net1 : Net) (e : exn) :
  sdk_create prompt net = (inl e, net1) ->
  try_block prompt false net
  = (Raised e, net1,
     [LogSending false; SdkRequest false prompt; LogRequestFailed e]).
Proof.
  intros H. unfold APIClient.try_block, _get_response. rewrite H. reflexivity.
Qed.

Lemma try_block_blocking_answer (prompt : str) (net net1 : Net) (text : str) :
  sdk_create prompt net = (inr text, net1) ->
  try_block prompt false net
  = (Returned (RetText text), net1,
     [LogSending false; SdkRequest false prompt; LogReceived]).
Proof.
  intros H. unfold APIClient.try_block, _get_response. rewrite H. reflexivity.
Qed.

(** The blocking loop over the attempts [a, ..., a+len] against a provider
    that fails [errors] and then answers, while attempts remain. *)
Lemma analyze_code_loop_answered (prompt : str) (errors : list exn) :
  forall (a len : nat) (net net1 net2 : Net) (text : str),
    fails_with sdk_create prompt errors net net1 ->
    sdk_create prompt net1 = (inr text, net2) ->
    List.length errors <= len ->
    exists tr,
      analyze_code_loop prompt false (Z.of_nat (a + S len))
        (map Z.of_nat (seq a (S len))) net
      = (Returned (RetText text), net2, tr)
      /\ steps tr
         = backoff_schedule (Z.of_nat (a + S len)) (Z.of_nat a) errors true
      /\ sleeps tr
         = map (fun k => (2 ^ Z.of_nat k)%Z) (seq a (List.length errors))
      /\ List.length (requests tr) = S (List.length errors).
Proof.
  induction errors as [|e errors IH];
    intros a len net net1 net2 text Hf Ha Hlen.
  - simpl in Hf. subst net1.
    change (map Z.of_nat (seq a (S len)))
      with (Z.of_nat a :: map Z.of_nat (seq (S a) len)).
    rewrite analyze_code_loop_cons, (try_block_blocking_answer Ha).
    eexists. repeat split.
  - destruct Hf as (netx & He & Hf).
    destruct len as [|len]; [simpl in Hlen; lia|].
    change (map Z.of_nat (seq a (S (S len))))
      with (Z.of_nat a :: map Z.of_nat (seq (S a) (S len))).
    rewrite analyze_code_loop_cons, (try_block_blocking_failure He).
    set (n := Z.of_nat (a + S (S len))).
    replace (Z.of_nat a <? n - 1)%Z with true
      by (symmetry; apply Z.ltb_lt; subst n; lia).
    assert (Hlen' : List.length errors <= len) by (simpl in Hlen; lia).
    destruct (IH (S a) len netx net1 net2 text Hf Ha Hlen')
      as (tr & Heq & Hst & Hsl & Hrq).
    replace (Z.of_nat (S a + S len)) with n in Heq, Hst by (subst n; lia).
    rewrite Heq. eexists. split; [reflexivity|].
    rewrite !steps_app, !sleeps_app, !requests_app, Hst, Hsl.
    rewrite !length_app, Hrq.
    change (steps [LogSending false; SdkRequest false prompt;
                   LogRequestFailed e]) with [Tried].
    change (steps [LogAttemptFailed (Z.of_nat a + 1) n e;
                   LogRetrying (2 ^ Z.of_nat a)%Z;
                   BackoffSleep (2 ^ Z.of_nat a)%Z])
      with [Failed (Z.of_nat a + 1 - 1) e; Waited (2 ^ Z.of_nat a)%Z].
    change (sleeps [LogSending false; SdkRequest false prompt;
                    LogRequestFailed e]) with (@nil Z).
    change (sleeps [LogAttemptFailed (Z.of_nat a + 1) n e;
                    LogRetrying (2 ^ Z.of_nat a)%Z;
                    BackoffSleep (2 ^ Z.of_nat a)%Z])
      with [(2 ^ Z.of_nat a)%Z].
    change (requests [LogSending false; SdkRequest false prompt;
                      LogRequestFailed e]) with [false].
    change (requests [LogAttemptFailed (Z.of_nat a + 1) n e;
                      LogRetrying (2 ^ Z.of_nat a)%Z;
                      BackoffSleep (2 ^ Z.of_nat a)%Z])
      with (@nil bool).
    rewrite Z.add_simpl_r.
    change (backoff_schedule n (Z.of_nat a) (e :: errors) true)
      with (Tried :: Failed (Z.of_nat a) e
              :: (if (Z.of_nat a <? n - 1)%Z
                  then [Waited (2 ^ Z.of_nat a)%Z] else [])
              ++ backoff_schedule n (Z.of_nat a + 1) errors true).
    replace (Z.of_nat a <? n - 1)%Z with true
      by (symmetry; apply Z.ltb_lt; subst n; lia).
    replace (Z.of_nat a + 1)%Z with (Z.of_nat (S a)) by lia.
    repeat split.
Qed.

(** The blocking loop over the attempts [a, ..., a+len] against a provider
    that fails every one of them. *)
Lemma analyze_code_loop_exhausted (prompt : str) (e0 : exn)
    (errors : list exn) :
  forall (a len : nat) (net net1 : Net),
    fails_with sdk_create prompt errors net net1 ->
    List.length errors = S len ->
    exists tr,
      analyze_code_loop prompt false (Z.of_nat (a + S len))
        (map Z.of_nat (seq a (S len))) net
      = (Raised (failed_after (Z.of_nat (a + S len)) (last errors e0)),
         net1, tr)
      /\ steps tr
         = backoff_schedule (Z.of_nat (a + S len)) (Z.of_nat a) errors false
      /\ sleeps tr = map (fun k => (2 ^ Z.of_nat k)%Z) (seq a len)
      /\ List.length (requests tr) = S len.
Proof.
  induction errors as [|e errors IH]; intros a len net net1 Hf Hlen;
    [discriminate|].
  destruct Hf as (netx & He & Hf).
  destruct len as [|len].
  - destruct errors as [|e' errors]; [|discriminate].
    simpl in Hf. subst net1.
    change (map Z.of_nat (seq a 1)) with [Z.of_nat a].
    rewrite analyze_code_loop_cons, (try_block_blocking_failure He).
    set (n := Z.of_nat (a + 1)).
    replace (Z.of_nat a <? n - 1)%Z with false
      by (symmetry; apply Z.ltb_ge; subst n; lia).
    eexists. split; [reflexivity|].
    change (steps ([LogSending false; SdkRequest false prompt;
                    LogRequestFailed e]
                     ++ [LogAttemptFailed (Z.of_nat a + 1) n e;
                         LogAllFailed n]))
      with [Tried; Failed (Z.of_nat a + 1 - 1) e].
    rewrite Z.add_simpl_r.
    change (backoff_schedule n (Z.of_nat a) [e] false)
      with (Tried :: Failed (Z.of_nat a) e
              :: (if (Z.of_nat a <? n - 1)%Z
                  then [Waited (2 ^ Z.of_nat a)%Z] else []) ++ []).
    replace (Z.of_nat a <? n - 1)%Z with false
      by (symmetry; apply Z.ltb_ge; subst n; lia).
    repeat split.
  - change (map Z.of_nat (seq a (S (S len))))
      with (Z.of_nat a :: map Z.of_nat (seq (S a) (S len))).
    rewrite analyze_code_loop_cons, (try_block_blocking_failure He).
    set (n := Z.of_nat (a + S (S len))).
    replace (Z.of_nat a <? n - 1)%Z with true
      by (symmetry; apply Z.ltb_lt; subst n; lia).
    assert (Hlen' : List.length errors = S len) by (simpl in Hlen; lia).
    destruct (IH (S a) len netx net1 Hf Hlen')
      as (tr & Heq & Hst & Hsl & Hrq).
    replace (Z.of_nat (S a + S len)) with n in Heq, Hst by (subst n; lia).
    rewrite Heq. eexists. split.
    { destruct errors as [|e' errors]; [discriminate | reflexivity]. }
    rewrite !steps_app, !sleeps_app, !requests_app, Hst, Hsl.
    rewrite !length_app, Hrq.
    change (steps [LogSending false; SdkRequest false prompt;
                   LogRequestFailed e]) with [Tried].
    change (steps [LogAttemptFailed (Z.of_nat a + 1) n e;
                   LogRetrying (2 ^ Z.of_nat a)%Z;
                   BackoffSleep (2 ^ Z.of_nat a)%Z])
      with [Failed (Z.of_nat a + 1 - 1) e; Waited (2 ^ Z.of_nat a)%Z].
    change (sleeps [LogSending false; SdkRequest false prompt;
                    LogRequestFailed e]) with (@nil Z).
    change (sleeps [LogAttemptFailed (Z.of_nat a + 1) n e;
                    LogRetrying (2 ^ Z.of_nat a)%Z;
                    BackoffSleep (2 ^ Z.of_nat a)%Z])
      with [(2 ^ Z.of_nat a)%Z].
    change (requests [LogSending false; SdkRequest false prompt;
                      LogRequestFailed e]) with [false].
    change (requests [LogAttemptFailed (Z.of_nat a + 1) n e;
                      LogRetrying (2 ^ Z.of_nat a)%Z;
                      BackoffSleep (2 ^ Z.of_nat a)%Z])
      with (@nil bool).
    rewrite Z.add_simpl_r.
    change (backoff_schedule n (Z.of_nat a) (e :: errors) false)
      with (Tried :: Failed (Z.of_nat a) e
              :: (if (Z.of_nat a <? n - 1)%Z
                  then [Waited (2 ^ Z.of_nat a)%Z] else [])
              ++ backoff_schedule n (Z.of_nat a + 1) errors false).
    replace (Z.of_nat a <? n - 1)%Z with true
      by (symmetry; apply Z.ltb_lt; subst n; lia).
    replace (Z.of_nat a + 1)%Z with (Z.of_nat (S a)) by lia.
    repeat split.
Qed.

(** C8: the retry policy of [analyze_code] with [max_retries = n], against
    what the provider does.  In blocking mode it is the policy of the
    claim.  If the provider fails the first requests with [errors], fewer
    than [n] of them, and answers the next one, the call returns that
    answer after one request per error and one more, having waited [2^k]
    seconds after the error of the 0-based attempt [k].  If the provider
    fails [n] requests in a row, the call makes exactly [n] requests, waits
    [2^k] seconds after each error but the last, and raises the
    [APIConnectionError] built from the last error.  In streaming mode, the
    default, it is not: with [n >= 1], a stream that breaks with [e] gives
    the caller who iterates the result [e] itself after a single request;
    the error is followed by no wait and no second attempt, whatever [n]
    is, and no [APIConnectionError] is raised. *)
Theorem C8_retry_backoff_schedule (prompt : str) (n : Z) (net : Net) :
  (forall (errors : list exn) (net1 net2 : Net) (text : str),
      fails_with sdk_create prompt errors net net1 ->
      sdk_create prompt net1 = (inr text, net2) ->
      List.length errors < Z.to_nat n ->
      exists tr,
        analyze_code prompt false n net = (Returned (RetText text), net2, tr)
        /\ steps tr = backoff_schedule n 0 errors true
        /\ sleeps tr
           = map (fun k => (2 ^ Z.of_nat k)%Z) (seq 0 (List.length errors))
        /\ List.length (requests tr) = S (List.length errors))
  /\ (forall (errs : list exn) (e : exn) (net1 : Net),
        fails_with sdk_create prompt (errs ++ [e]) net net1 ->
        List.length (errs ++ [e]) = Z.to_nat n ->
        exists tr,
          analyze_code prompt false n net
          = (Raised (failed_after n e), net1, tr)
          /\ steps tr = backoff_schedule n 0 (errs ++ [e]) false
          /\ sleeps tr
             = map (fun k => (2 ^ Z.of_nat k)%Z) (seq 0 (Z.to_nat n - 1))
          /\ List.length (requests tr) = Z.to_nat n)
  /\ (forall (chunks : list str) (e : exn) (net2 : Net),
        (0 < n)%Z ->
        sdk_stream prompt net = (chunks, Some e, net2) ->
        exists d tr,
          for_token_in_analyze_code prompt n net = (d, net2, tr)
          /\ failure d = Some e
          /\ steps tr = [Tried] /\ sleeps tr = [] /\ caught tr = []).
Proof.
  split; [|split].
  - intros errors net1 net2 text Hf Ha Hlen.
    destruct (@analyze_code_loop_answered prompt errors 0 (Z.to_nat n - 1)
                net net1 net2 text Hf Ha ltac:(lia))
      as (tr & Heq & Hst & Hsl & Hrq).
    replace (0 + S (Z.to_nat n - 1)) with (Z.to_nat n) in Heq, Hst by lia.
    replace (S (Z.to_nat n - 1)) with (Z.to_nat n) in Heq by lia.
    rewrite Z2Nat.id in Heq, Hst by lia.
    exists tr. unfold APIClient.analyze_code. fold (range n) in Heq.
    repeat split; assumption.
  - intros errs e net1 Hf Hlen.
    assert (Hpos : Z.to_nat n = S (Z.to_nat n - 1))
      by (rewrite length_app in Hlen; simpl in Hlen; lia).
    destruct (@analyze_code_loop_exhausted prompt e (errs ++ [e]) 0
                (Z.to_nat n - 1) net net1 Hf ltac:(lia))
      as (tr & Heq & Hst & Hsl & Hrq).
    replace (0 + S (Z.to_nat n - 1)) with (Z.to_nat n) in Heq, Hst by lia.
    replace (S (Z.to_nat n - 1)) with (Z.to_nat n) in Heq, Hrq by lia.
    rewrite Z2Nat.id in Heq, Hst by lia. rewrite last_last in Heq.
    exists tr. unfold APIClient.analyze_code. fold (range n) in Heq.
    repeat split; assumption.
  - intros chunks e net2 Hn Hs.
    rewrite (streaming_runs_body_once prompt net Hn).
    unfold APIClient._stream_response_body. rewrite Hs.
    eexists. eexists. repeat split.
Qed.

End APIClientProperties.

Section APIClientExamples.

Import APIClient.

(** Three blocking requests that all time out: waits of 1 and 2 seconds,
    three requests, and the connection failure at the end. *)
Example blocking_mode_three_timeouts :
  match analyze_code Stub.create_timing_out (lit "review") false 3 0 with
  | (o, net', tr) =>
    o = Raised (failed_after 3 Stub.timeout_error)
    /\ net' = 3 /\ sleeps tr = [1; 2]%Z
    /\ requests tr = [false; false; false]
  end.
Proof. vm_compute. repeat split. Qed.

(** Two timeouts, then an answer: waits of 1 and 2 seconds, three requests. *)
Example blocking_mode_third_time_lucky :
  match analyze_code Stub.create_third_time_lucky (lit "review") false 3 0 with
  | (o, net', tr) =>
    o = Returned (RetText (lit "fixed"))
    /\ net' = 3 /\ sleeps tr = [1; 2]%Z
    /\ caught tr = [Stub.timeout_error; Stub.timeout_error]
  end.
Proof. vm_compute. repeat split. Qed.

(** C1, evaluated on the code: a provider whose stream breaks after its first
    chunk, read through [analyze_code(prompt, stream=True, max_retries=3)].
    The caller's loop receives the chunk and then the provider's own
    exception; one request was made, the retry loop caught nothing, waited
    for nothing and raised no [APIConnectionError].  The blocking mode on a
    provider that fails just as often makes its three attempts. *)
Theorem C1_stream_error_reaches_caller_unretried :
  match for_token_in_analyze_code openai Stub.create_timing_out
          Stub.stream_breaking (lit "review") 3 0 with
  | (d, net', tr) =>
    delivered d = [lit "public "]
    /\ failure d = Some Stub.reset_error
    /\ isinstance_APIClientError Stub.reset_error = false
    /\ net' = 1
    /\ requests tr = [true] /\ caught tr = [] /\ sleeps tr = []
  end
  /\ match analyze_code Stub.create_timing_out (lit "review") false 3 0 with
     | (o, net', tr) =>
       o = Raised (failed_after 3 Stub.timeout_error)
       /\ List.length (requests tr) = 3 /\ List.length (caught tr) = 3
     end.
Proof. vm_compute. repeat split. Qed.

(** C8 at work, with [max_retries=3].  A provider that times out twice and
    then answers: three requests, waits of 1 and 2 seconds, the answer.  A
    provider that always times out: three requests, waits of 1 and 2
    seconds, the connection failure built from the last timeout.  A stream
    that breaks after its first chunk: one request, no wait, and the
    provider's own error in the hands of the caller. *)
Lemma C8_retry_backoff_schedule_witness :
  (exists tr,
     analyze_code Stub.create_third_time_lucky (lit "review") false 3 0
     = (Returned (RetText (lit "fixed")), 3, tr)
     /\ steps tr
        = backoff_schedule 3 0 [Stub.timeout_error; Stub.timeout_error] true
     /\ sleeps tr = [1; 2]%Z
     /\ List.length (requests tr) = 3)
  /\ (exists tr,
        analyze_code Stub.create_timing_out (lit "review") false 3 0
        = (Raised (failed_after 3 Stub.timeout_error), 3, tr)
        /\ steps tr
           = backoff_schedule 3 0
               [Stub.timeout_error; Stub.timeout_error; Stub.timeout_error]
               false
        /\ sleeps tr = [1; 2]%Z
        /\ List.length (requests tr) = 3)
  /\ (exists d tr,
        for_token_in_analyze_code openai Stub.create_timing_out
          Stub.stream_breaking (lit "review") 3 0
        = (d, 1, tr)
        /\ failure d = Some Stub.reset_error
        /\ steps tr = [Tried] /\ sleeps tr = [] /\ caught tr = []).
Proof.
  split; [|split].
  - apply (proj1 (@C8_retry_backoff_schedule nat openai
                    Stub.create_third_time_lucky Stub.stream_breaking
                    (lit "review") 3%Z 0)
             [Stub.timeout_error; Stub.timeout_error] 2 3 (lit "fixed")).
    + exists 1. split; [reflexivity|]. exists 2. split; reflexivity.
    + reflexivity.
    + apply le_n.
  - apply (proj1 (proj2 (@C8_retry_backoff_schedule nat openai
                           Stub.create_timing_out Stub.stream_breaking
                           (lit "review") 3%Z 0))
             [Stub.timeout_error; Stub.timeout_error] Stub.timeout_error 3).
    + exists 1. split; [reflexivity|]. exists 2. split; [reflexivity|].
      exists 3. split; reflexivity.
    + reflexivity.
  - apply (proj2 (proj2 (@C8_retry_backoff_schedule nat openai
                           Stub.create_timing_out Stub.stream_breaking
                           (lit "review") 3%Z 0))
             [lit "public "] Stub.reset_error 1); reflexivity.
Defined.

End APIClientExamples.

(* ================================================================== *)
(** ** Properties of [BatchAnalyzer] *)

Section BatchAnalyzerProperties.

Import BatchAnalyzer.

Variable Env : Type.
Variable Path_name : str -> str.
Variable open_read : str -> Env -> (exn + str) * Env.
Variable SYSTEM_PROMPT : str.
Variable build_review_prompt :
  str -> list ReviewCategory -> OutputFormat -> bool -> Env -> (exn + str) * Env.
Variable analyze_code : str -> bool -> Env -> call * Env.
Variable generate_report :
  str -> str -> list str -> str -> Env -> (exn + str) * Env.

Local Abbreviation try_block :=
  (try_block SYSTEM_PROMPT build_review_prompt analyze_code generate_report).
Local Abbreviation retry_loop :=
  (retry_loop SYSTEM_PROMPT build_review_prompt analyze_code generate_report).
Local Abbreviation _analyze_single_file :=
  (_analyze_single_file Path_name open_read SYSTEM_PROMPT build_review_prompt
     analyze_code generate_report).
Local Abbreviation analyze_files_loop W :=
  (@BatchAnalyzer.analyze_files_loop Env Path_name open_read SYSTEM_PROMPT
     build_review_prompt analyze_code generate_report W).
Local Abbreviation analyze_files W :=
  (@BatchAnalyzer.analyze_files Env Path_name open_read SYSTEM_PROMPT
     build_review_prompt analyze_code generate_report W).
Local Abbreviation attempt_with_client :=
  (attempt_with_client SYSTEM_PROMPT build_review_prompt analyze_code).
Local Abbreviation from_successful_attempt :=
  (from_successful_attempt SYSTEM_PROMPT build_review_prompt analyze_code
     generate_report).

(** *** The messages *)

Lemma skip_marker_truthy : truthy SKIP_MARKER = true.
Proof. reflexivity. Qed.

Lemma is_skip_contains (r : FileAnalysisResult) :
  is_skip r = contains SKIP_MARKER (error_message r).
Proof.
  unfold is_skip. destruct (error_message r) as [|c m]; reflexivity.
Qed.

Lemma msg_read_failed_is_skip (e : exn) :
  contains SKIP_MARKER (msg_read_failed e) = true.
Proof.
  unfold msg_read_failed. do 2 apply contains_app_r. reflexivity.
Qed.

Lemma msg_read_failed_truthy (e : exn) : msg_read_failed e <> [].
Proof. unfold msg_read_failed. discriminate. Qed.

Lemma msg_llm_failed_truthy (last_error : option exn) :
  msg_llm_failed last_error <> [].
Proof. unfold msg_llm_failed. discriminate. Qed.

(** The fixed part of the exhausted-retries message holds no occurrence of
    the marker, nor the start of one: the marker is in the message exactly
    when it is in the text of the last error. *)
Lemma msg_llm_failed_is_skip (e : exn) :
  contains SKIP_MARKER (msg_llm_failed (Some e))
  = contains SKIP_MARKER (exn_str e).
Proof.
  unfold msg_llm_failed. rewrite !app_assoc.
  apply contains_skip_prefix. reflexivity.
Qed.

(** *** The single-item procedure *)

Lemma retry_loop_message_invariant (file_path file_name original_code : str)
    (attempts : list nat) :
  forall (retry_count : nat) (last_error : option exn) (env : Env),
    message_invariant
      (fst (fst (retry_loop file_path file_name original_code attempts
                   retry_count last_error env))).
Proof.
  induction attempts as [|attempt rest IH]; intros retry_count last_error env.
  - simpl. split; intros H; [discriminate|].
    repeat split. apply msg_llm_failed_truthy.
  - simpl. destruct (try_block original_code env) as [[[e|[improved report]] env'] ev].
    + specialize (IH (retry_count + 1) (Some e) env').
      destruct (retry_loop file_path file_name original_code rest
                  (retry_count + 1) (Some e) env') as [[r env''] ev'].
      exact IH.
    + simpl. split; intros H; [reflexivity | discriminate].
Qed.

Lemma skipped_message_invariant (file_path file_name message : str) :
  message <> [] -> message_invariant (skipped file_path file_name message).
Proof.
  intros Hm. split; simpl; intros H; [discriminate|]. repeat split. exact Hm.
Qed.

Lemma single_file_message_invariant (file_path : str) (env : Env) :
  message_invariant (fst (fst (_analyze_single_file file_path env))).
Proof.
  unfold BatchAnalyzer._analyze_single_file.
  destruct (open_read file_path env) as [[e|text] env1].
  - destruct (isinstance_UnicodeDecodeError e); simpl;
      apply skipped_message_invariant;
      [discriminate | apply msg_read_failed_truthy].
  - destruct (negb (truthy (strip text))).
    + apply skipped_message_invariant. discriminate.
    + pose proof (retry_loop_message_invariant file_path (Path_name file_path)
                    (strip text) (seq 0 MAX_RETRIES) 0 None env1) as H.
      destruct (retry_loop file_path (Path_name file_path) (strip text)
                  (seq 0 MAX_RETRIES) 0 None env1) as [[r env2] ev].
      exact H.
Qed.

(** Every result names the path it was asked to analyze. *)
Lemma retry_loop_file_path (path name original_code : str)
    (attempts : list nat) :
  forall (retry_count : nat) (last_error : option exn) (env : Env),
    file_path
      (fst (fst (retry_loop path name original_code attempts
                   retry_count last_error env))) = path.
Proof.
  induction attempts as [|attempt rest IH]; intros retry_count last_error env.
  - reflexivity.
  - simpl. destruct (try_block original_code env) as [[[e|[improved report]] env'] ev].
    + specialize (IH (retry_count + 1) (Some e) env').
      destruct (retry_loop path name original_code rest
                  (retry_count + 1) (Some e) env') as [[r env''] ev'].
      exact IH.
    + reflexivity.
Qed.

Lemma single_file_file_path (path : str) (env : Env) :
  file_path (fst (fst (_analyze_single_file path env))) = path.
Proof.
  unfold BatchAnalyzer._analyze_single_file.
  destruct (open_read path env) as [[e|text] env1].
  - destruct (isinstance_UnicodeDecodeError e); reflexivity.
  - destruct (negb (truthy (strip text))); [reflexivity|].
    pose proof (retry_loop_file_path path (Path_name path) (strip text)
                  (seq 0 MAX_RETRIES) 0 None env1) as H.
    destruct (retry_loop path (Path_name path) (strip text)
                (seq 0 MAX_RETRIES) 0 None env1) as [[r env2] ev].
    exact H.
Qed.

(** Whatever happens, the first thing the procedure does is to open the
    file. *)
Lemma single_file_opens_first (path : str) (env : Env) :
  exists ev, snd (_analyze_single_file path env) = OpenFile path :: ev.
Proof.
  unfold BatchAnalyzer._analyze_single_file.
  destruct (open_read path env) as [[e|text] env1].
  - destruct (isinstance_UnicodeDecodeError e); eexists; reflexivity.
  - destruct (negb (truthy (strip text))); [eexists; reflexivity|].
    destruct (retry_loop path (Path_name path) (strip text)
                (seq 0 MAX_RETRIES) 0 None env1) as [[r env2] ev].
    eexists; reflexivity.
Qed.

(** C7: when the load step fails (the read raises a decode error or any
    other error, or the text is empty once stripped), the single-item
    procedure returns at once a failed result that the tally classifies as
    skipped, with [retry_count = 0]; the only thing it did was to open the
    file, so neither the prompt builder nor the client was used, and the
    environment is as the read left it. *)
Theorem C7_load_failure_short_circuits (path : str) (env : Env) :
  load_fails (fst (open_read path env)) = true ->
  match _analyze_single_file path env with
  | (r, env', tr) =>
    success r = false /\ is_skip r = true /\ retry_count r = 0
    /\ tr = [OpenFile path]
    /\ prompt_builds tr = [] /\ client_calls tr = []
    /\ env' = snd (open_read path env)
  end.
Proof.
  unfold BatchAnalyzer._analyze_single_file.
  destruct (open_read path env) as [[e|text] env1];
    cbn [fst snd load_fails]; intros Hload.
  - destruct (isinstance_UnicodeDecodeError e).
    + repeat split.
    + repeat split. rewrite is_skip_contains. apply msg_read_failed_is_skip.
  - rewrite Hload. repeat split.
Qed.

(** *** The retry loop *)

Lemma retry_loop_cons (path name original_code : str) (attempt : nat)
    (rest : list nat) (retry_count : nat) (last_error : option exn)
    (env : Env) :
  retry_loop path name original_code (attempt :: rest) retry_count last_error
    env
  = match try_block original_code env with
    | (inr (improved, report), env', ev) =>
      ({| file_path := path; file_name := name; success := true;
          original_code := original_code; improved_code := improved;
          report_markdown := report; error_message := [];
          retry_count := retry_count |}, env', ev)
    | (inl e, env', ev) =>
      match retry_loop path name original_code rest (retry_count + 1)
              (Some e) env' with
      | (r, env'', ev') => (r, env'', ev ++ except_block name attempt e ++ ev')
      end
    end.
Proof. reflexivity. Qed.

Lemma client_calls_app (a b : list event) :
  client_calls (a ++ b) = client_calls a ++ client_calls b.
Proof. apply flat_map_app. Qed.

Lemma time_sleeps_app (a b : list event) :
  time_sleeps (a ++ b) = time_sleeps a ++ time_sleeps b.
Proof. apply flat_map_app. Qed.

Lemma printed_app (a b : list event) : printed (a ++ b) = printed a ++ printed b.
Proof. apply flat_map_app. Qed.

(** A handler prints one line, uses no collaborator, and sleeps one second
    unless the attempt was the last: the class of the exception shows in the
    printed line (and the traceback) only. *)
Lemma except_block_trace (name : str) (attempt : nat) (e : exn) :
  printed (except_block name attempt e) = [handler_line name attempt e]
  /\ client_calls (except_block name attempt e) = []
  /\ time_sleeps (except_block name attempt e)
     = (if attempt <? MAX_RETRIES - 1 then [1] else []).
Proof.
  unfold except_block, handler_line.
  destruct (isinstance_APIClientError e), (attempt <? MAX_RETRIES - 1);
    repeat split.
Qed.

(** The [try] block neither prints nor sleeps, and uses the client at most
    once. *)
Lemma try_block_trace_quiet (original_code : str) (env : Env) :
  match try_block original_code env with
  | (_, _, ev) =>
    printed ev = [] /\ time_sleeps ev = []
    /\ List.length (client_calls ev) <= 1
  end.
Proof.
  unfold BatchAnalyzer.try_block.
  destruct (build_review_prompt original_code categories IMPROVED_CODE true env)
    as [[e|prompt] env1]; [repeat split; simpl; lia|].
  destruct (analyze_code (SYSTEM_PROMPT ++ [10; 10]%N ++ prompt) true env1)
    as [[e|tokens [e|]] env2]; try (repeat split; simpl; lia).
  destruct (generate_report original_code (accumulate tokens)
              (map ReviewCategory_value categories) (lit "phi3:mini") env2)
    as [[e|report] env3]; repeat split; simpl; lia.
Qed.

(** An attempt in which the client fails leaves the [try] block with the
    client's exception, after exactly one use of the client. *)
Lemma try_block_client_error (original_code : str) (env env' : Env)
    (c : call) (e : exn) :
  attempt_with_client original_code env c env' ->
  call_error c = Some e ->
  exists ev,
    try_block original_code env = (inl e, env', ev)
    /\ List.length (client_calls ev) = 1.
Proof.
  intros (prompt & env1 & Hb & Hc) He. unfold BatchAnalyzer.try_block.
  rewrite Hb, Hc. destruct c as [e'|tokens [e'|]]; simpl in He;
    try discriminate; injection He as ->; eexists; split; reflexivity.
Qed.

(** An attempt in which the client streams to the end and the report is
    built leaves the [try] block with both texts. *)
Lemma try_block_client_ok (original_code : str) (env env' env'' : Env)
    (tokens : list str) (report : str) :
  attempt_with_client original_code env (CallIterated tokens None) env' ->
  generate_report original_code (accumulate tokens)
    (map ReviewCategory_value categories) (lit "phi3:mini") env'
  = (inr report, env'') ->
  exists ev,
    try_block original_code env = (inr (accumulate tokens, report), env'', ev)
    /\ List.length (client_calls ev) = 1.
Proof.
  intros (prompt & env1 & Hb & Hc) Hr. unfold BatchAnalyzer.try_block.
  rewrite Hb, Hc, Hr. eexists; split; reflexivity.
Qed.

(** The single-item procedure once the file is loaded. *)
Lemma single_file_loaded (path text : str) (env env0 : Env) :
  open_read path env = (inr text, env0) ->
  truthy (strip text) = true ->
  _analyze_single_file path env
  = match retry_loop path (Path_name path) (strip text) [0; 1; 2] 0 None
            env0 with
    | (r, env2, ev) => (r, env2, OpenFile path :: ev)
    end.
Proof.
  intros Ho Ht. unfold BatchAnalyzer._analyze_single_file.
  rewrite Ho, Ht. reflexivity.
Qed.

(** Three attempts that all leave the [try] block with an exception. *)
Lemma single_file_three_failures (path text : str)
    (env env0 env1 env2 env3 : Env) (e0 e1 e2 : exn)
    (ev0 ev1 ev2 : list event) :
  open_read path env = (inr text, env0) ->
  truthy (strip text) = true ->
  try_block (strip text) env0 = (inl e0, env1, ev0) ->
  try_block (strip text) env1 = (inl e1, env2, ev1) ->
  try_block (strip text) env2 = (inl e2, env3, ev2) ->
  _analyze_single_file path env
  = ({| file_path := path; file_name := Path_name path; success := false;
        original_code := strip text; improved_code := [];
        report_markdown := [];
        error_message := msg_llm_failed (Some e2); retry_count := 3 |},
     env3,
     OpenFile path
       :: ev0 ++ except_block (Path_name path) 0 e0
       ++ ev1 ++ except_block (Path_name path) 1 e1
       ++ ev2 ++ except_block (Path_name path) 2 e2 ++ []).
Proof.
  intros Ho Ht H0 H1 H2. rewrite (single_file_loaded Ho Ht).
  rewrite retry_loop_cons, H0, retry_loop_cons, H1, retry_loop_cons, H2.
  reflexivity.
Qed.

(** Two failed attempts and a third that succeeds. *)
Lemma single_file_third_time_lucky (path text : str)
    (env env0 env1 env2 env3 : Env) (e0 e1 : exn) (improved report : str)
    (ev0 ev1 ev2 : list event) :
  open_read path env = (inr text, env0) ->
  truthy (strip text) = true ->
  try_block (strip text) env0 = (inl e0, env1, ev0) ->
  try_block (strip text) env1 = (inl e1, env2, ev1) ->
  try_block (strip text) env2 = (inr (improved, report), env3, ev2) ->
  _analyze_single_file path env
  = ({| file_path := path; file_name := Path_name path; success := true;
        original_code := strip text; improved_code := improved;
        report_markdown := report; error_message := []; retry_count := 2 |},
     env3,
     OpenFile path
       :: ev0 ++ except_block (Path_name path) 0 e0
       ++ ev1 ++ except_block (Path_name path) 1 e1 ++ ev2).
Proof.
  intros Ho Ht H0 H1 H2. rewrite (single_file_loaded Ho Ht).
  rewrite retry_loop_cons, H0, retry_loop_cons, H1, retry_loop_cons, H2.
  reflexivity.
Qed.

(** C3, as the code has it: an exception of any class that leaves the [try]
    block is handled per attempt in the same way.  When the three attempts of
    a loaded item all raise, whatever the classes of the three exceptions,
    the procedure returns (so the run goes on) a failed result with
    [retry_count = 3] whose [error_message] is the exhausted-retries text
    followed by the text of the last exception, the procedure slept one
    second after the first and after the second attempt, and it printed one
    line per attempt.  The class of an exception shows in that printed line
    only, never in the recorded message. *)
Theorem C3_any_exception_retried_same_message (path text : str)
    (env env0 env1 env2 env3 : Env) (e0 e1 e2 : exn)
    (ev0 ev1 ev2 : list event) :
  open_read path env = (inr text, env0) ->
  truthy (strip text) = true ->
  try_block (strip text) env0 = (inl e0, env1, ev0) ->
  try_block (strip text) env1 = (inl e1, env2, ev1) ->
  try_block (strip text) env2 = (inl e2, env3, ev2) ->
  match _analyze_single_file path env with
  | (r, env', tr) =>
    success r = false /\ retry_count r = 3
    /\ original_code r = strip text
    /\ error_message r = msg_llm_failed (Some e2)
    /\ env' = env3
    /\ time_sleeps tr = [1; 1]
    /\ printed tr
       = [handler_line (Path_name path) 0 e0;
          handler_line (Path_name path) 1 e1;
          handler_line (Path_name path) 2 e2]
  end.
Proof.
  intros Ho Ht H0 H1 H2.
  rewrite (single_file_three_failures Ho Ht H0 H1 H2).
  pose proof (try_block_trace_quiet (strip text) env0) as Q0.
  pose proof (try_block_trace_quiet (strip text) env1) as Q1.
  pose proof (try_block_trace_quiet (strip text) env2) as Q2.
  rewrite H0 in Q0. rewrite H1 in Q1. rewrite H2 in Q2.
  destruct Q0 as (P0 & S0 & _), Q1 as (P1 & S1 & _), Q2 as (P2 & S2 & _).
  destruct (except_block_trace (Path_name path) 0 e0) as (X0 & _ & Y0).
  destruct (except_block_trace (Path_name path) 1 e1) as (X1 & _ & Y1).
  destruct (except_block_trace (Path_name path) 2 e2) as (X2 & _ & Y2).
  repeat split.
  - change (time_sleeps (OpenFile path :: ?l)) with (time_sleeps l).
    rewrite !time_sleeps_app, S0, S1, S2, Y0, Y1, Y2. reflexivity.
  - change (printed (OpenFile path :: ?l)) with (printed l).
    rewrite !printed_app, P0, P1, P2, X0, X1, X2. reflexivity.
Qed.

(** C4, as the code has it, for an item that loads and whose first two
    attempts fail in the client.  If on the third attempt the client streams
    to the end and the report is built, the result is a success with
    [retry_count = 2] and the streamed text, after exactly three uses of the
    client.  If the client fails a third time, the result is a failure with
    [retry_count = 3], after exactly three uses of the client; its message is
    the exhausted-retries text followed by the text of the last error, so
    the tally takes it for a skip exactly when that text holds the marker. *)
Theorem C4_three_attempts (path text : str) (env env0 env1 env2 : Env)
    (c0 c1 : call) (e0 e1 : exn) :
  open_read path env = (inr text, env0) ->
  truthy (strip text) = true ->
  attempt_with_client (strip text) env0 c0 env1 -> call_error c0 = Some e0 ->
  attempt_with_client (strip text) env1 c1 env2 -> call_error c1 = Some e1 ->
  (forall (tokens : list str) (report : str) (env3 env4 : Env),
      attempt_with_client (strip text) env2 (CallIterated tokens None) env3 ->
      generate_report (strip text) (accumulate tokens)
        (map ReviewCategory_value categories) (lit "phi3:mini") env3
      = (inr report, env4) ->
      match _analyze_single_file path env with
      | (r, env', tr) =>
        success r = true /\ retry_count r = 2
        /\ improved_code r = accumulate tokens
        /\ report_markdown r = report
        /\ error_message r = []
        /\ env' = env4
        /\ List.length (client_calls tr) = 3
      end)
  /\ (forall (c2 : call) (e2 : exn) (env3 : Env),
        attempt_with_client (strip text) env2 c2 env3 ->
        call_error c2 = Some e2 ->
        match _analyze_single_file path env with
        | (r, env', tr) =>
          success r = false /\ retry_count r = 3
          /\ error_message r = msg_llm_failed (Some e2)
          /\ env' = env3
          /\ List.length (client_calls tr) = 3
          /\ is_skip r = contains SKIP_MARKER (exn_str e2)
        end).
Proof.
  intros Ho Ht A0 E0 A1 E1.
  destruct (try_block_client_error A0 E0) as (ev0 & H0 & N0).
  destruct (try_block_client_error A1 E1) as (ev1 & H1 & N1).
  assert (Hx : forall k e, client_calls (except_block (Path_name path) k e) = [])
    by (intros k e; apply except_block_trace).
  split.
  - intros tokens report env3 env4 A2 R2.
    destruct (try_block_client_ok A2 R2) as (ev2 & H2 & N2).
    rewrite (single_file_third_time_lucky Ho Ht H0 H1 H2).
    repeat split.
    change (client_calls (OpenFile path :: ?l)) with (client_calls l).
    rewrite !client_calls_app, !Hx, !length_app, N0, N1, N2. reflexivity.
  - intros c2 e2 env3 A2 E2.
    destruct (try_block_client_error A2 E2) as (ev2 & H2 & N2).
    rewrite (single_file_three_failures Ho Ht H0 H1 H2).
    repeat split.
    change (client_calls (OpenFile path :: ?l)) with (client_calls l).
    rewrite !client_calls_app, !Hx, !length_app, N0, N1, N2. reflexivity.
Qed.

(** *** The single-item procedure invokes no callback *)

Lemma callback_free_app (a b : list event) :
  callback_free a -> callback_free b -> callback_free (a ++ b).
Proof. intros Ha Hb. apply Forall_app. split; assumption. Qed.

Lemma callback_free_reads (tr : list event) :
  callback_free tr ->
  cancel_checks tr = [] /\ progress_calls tr = [] /\ without_callbacks tr = tr.
Proof.
  induction 1 as [|ev tr Hev Htr (IHc & IHp & IHw)]; [repeat split|].
  unfold without_callbacks in *.
  destruct ev; simpl in *; try discriminate; rewrite ?IHw; repeat split; auto.
Qed.

Lemma try_block_callback_free (original_code : str) (env : Env) :
  callback_free (snd (try_block original_code env)).
Proof.
  unfold BatchAnalyzer.try_block.
  destruct (build_review_prompt original_code categories IMPROVED_CODE true env)
    as [[e|prompt] env1]; [repeat constructor|].
  destruct (analyze_code (SYSTEM_PROMPT ++ [10; 10]%N ++ prompt) true env1)
    as [[e|tokens [e|]] env2]; try (repeat constructor).
  destruct (generate_report original_code (accumulate tokens)
              (map ReviewCategory_value categories) (lit "phi3:mini") env2)
    as [[e|report] env3]; repeat constructor.
Qed.

Lemma except_block_callback_free (name : str) (attempt : nat) (e : exn) :
  callback_free (except_block name attempt e).
Proof.
  unfold except_block.
  destruct (isinstance_APIClientError e), (attempt <? MAX_RETRIES - 1);
    repeat constructor.
Qed.

Lemma retry_loop_callback_free (path name original_code : str)
    (attempts : list nat) :
  forall (retry_count : nat) (last_error : option exn) (env : Env),
    callback_free
      (snd (retry_loop path name original_code attempts retry_count
              last_error env)).
Proof.
  induction attempts as [|attempt rest IH]; intros retry_count last_error env.
  - constructor.
  - rewrite retry_loop_cons.
    pose proof (try_block_callback_free original_code env) as Ht.
    destruct (try_block original_code env)
      as [[[e|[improved report]] env'] ev]; [|exact Ht].
    specialize (IH (retry_count + 1) (Some e) env').
    destruct (retry_loop path name original_code rest (retry_count + 1)
                (Some e) env') as [[r env''] ev'].
    simpl in *. apply callback_free_app; [exact Ht|].
    apply callback_free_app; [apply except_block_callback_free | exact IH].
Qed.

Lemma single_file_callback_free (path : str) (env : Env) :
  callback_free (snd (_analyze_single_file path env)).
Proof.
  unfold BatchAnalyzer._analyze_single_file.
  destruct (open_read path env) as [[e|text] env1].
  - destruct (isinstance_UnicodeDecodeError e); repeat constructor.
  - destruct (negb (truthy (strip text))); [repeat constructor|].
    pose proof (retry_loop_callback_free path (Path_name path) (strip text)
                  (seq 0 MAX_RETRIES) 0 None env1) as H.
    destruct (retry_loop path (Path_name path) (strip text)
                (seq 0 MAX_RETRIES) 0 None env1) as [[r env2] ev].
    constructor; [reflexivity | exact H].
Qed.

(** *** The batch loop *)

Section Callbacks.

Variable W : Type.
Variable progress_callback : option (nat -> nat -> str -> W -> W).
Variable is_cancelled_callback : option (W -> bool * W).

Local Abbreviation loop :=
  (analyze_files_loop W progress_callback is_cancelled_callback).

(** One turn of the loop. *)
Lemma analyze_files_loop_cons (total i : nat) (path : str) (rest : list str)
    (t : tally) (w : W) (env : Env) :
  loop total i (path :: rest) t w env
  = match check_cancelled is_cancelled_callback w with
    | (true, w1, ev_c) =>
      (t, w1, env, ev_c ++ [PrintLine (line_cancelled i total)])
    | (false, w1, ev_c) =>
      match notify_progress progress_callback i total (Path_name path) w1 with
      | (w2, ev_p) =>
        match _analyze_single_file path env with
        | (result, env1, ev_a) =>
          match loop total (S i) rest (record_result t result) w2 env1 with
          | (t', w3, env2, ev') => (t', w3, env2, ev_c ++ ev_p ++ ev_a ++ ev')
          end
        end
      end
    end.
Proof. reflexivity. Qed.

(** A property of the running totals that survives the recording of any
    result of the single-item procedure holds when the loop ends. *)
Lemma analyze_files_loop_preserves (I : tally -> Prop) :
  (forall t path env,
      I t -> I (record_result t (fst (fst (_analyze_single_file path env))))) ->
  forall (paths : list str) (total i : nat) (t : tally) (w : W) (env : Env),
    I t -> I (fst (fst (fst (loop total i paths t w env)))).
Proof.
  intros Hstep paths.
  induction paths as [|path rest IH]; intros total i t w env Ht.
  - exact Ht.
  - rewrite analyze_files_loop_cons.
    destruct (check_cancelled is_cancelled_callback w) as [[[|] w1] ev_c].
    + exact Ht.
    + destruct (notify_progress progress_callback i total (Path_name path) w1)
        as [w2 ev_p].
      specialize (Hstep t path env Ht).
      destruct (_analyze_single_file path env) as [[result env1] ev_a].
      specialize (IH total (S i) (record_result t result) w2 env1 Hstep).
      destruct (loop total (S i) rest (record_result t result) w2 env1)
        as [[[t' w3] env2] ev'].
      exact IH.
Qed.

Lemma cancel_checks_app (a b : list event) :
  cancel_checks (a ++ b) = cancel_checks a ++ cancel_checks b.
Proof. apply flat_map_app. Qed.

Lemma progress_calls_app (a b : list event) :
  progress_calls (a ++ b) = progress_calls a ++ progress_calls b.
Proof. apply flat_map_app. Qed.

Lemma notify_progress_trace (i total : nat) (name : str) (w : W) :
  cancel_checks (snd (notify_progress progress_callback i total name w)) = []
  /\ client_calls (snd (notify_progress progress_callback i total name w)) = [].
Proof. unfold notify_progress. destruct progress_callback; split; reflexivity. Qed.

(** A run over [pre] in which every cancellation check answered [False],
    followed by a check that answers [True] before the next item: the loop
    over the longer list does what it did over [pre], makes that one check,
    prints the notice and stops. *)
Lemma analyze_files_loop_cancelled (ic : W -> bool * W) (p : str)
    (post : list str) (total : nat) (pre : list str) :
  is_cancelled_callback = Some ic ->
  forall (i : nat) (t : tally) (w : W) (env : Env)
         (t1 : tally) (w1 w2 : W) (env1 : Env) (tr1 : list event),
    loop total i pre t w env = (t1, w1, env1, tr1) ->
    Forall (eq false) (cancel_checks tr1) ->
    ic w1 = (true, w2) ->
    loop total i (pre ++ p :: post) t w env
    = (t1, w2, env1,
       tr1 ++ [IsCancelled true;
               PrintLine (line_cancelled (i + List.length pre) total)])
    /\ map file_path (t_results t1) = map file_path (t_results t) ++ pre
    /\ cancel_checks tr1 = repeat false (List.length pre).
Proof.
  intros Hic.
  induction pre as [|q pre IH]; intros i t w env t1 w1 w2 env1 tr1 Hrun Hall Hw1.
  - simpl in Hrun. injection Hrun as <- <- <- <-.
    simpl app. rewrite analyze_files_loop_cons.
    unfold check_cancelled. rewrite Hic, Hw1, Nat.add_0_r, app_nil_r.
    repeat split.
  - simpl app. rewrite analyze_files_loop_cons in Hrun |- *.
    unfold check_cancelled in *. rewrite Hic in *.
    destruct (ic w) as [[|] w'] eqn:Hw; cbv beta iota in Hrun |- *.
    + (* the run over [pre] was itself cancelled: excluded *)
      injection Hrun as <- <- <- <-. simpl in Hall.
      inversion Hall; discriminate.
    + pose proof (notify_progress_trace i total (Path_name q) w') as [Hpc _].
      destruct (notify_progress progress_callback i total (Path_name q) w')
        as [w'' ev_p].
      pose proof (single_file_file_path q env) as Hq.
      pose proof (single_file_callback_free q env) as Hfree.
      destruct (_analyze_single_file q env) as [[result env'] ev_a].
      apply callback_free_reads in Hfree as (Hac & _ & _).
      destruct (analyze_files_loop W progress_callback (Some ic) total (S i)
                  pre (record_result t result) w'' env')
        as [[[t' w3] env2] ev'] eqn:Hrest.
      injection Hrun as <- <- <- <-.
      simpl in Hpc, Hq, Hac.
      assert (Hcc : cancel_checks (IsCancelled false :: ev_p ++ ev_a ++ ev')
                    = false :: cancel_checks ev').
      { change (cancel_checks (IsCancelled false :: ev_p ++ ev_a ++ ev'))
          with (false :: cancel_checks (ev_p ++ ev_a ++ ev')).
        rewrite !cancel_checks_app, Hpc, Hac. reflexivity. }
      rewrite Hcc in Hall |- *.
      inversion Hall as [|x l _ Hall']; subst x l.
      destruct (IH (S i) (record_result t result) w'' env' t' w3 w2 env2 ev'
                  Hrest Hall' Hw1) as (Hloop & Hpaths & Hchecks).
      rewrite Hloop. repeat split.
      * simpl. rewrite <- !app_assoc.
        replace (S (i + List.length pre)) with (i + S (List.length pre)) by lia.
        reflexivity.
      * rewrite Hpaths. unfold record_result.
        destruct (success result); [|destruct (is_skip result)]; simpl;
          rewrite map_app, <- app_assoc; simpl; rewrite Hq; reflexivity.
      * rewrite Hchecks. reflexivity.
Qed.

(** An item whose check answers [False]: the check comes first, then the
    progress notification (when a callback was given), then the opening of
    the file, and only then the rest. *)
Lemma analyze_files_loop_item_order (ic : W -> bool * W) (total i : nat)
    (path : str) (rest : list str) (t : tally) (w w' : W) (env : Env) :
  is_cancelled_callback = Some ic ->
  ic w = (false, w') ->
  exists ev,
    snd (loop total i (path :: rest) t w env)
    = IsCancelled false
        :: snd (notify_progress progress_callback i total (Path_name path) w')
        ++ OpenFile path :: ev.
Proof.
  intros Hic Hw. rewrite analyze_files_loop_cons.
  unfold check_cancelled. rewrite Hic, Hw.
  destruct (notify_progress progress_callback i total (Path_name path) w')
    as [w2 ev_p].
  destruct (single_file_opens_first path env) as [ev_a' Hopen].
  destruct (_analyze_single_file path env) as [[result env1] ev_a].
  simpl in Hopen. subst ev_a.
  destruct (analyze_files_loop W progress_callback (Some ic) total (S i) rest
              (record_result t result) w2 env1)
    as [[[t' w3] env2] ev'].
  exists (ev_a' ++ ev'). reflexivity.
Qed.

(** C6: the cancellation callback is asked once before each item, before
    that item's progress notification and before anything is done for it.
    When, after the items [pre] have been processed with every check
    answering [False], the check made before the next item answers [True],
    the run stops there: its trace is that of the items [pre] followed by the
    one check and the printed notice, so no progress notification and no use
    of the client happens for that item or a later one; the results of the
    summary are those of the items [pre], in input order; and the checks made
    are one per processed item plus the last.  The second part states the
    order inside the turn of an item that is processed. *)
Theorem C6_cancellation_at_item_boundary (ic : W -> bool * W)
    (pre : list str) (p : str) (post : list str) (w : W) (env : Env)
    (t1 : tally) (w1 w2 : W) (env1 : Env) (tr1 : list event) :
  is_cancelled_callback = Some ic ->
  loop (List.length (pre ++ p :: post)) 0 pre tally0 w env
  = (t1, w1, env1, tr1) ->
  Forall (eq false) (cancel_checks tr1) ->
  ic w1 = (true, w2) ->
  match analyze_files W progress_callback is_cancelled_callback
          (pre ++ p :: post) w env with
  | (summary, w', env', tr) =>
    total_files summary = List.length (pre ++ p :: post)
    /\ results summary = t_results t1
    /\ map file_path (results summary) = pre
    /\ w' = w2 /\ env' = env1
    /\ tr = tr1 ++ [IsCancelled true;
                    PrintLine (line_cancelled (List.length pre)
                                 (List.length (pre ++ p :: post)))]
    /\ cancel_checks tr = repeat false (List.length pre) ++ [true]
    /\ progress_calls tr = progress_calls tr1
    /\ client_calls tr = client_calls tr1
  end
  /\ (forall (total i : nat) (path : str) (rest : list str) (t : tally)
             (w0 w0' : W) (env0 : Env),
        ic w0 = (false, w0') ->
        exists ev,
          snd (loop total i (path :: rest) t w0 env0)
          = IsCancelled false
              :: snd (notify_progress progress_callback i total
                        (Path_name path) w0')
              ++ OpenFile path :: ev).
Proof.
  intros Hic Hrun Hall Hw1. split.
  - unfold BatchAnalyzer.analyze_files.
    destruct (@analyze_files_loop_cancelled ic p post _ pre Hic
                _ _ _ _ _ _ _ _ _ Hrun Hall Hw1)
      as (Hloop & Hpaths & Hchecks).
    rewrite Hloop. simpl in Hpaths. simpl.
    rewrite cancel_checks_app, progress_calls_app, client_calls_app, Hchecks.
    simpl. rewrite !app_nil_r. repeat split; auto.
  - intros total i path rest t w0 w0' env0 Hw0.
    apply analyze_files_loop_item_order with (ic := ic); assumption.
Qed.

End Callbacks.

(** With a progress callback and a cancellation callback that never
    answers [True], the loop does what it does with no callback at all. *)
Lemma analyze_files_loop_callbacks_irrelevant
    (W : Type) (progress : nat -> nat -> str -> W -> W) (ic : W -> bool * W)
    (W' : Type) (w' : W') :
  (forall w, fst (ic w) = false) ->
  forall (paths : list str) (total i : nat) (t : tally) (w : W) (env : Env),
    match analyze_files_loop W (Some progress) (Some ic) total i paths t w env,
          analyze_files_loop W' None None total i paths t w' env with
    | (t1, _, env1, tr1), (t0, _, env0, tr0) =>
      t1 = t0 /\ env1 = env0 /\ without_callbacks tr1 = tr0
    end.
Proof.
  intros Hnever paths.
  induction paths as [|path rest IH]; intros total i t w env.
  - repeat split.
  - rewrite !analyze_files_loop_cons. unfold check_cancelled, notify_progress.
    pose proof (Hnever w) as Hw. destruct (ic w) as [b w1]. simpl in Hw.
    subst b.
    pose proof (single_file_callback_free path env) as Hfree.
    destruct (_analyze_single_file path env) as [[result env1] ev_a].
    apply callback_free_reads in Hfree as (_ & _ & Hwc). simpl in Hwc.
    specialize (IH total (S i) (record_result t result)
                  (progress i total (Path_name path) w1) env1).
    destruct (analyze_files_loop W (Some progress) (Some ic) total (S i) rest
                (record_result t result)
                (progress i total (Path_name path) w1) env1)
      as [[[t1 w3] env2] tr1].
    destruct (analyze_files_loop W' None None total (S i) rest
                (record_result t result) w' env1)
      as [[[t0 w0] env0] tr0].
    destruct IH as (Ht & He & Htr). repeat split; auto.
    unfold without_callbacks in *. simpl.
    rewrite filter_app, Hwc, Htr. reflexivity.
Qed.

(** C9: for every input list and every environment, the run with a
    progress callback and a cancellation callback that always answers
    [False] returns the same summary (results, counters, order) as the run
    with both callbacks absent, leaves the environment in the same state,
    and does the same things in the same order, the invocations of the
    callbacks apart. *)
Theorem C9_callbacks_are_instrumentation
    (W : Type) (progress : nat -> nat -> str -> W -> W) (ic : W -> bool * W)
    (W' : Type) (w' : W') (file_paths : list str) (w : W) (env : Env) :
  (forall w, fst (ic w) = false) ->
  match analyze_files W (Some progress) (Some ic) file_paths w env,
        analyze_files W' None None file_paths w' env with
  | (summary1, _, env1, tr1), (summary0, _, env0, tr0) =>
    summary1 = summary0 /\ env1 = env0 /\ without_callbacks tr1 = tr0
  end.
Proof.
  intros Hnever. unfold BatchAnalyzer.analyze_files.
  pose proof (analyze_files_loop_callbacks_irrelevant progress ic w' Hnever
                file_paths (List.length file_paths) 0 tally0 w env) as H.
  destruct (analyze_files_loop W (Some progress) (Some ic)
              (List.length file_paths) 0 file_paths tally0 w env)
    as [[[t1 w3] env1] tr1].
  destruct (analyze_files_loop W' None None
              (List.length file_paths) 0 file_paths tally0 w' env)
    as [[[t0 w0] env0] tr0].
  destruct H as (Ht & He & Htr). subst. repeat split.
Qed.

Lemma record_result_counts (t : tally) (r : FileAnalysisResult) :
  counts_add_up t -> counts_add_up (record_result t r).
Proof.
  unfold counts_add_up, record_result. intros H.
  destruct (success r); [|destruct (is_skip r)];
    simpl; rewrite length_app; simpl; lia.
Qed.

(** C5: whatever the input list, the callbacks and the environment do, and
    whether or not the run is cancelled, the three counters of the returned
    summary add up to the number of results in it. *)
Theorem C5_counts_add_up_to_results
    (W : Type) (progress_callback : option (nat -> nat -> str -> W -> W))
    (is_cancelled_callback : option (W -> bool * W))
    (file_paths : list str) (w : W) (env : Env) :
  match analyze_files W progress_callback is_cancelled_callback
          file_paths w env with
  | (summary, _, _, _) =>
    success_count summary + failure_count summary + skipped_count summary
    = List.length (results summary)
  end.
Proof.
  unfold BatchAnalyzer.analyze_files.
  pose proof (analyze_files_loop_preserves progress_callback
                is_cancelled_callback counts_add_up
                (fun t path env H => record_result_counts _ H)
                file_paths (List.length file_paths) 0 tally0 w env eq_refl)
    as H.
  destruct (analyze_files_loop W progress_callback is_cancelled_callback
              (List.length file_paths) 0 file_paths tally0 w env)
    as [[[t w'] env'] ev].
  exact H.
Qed.

(** An attempt that leaves the [try] block with a result has built the
    prompt, has iterated the client's stream to its end, has concatenated
    its tokens and has been given a report for them. *)
Lemma try_block_success (code improved report : str) (env env' : Env)
    (ev : list event) :
  try_block code env = (inr (improved, report), env', ev) ->
  exists tokens env1,
    attempt_with_client code env (CallIterated tokens None) env1
    /\ improved = accumulate tokens
    /\ generate_report code improved (map ReviewCategory_value categories)
         (lit "phi3:mini") env1
       = (inr report, env').
Proof.
  unfold BatchAnalyzer.try_block, BatchAnalyzer.attempt_with_client.
  destruct (build_review_prompt code categories IMPROVED_CODE true env)
    as [[e|prompt] env1] eqn:Hb; [discriminate|].
  destruct (analyze_code (SYSTEM_PROMPT ++ [10; 10]%N ++ prompt) true env1)
    as [[e|tokens [e|]] env2] eqn:Hc; try discriminate.
  destruct (generate_report code (accumulate tokens)
              (map ReviewCategory_value categories) (lit "phi3:mini") env2)
    as [[e|report'] env3] eqn:Hg; [discriminate|].
  intros H. injection H as <- <- <- <-.
  exists tokens, env2. split; [|split; [reflexivity | exact Hg]].
  exists prompt, env1.
  split; [first [reflexivity | exact Hb] | first [reflexivity | exact Hc]].
Qed.

(** A success of the retry loop is the result of its last attempt. *)
Lemma retry_loop_success (file_path file_name original_code : str)
    (attempts : list nat) :
  forall (retry_count : nat) (last_error : option exn) (env : Env),
    let r :=
      fst (fst (retry_loop file_path file_name original_code attempts
                  retry_count last_error env)) in
    success r = true -> from_successful_attempt r.
Proof.
  induction attempts as [|attempt rest IH]; intros retry_count last_error env.
  - simpl. discriminate.
  - cbv zeta. rewrite retry_loop_cons.
    destruct (try_block original_code env)
      as [[[e|[improved report]] env'] ev] eqn:Ht.
    + specialize (IH (retry_count + 1) (Some e) env'). cbv zeta in IH.
      destruct (retry_loop file_path file_name original_code rest
                  (retry_count + 1) (Some e) env') as [[r env''] ev'].
      exact IH.
    + intros _. destruct (try_block_success _ _ Ht)
        as (tokens & env1 & Ha & Hi & Hg).
      exists env, tokens, env1, env'. simpl. repeat split; assumption.
Qed.

Lemma single_file_success (file_path : str) (env : Env) :
  success (fst (fst (_analyze_single_file file_path env))) = true ->
  from_successful_attempt (fst (fst (_analyze_single_file file_path env))).
Proof.
  unfold BatchAnalyzer._analyze_single_file.
  destruct (open_read file_path env) as [[e|text] env1].
  - destruct (isinstance_UnicodeDecodeError e); simpl; discriminate.
  - destruct (negb (truthy (strip text))); [simpl; discriminate|].
    pose proof (retry_loop_success file_path (Path_name file_path)
                  (strip text) (seq 0 MAX_RETRIES) 0 None env1) as H.
    cbv zeta in H.
    destruct (retry_loop file_path (Path_name file_path) (strip text)
                (seq 0 MAX_RETRIES) 0 None env1) as [[r env2] ev].
    exact H.
Qed.

Lemma record_result_all (P : FileAnalysisResult -> Prop) (t : tally)
    (r : FileAnalysisResult) :
  P r -> Forall P (t_results t) -> Forall P (t_results (record_result t r)).
Proof.
  intros Hr Ht. unfold record_result.
  destruct (success r); [|destruct (is_skip r)]; simpl;
    apply Forall_app; split; auto.
Qed.

(** C2, as the code has it: in every result the single-item procedure
    returns, and so in every result of every summary, [success] comes with an
    empty [error_message], and a failure comes with a non-empty
    [error_message] and with empty [improved_code] and [report_markdown].
    On success [improved_code] is the concatenation of the tokens the client
    delivered in the attempt that went through, and [report_markdown] is the
    report generated for it; it is not promised to be non-empty, a stream
    may end without a token. *)
Theorem C2_messages_match_success
    (W : Type) (progress_callback : option (nat -> nat -> str -> W -> W))
    (is_cancelled_callback : option (W -> bool * W))
    (file_paths : list str) (w : W) (env : Env) :
  (forall path,
      message_invariant (fst (fst (_analyze_single_file path env)))
      /\ (success (fst (fst (_analyze_single_file path env))) = true ->
          from_successful_attempt (fst (fst (_analyze_single_file path env)))))
  /\ Forall
       (fun r =>
          message_invariant r
          /\ (success r = true -> from_successful_attempt r))
       (results
          (fst (fst (fst (analyze_files W progress_callback
                            is_cancelled_callback file_paths w env))))).
Proof.
  split;
    [intros path; split;
       [apply single_file_message_invariant | apply single_file_success]|].
  unfold BatchAnalyzer.analyze_files.
  pose proof (analyze_files_loop_preserves progress_callback
                is_cancelled_callback
                (fun t =>
                   Forall
                     (fun r =>
                        message_invariant r
                        /\ (success r = true -> from_successful_attempt r))
                     (t_results t))
                (fun t path env H =>
                   record_result_all _ _
                     (conj (single_file_message_invariant path env)
                        (single_file_success path env)) H)
                file_paths (List.length file_paths) 0 tally0 w env
                (Forall_nil _))
    as H.
  destruct (analyze_files_loop W progress_callback is_cancelled_callback
              (List.length file_paths) 0 file_paths tally0 w env)
    as [[[t w'] env'] ev].
  exact H.
Qed.

Lemma record_result_by_marker (t : tally) (r : FileAnalysisResult) :
  counts_by_marker t -> counts_by_marker (record_result t r).
Proof.
  unfold counts_by_marker, record_result. intros (Hs & Hk & Hf).
  rewrite is_skip_contains.
  unfold is_marked_failure, is_plain_failure in *.
  destruct (success r) eqn:Hsucc;
    [|destruct (contains SKIP_MARKER (error_message r)) eqn:Hm];
    simpl; rewrite !filter_app, !length_app; simpl;
    rewrite Hsucc; simpl; rewrite ?Hm; simpl; lia.
Qed.

(** The counters of a summary are the numbers of successes, of failures
    whose message holds the marker, and of the other failures. *)
Lemma analyze_files_counts_by_marker
    (W : Type) (progress_callback : option (nat -> nat -> str -> W -> W))
    (is_cancelled_callback : option (W -> bool * W))
    (file_paths : list str) (w : W) (env : Env) :
  match analyze_files W progress_callback is_cancelled_callback
          file_paths w env with
  | (summary, _, _, _) =>
    success_count summary = List.length (filter success (results summary))
    /\ skipped_count summary
       = List.length (filter is_marked_failure (results summary))
    /\ failure_count summary
       = List.length (filter is_plain_failure (results summary))
  end.
Proof.
  unfold BatchAnalyzer.analyze_files.
  pose proof (analyze_files_loop_preserves progress_callback
                is_cancelled_callback counts_by_marker
                (fun t path env H => record_result_by_marker _ H)
                file_paths (List.length file_paths) 0 tally0 w env
                (conj eq_refl (conj eq_refl eq_refl)))
    as H.
  destruct (analyze_files_loop W progress_callback is_cancelled_callback
              (List.length file_paths) 0 file_paths tally0 w env)
    as [[[t w1] env1] ev].
  exact H.
Qed.

End BatchAnalyzerProperties.

(* ================================================================== *)
(** ** The analyzer on the concrete environments *)

Section BatchAnalyzerExamples.

Import BatchAnalyzer.

(** A stream that ends without a chunk is a success with an empty
    [improved_code]: the second half of the first implication of the
    invariant, as the specification words it, does not hold. *)
Lemma C2_counterexample_empty_improved_code :
  success (fst (fst (Stub.single Stub.client_silent (lit "A.cs") 0))) = true
  /\ improved_code (fst (fst (Stub.single Stub.client_silent (lit "A.cs") 0)))
     = [].
Proof. vm_compute. split; reflexivity. Qed.

(** An item on which the client raises an [APIConnectionError] three times
    and an item on which an unexpected exception with the same text is raised
    three times are recorded with the same [error_message]: no prefix of the
    message tells the two apart. *)
Lemma C3_counterexample_same_recorded_message :
  isinstance_APIClientError Stub.boom_api = true
  /\ isinstance_APIClientError Stub.boom_bug = false
  /\ error_message
       (fst (fst (Stub.single (Stub.client_failing 3 Stub.boom_bug)
                    (lit "A.cs") 0)))
     = error_message
         (fst (fst (Stub.single (Stub.client_failing 3 Stub.boom_api)
                      (lit "A.cs") 0))).
Proof. vm_compute. repeat split. Qed.

(** A client that fails on every attempt with an error whose text holds the
    marker: after three uses of the client the result is a failure with
    [retry_count = 3], and the tally takes it for a skip. *)
Lemma C4_counterexample_exhausted_failure_counted_as_skip :
  match Stub.batch (Stub.client_failing 3 Stub.quota_error) None None
          [lit "A.cs"] tt 0 with
  | (summary, _, _, tr) =>
    map success (results summary) = [false]
    /\ map retry_count (results summary) = [3]
    /\ map is_skip (results summary) = [true]
    /\ List.length (client_calls tr) = 3
    /\ skipped_count summary = 1 /\ failure_count summary = 0
  end.
Proof. vm_compute. repeat split. Qed.

(** C3 at work: a collaborator bug on the first attempt, a stream that
    breaks with an unexpected exception on the second, an [APIClientError] on
    the third. *)
Lemma C3_any_exception_retried_same_message_witness :
  match Stub.single
          (Stub.client_scripted
             [CallRaised Stub.boom_bug;
              CallIterated [lit "public "] (Some Stub.boom_bug);
              CallRaised Stub.temporary_error])
          (lit "A.cs") 0 with
  | (r, env', tr) =>
    success r = false /\ retry_count r = 3
    /\ original_code r = strip (lit "public class A{}" ++ [10]%N)
    /\ error_message r = msg_llm_failed (Some Stub.temporary_error)
    /\ env' = 3
    /\ time_sleeps tr = [1; 1]
    /\ printed tr
       = [handler_line (Stub.Path_name (lit "A.cs")) 0 Stub.boom_bug;
          handler_line (Stub.Path_name (lit "A.cs")) 1 Stub.boom_bug;
          handler_line (Stub.Path_name (lit "A.cs")) 2 Stub.temporary_error]
  end.
Proof.
  eapply (@C3_any_exception_retried_same_message nat Stub.Path_name
            Stub.open_read Stub.SYSTEM_PROMPT Stub.build_review_prompt
            (Stub.client_scripted
               [CallRaised Stub.boom_bug;
                CallIterated [lit "public "] (Some Stub.boom_bug);
                CallRaised Stub.temporary_error])
            Stub.generate_report (lit "A.cs")
            (lit "public class A{}" ++ [10]%N) 0 0 1 2 3);
    reflexivity.
Defined.

(** C4 at work: a client that raises twice and then streams, and a client
    that raises three times. *)
Lemma C4_three_attempts_witness :
  match Stub.single (Stub.client_failing 2 Stub.temporary_error)
          (lit "A.cs") 0 with
  | (r, env', tr) =>
    success r = true /\ retry_count r = 2
    /\ improved_code r = accumulate [lit "IMPR"; lit "OVED"]
    /\ report_markdown r = lit "# Report"
    /\ error_message r = []
    /\ env' = 3
    /\ List.length (client_calls tr) = 3
  end
  /\ match Stub.single (Stub.client_failing 3 Stub.temporary_error)
            (lit "A.cs") 0 with
     | (r, env', tr) =>
       success r = false /\ retry_count r = 3
       /\ error_message r = msg_llm_failed (Some Stub.temporary_error)
       /\ env' = 3
       /\ List.length (client_calls tr) = 3
       /\ is_skip r = contains SKIP_MARKER (exn_str Stub.temporary_error)
     end.
Proof.
  split.
  - refine (proj1
              (@C4_three_attempts nat Stub.Path_name Stub.open_read
                 Stub.SYSTEM_PROMPT Stub.build_review_prompt
                 (Stub.client_failing 2 Stub.temporary_error)
                 Stub.generate_report (lit "A.cs")
                 (lit "public class A{}" ++ [10]%N) 0 0 1 2
                 (CallRaised Stub.temporary_error)
                 (CallRaised Stub.temporary_error)
                 Stub.temporary_error Stub.temporary_error
                 eq_refl eq_refl _ eq_refl _ eq_refl)
              [lit "IMPR"; lit "OVED"] (lit "# Report") 3 3 _ eq_refl);
      eexists; eexists; split; reflexivity.
  - refine (proj2
              (@C4_three_attempts nat Stub.Path_name Stub.open_read
                 Stub.SYSTEM_PROMPT Stub.build_review_prompt
                 (Stub.client_failing 3 Stub.temporary_error)
                 Stub.generate_report (lit "A.cs")
                 (lit "public class A{}" ++ [10]%N) 0 0 1 2
                 (CallRaised Stub.temporary_error)
                 (CallRaised Stub.temporary_error)
                 Stub.temporary_error Stub.temporary_error
                 eq_refl eq_refl _ eq_refl _ eq_refl)
              (CallRaised Stub.temporary_error) Stub.temporary_error 3
              _ eq_refl);
      eexists; eexists; split; reflexivity.
Defined.

(** C7 at work: a file of blanks, a missing file, a file that is not
    UTF-8. *)
Lemma C7_load_failure_short_circuits_witness :
  (match Stub.single Stub.client_silent (lit "Blank.cs") 0 with
   | (r, env', tr) =>
     success r = false /\ is_skip r = true /\ retry_count r = 0
     /\ tr = [OpenFile (lit "Blank.cs")]
     /\ prompt_builds tr = [] /\ client_calls tr = []
     /\ env' = snd (Stub.open_read (lit "Blank.cs") 0)
   end)
  /\ (match Stub.single Stub.client_silent (lit "Missing.cs") 0 with
      | (r, env', tr) =>
        success r = false /\ is_skip r = true /\ retry_count r = 0
        /\ tr = [OpenFile (lit "Missing.cs")]
        /\ prompt_builds tr = [] /\ client_calls tr = []
        /\ env' = snd (Stub.open_read (lit "Missing.cs") 0)
      end)
  /\ (match Stub.single Stub.client_silent (lit "Latin1.cs") 0 with
      | (r, env', tr) =>
        success r = false /\ is_skip r = true /\ retry_count r = 0
        /\ tr = [OpenFile (lit "Latin1.cs")]
        /\ prompt_builds tr = [] /\ client_calls tr = []
        /\ env' = snd (Stub.open_read (lit "Latin1.cs") 0)
      end).
Proof.
  split; [|split];
    apply (@C7_load_failure_short_circuits nat Stub.Path_name Stub.open_read
             Stub.SYSTEM_PROMPT Stub.build_review_prompt Stub.client_silent
             Stub.generate_report);
    reflexivity.
Defined.

(** C9 at work: five files, a client that fails once, with and without
    callbacks. *)
Lemma C9_callbacks_are_instrumentation_witness :
  match Stub.batch (Stub.client_failing 1 Stub.temporary_error)
          (Some Stub.progress_noop) (Some Stub.never_cancel)
          Stub.five_files 0 0,
        Stub.batch (Stub.client_failing 1 Stub.temporary_error)
          None None Stub.five_files tt 0 with
  | (summary1, _, env1, tr1), (summary0, _, env0, tr0) =>
    summary1 = summary0 /\ env1 = env0 /\ without_callbacks tr1 = tr0
  end.
Proof.
  apply (@C9_callbacks_are_instrumentation nat Stub.Path_name Stub.open_read
           Stub.SYSTEM_PROMPT Stub.build_review_prompt
           (Stub.client_failing 1 Stub.temporary_error) Stub.generate_report
           nat Stub.progress_noop Stub.never_cancel unit tt Stub.five_files
           0 0).
  intros w. reflexivity.
Defined.

(** C6 at work: five files and a cancellation callback that answers [True]
    from its third check on.  The summary holds the results of the first two
    files, the client was used for those two only, and three checks were
    made. *)
Lemma C6_cancellation_at_item_boundary_witness :
  match Stub.batch (Stub.client_failing 0 Stub.temporary_error)
          (Some Stub.progress_noop) (Some Stub.cancel_from_third_check)
          Stub.five_files 0 0 with
  | (summary, _, _, tr) =>
    total_files summary = 5
    /\ map file_path (results summary) = [lit "A.cs"; lit "B.cs"]
    /\ cancel_checks tr = [false; false; true]
    /\ List.length (progress_calls tr) = 2
    /\ List.length (client_calls tr) = 2
  end.
Proof.
  pose proof
    (@C6_cancellation_at_item_boundary nat Stub.Path_name Stub.open_read
       Stub.SYSTEM_PROMPT Stub.build_review_prompt
       (Stub.client_failing 0 Stub.temporary_error) Stub.generate_report
       nat (Some Stub.progress_noop) (Some Stub.cancel_from_third_check)
       Stub.cancel_from_third_check
       [lit "A.cs"; lit "B.cs"] (lit "C.cs") [lit "D.cs"; lit "E.cs"] 0 0
       _ 2 3 _ _ eq_refl eq_refl
       (Forall_cons false eq_refl (Forall_cons false eq_refl (Forall_nil _)))
       eq_refl) as H.
  change ([lit "A.cs"; lit "B.cs"] ++ lit "C.cs" :: [lit "D.cs"; lit "E.cs"])
    with Stub.five_files in H.
  unfold Stub.batch.
  destruct (analyze_files Stub.Path_name Stub.open_read Stub.SYSTEM_PROMPT
              Stub.build_review_prompt
              (Stub.client_failing 0 Stub.temporary_error)
              Stub.generate_report (Some Stub.progress_noop)
              (Some Stub.cancel_from_third_check) Stub.five_files 0 0)
    as [[[summary w'] env'] tr].
  destruct H
    as ((Htotal & _ & Hpaths & _ & _ & _ & Hchecks & Hprogress & Hcalls) & _).
  rewrite Hprogress, Hcalls. repeat split; assumption.
Defined.

(** C10: the tally decides between "skipped" and "failed" by looking for the
    marker in the message.  A result that is not a success adds one to
    [skipped_count] when its [error_message] contains the marker and one to
    [failure_count] otherwise; so in every summary [skipped_count] is the
    number of failures whose message contains the marker and [failure_count]
    the number of the other failures.  And there is a retry-exhausted
    failure (three uses of the client, [retry_count = 3]) whose last error
    text contains the marker and which is counted as skipped, not failed. *)
Theorem C10_skip_decided_by_marker_substring :
  (forall (t : tally) (r : FileAnalysisResult),
      success r = false ->
      record_result t r
      = if contains SKIP_MARKER (error_message r)
        then mkTally (t_results t ++ [r]) (t_success t) (t_failure t)
               (t_skipped t + 1)
        else mkTally (t_results t ++ [r]) (t_success t) (t_failure t + 1)
               (t_skipped t))
  /\ (forall (Env : Type) (Path_name : str -> str)
             (open_read : str -> Env -> (exn + str) * Env)
             (SYSTEM_PROMPT : str)
             (build_review_prompt :
                str -> list ReviewCategory -> OutputFormat -> bool -> Env ->
                (exn + str) * Env)
             (analyze_code : str -> bool -> Env -> call * Env)
             (generate_report :
                str -> str -> list str -> str -> Env -> (exn + str) * Env)
             (W : Type)
             (progress_callback : option (nat -> nat -> str -> W -> W))
             (is_cancelled_callback : option (W -> bool * W))
             (file_paths : list str) (w : W) (env : Env),
        match analyze_files Path_name open_read SYSTEM_PROMPT
                build_review_prompt analyze_code generate_report
                progress_callback is_cancelled_callback file_paths w env with
        | (summary, _, _, _) =>
          skipped_count summary
          = List.length (filter is_marked_failure (results summary))
          /\ failure_count summary
             = List.length (filter is_plain_failure (results summary))
        end)
  /\ match Stub.batch (Stub.client_failing 3 Stub.quota_error) None None
            [lit "A.cs"] tt 0 with
     | (summary, _, _, tr) =>
       contains SKIP_MARKER (exn_str Stub.quota_error) = true
       /\ List.length (client_calls tr) = 3
       /\ map success (results summary) = [false]
       /\ map retry_count (results summary) = [3]
       /\ skipped_count summary = 1 /\ failure_count summary = 0
     end.
Proof.
  split; [|split].
  - intros t r Hr. unfold record_result.
    rewrite Hr, is_skip_contains. reflexivity.
  - intros. 
    pose proof (analyze_files_counts_by_marker Path_name open_read
                  SYSTEM_PROMPT build_review_prompt analyze_code
                  generate_report progress_callback is_cancelled_callback
                  file_paths w env) as H.
    destruct (analyze_files Path_name open_read SYSTEM_PROMPT
                build_review_prompt analyze_code generate_report
                progress_callback is_cancelled_callback file_paths w env)
      as [[[summary w1] env1] ev].
    destruct H as (_ & Hk & Hf). split; assumption.
  - vm_compute. repeat split.
Qed.

End BatchAnalyzerExamples.

(* ================================================================== *)
(** ** More on [BatchAnalyzer]: what a run does, item by item *)

Section BatchAnalyzerAccounting.

Import BatchAnalyzer BatchRun.

Variable Env : Type.
Variable Path_name : str -> str.
Variable open_read : str -> Env -> (exn + str) * Env.
Variable SYSTEM_PROMPT : str.
Variable build_review_prompt :
  str -> list ReviewCategory -> OutputFormat -> bool -> Env -> (exn + str) * Env.
Variable analyze_code : str -> bool -> Env -> call * Env.
Variable generate_report :
  str -> str -> list str -> str -> Env -> (exn + str) * Env.

Local Abbreviation try_block :=
  (try_block SYSTEM_PROMPT build_review_prompt analyze_code generate_report).
Local Abbreviation retry_loop :=
  (retry_loop SYSTEM_PROMPT build_review_prompt analyze_code generate_report).
Local Abbreviation _analyze_single_file :=
  (_analyze_single_file Path_name open_read SYSTEM_PROMPT build_review_prompt
     analyze_code generate_report).
Local Abbreviation analyze_files_loop W :=
  (@BatchAnalyzer.analyze_files_loop Env Path_name open_read SYSTEM_PROMPT
     build_review_prompt analyze_code generate_report W).
Local Abbreviation analyze_files W :=
  (@BatchAnalyzer.analyze_files Env Path_name open_read SYSTEM_PROMPT
     build_review_prompt analyze_code generate_report W).

(** *** One item *)

Lemma prompt_builds_app (a b : list event) :
  prompt_builds (a ++ b) = prompt_builds a ++ prompt_builds b.
Proof. apply flat_map_app. Qed.

(** Every pass through the [try] block starts by building the prompt, and
    builds it once; the client is used at most once, after that. *)
Lemma try_block_builds_once (original_code : str) (env : Env) :
  match try_block original_code env with
  | (_, _, ev) =>
    List.length (prompt_builds ev) = 1 /\ List.length (client_calls ev) <= 1
    /\ printed ev = [] /\ time_sleeps ev = []
  end.
Proof.
  unfold BatchAnalyzer.try_block.
  destruct (build_review_prompt original_code categories IMPROVED_CODE true env)
    as [[e|prompt] env1]; [repeat split; simpl; lia|].
  destruct (analyze_code (SYSTEM_PROMPT ++ [10; 10]%N ++ prompt) true env1)
    as [[e|tokens [e|]] env2]; try (repeat split; simpl; lia).
  destruct (generate_report original_code (accumulate tokens)
              (map ReviewCategory_value categories) (lit "phi3:mini") env2)
    as [[e|report] env3]; repeat split; simpl; lia.
Qed.

Lemma except_block_accounting (name : str) (attempt : nat) (e : exn) :
  List.length (printed (except_block name attempt e)) = 1
  /\ prompt_builds (except_block name attempt e) = []
  /\ client_calls (except_block name attempt e) = []
  /\ time_sleeps (except_block name attempt e)
     = (if attempt <? MAX_RETRIES - 1 then [1] else []).
Proof.
  unfold except_block.
  destruct (isinstance_APIClientError e), (attempt <? MAX_RETRIES - 1);
    repeat split.
Qed.

(** The retry loop entered at attempt [a] with [retry_count = a]. *)
Lemma retry_loop_accounting (path name code : str) (len : nat) :
  forall (a : nat) (last_error : option exn) (env : Env),
    a + len = MAX_RETRIES ->
    match retry_loop path name code (seq a len) a last_error env with
    | (r, _, tr) =>
      a <= retry_count r /\ retry_count r <= MAX_RETRIES
      /\ (success r = false -> retry_count r = MAX_RETRIES)
      /\ (success r = true -> retry_count r < MAX_RETRIES)
      /\ List.length (printed tr) = retry_count r - a
      /\ time_sleeps tr
         = repeat 1 (Nat.min (retry_count r) (MAX_RETRIES - 1)
                     - Nat.min a (MAX_RETRIES - 1))
      /\ List.length (prompt_builds tr) = attempts_made r - a
      /\ List.length (client_calls tr) <= List.length (prompt_builds tr)
      /\ original_code r = code /\ file_name r = name
    end.
Proof.
  unfold attempts_made, MAX_RETRIES.
  induction len as [|len IH]; intros a last_error env Ha.
  - simpl. replace a with 3 by lia. repeat split; simpl; auto; discriminate.
  - change (seq a (S len)) with (a :: seq (S a) len).
    rewrite retry_loop_cons.
    pose proof (try_block_builds_once code env) as Ht.
    destruct (try_block code env)
      as [[[e|[improved report]] env'] ev];
      destruct Ht as (Hb & Hc & Hp & Hs).
    + specialize (IH (S a) (Some e) env').
      replace (a + 1) with (S a) by lia.
      destruct (retry_loop path name code (seq (S a) len) (S a)
                  (Some e) env') as [[r env''] tr'].
      destruct IH as (I1 & I2 & I3 & I4 & I5 & I6 & I7 & I8 & I9 & I10);
        [lia|].
      destruct (except_block_accounting name a e) as (X1 & X2 & X3 & X4).
      rewrite !printed_app, !time_sleeps_app, !prompt_builds_app,
        !client_calls_app, !length_app, Hp, Hs, X2, X3, X4, I6.
      unfold MAX_RETRIES. simpl List.length. simpl app.
      repeat split; auto; try lia.
      change (3 - 1) with 2.
      destruct (Nat.ltb_spec a 2) as [Hlt|Hge].
      * replace (Nat.min (retry_count r) 2 - Nat.min a 2)
          with (S (Nat.min (retry_count r) 2 - S (Nat.min a 1))) by lia.
        reflexivity.
      * simpl app. f_equal. lia.
    + simpl. rewrite Hp, Hs.
      replace (Nat.min a 2 - Nat.min a 2) with 0 by lia.
      repeat split; auto; try lia; try discriminate.
      simpl. lia.
Qed.







(** X6: what a result says about its file.  [file_name] is the name of the
    path.  If the file could not be loaded the result is a failure with
    [retry_count = 0] and an empty [original_code].  Otherwise
    [original_code] is the text of the file, stripped, and is not empty; a
    success then has made at most two retries and a failure exactly
    [MAX_RETRIES]: a failure never reports one or two. *)
Theorem single_file_result_shape (path : str) (env : Env) :
  match open_read path env, _analyze_single_file path env with
  | (o, _), (r, _, _) =>
    file_name r = Path_name path
    /\ if load_fails o
       then success r = false /\ retry_count r = 0 /\ original_code r = []
       else (exists text, o = inr text /\ original_code r = strip text)
            /\ original_code r <> []
            /\ (success r = true -> retry_count r < MAX_RETRIES)
            /\ (success r = false -> retry_count r = MAX_RETRIES)
  end.
Proof.
  unfold BatchAnalyzer._analyze_single_file.
  destruct (open_read path env) as [[e|text] env1]; cbn [load_fails].
  - destruct (isinstance_UnicodeDecodeError e); simpl; repeat split.
  - destruct (negb (truthy (strip text))) eqn:Hempty;
      [simpl; repeat split|].
    pose proof (retry_loop_accounting path (Path_name path) (strip text) 3
                  0 None env1 eq_refl) as H.
    change (seq 0 MAX_RETRIES) with (seq 0 3).
    destruct (retry_loop path (Path_name path) (strip text) (seq 0 3) 0 None
                env1) as [[r env2] tr].
    destruct H as (I1 & I2 & I3 & I4 & I5 & I6 & I7 & I8 & I9 & I10).
    repeat split; auto.
    + exists text. split; [reflexivity | exact I9].
    + rewrite I9. intros Hnil. rewrite Hnil in Hempty. discriminate.
Qed.

Section Run.

Variable W : Type.
Variable progress_callback : option (nat -> nat -> str -> W -> W).
Variable is_cancelled_callback : option (W -> bool * W).

Local Abbreviation loop :=
  (analyze_files_loop W progress_callback is_cancelled_callback).

(** The loop processes a prefix [done] of its list and leaves [rest]
    untouched.  It records one result per processed file, in order; it
    notifies the progress callback once per processed file; it asks the
    cancellation callback once per processed file and once more if it stops
    early; and it stops early only when that callback says so. *)
Lemma analyze_files_loop_accounting (paths : list str) :
  forall (total i : nat) (t : tally) (w : W) (env : Env),
    match loop total i paths t w env with
    | (t', _, _, tr) =>
      exists done rest,
        paths = done ++ rest
        /\ map file_path (t_results t') = map file_path (t_results t) ++ done
        /\ progress_calls tr
           = match progress_callback with
             | None => []
             | Some _ => expected_progress Path_name total i done
             end
        /\ cancel_checks tr
           = match is_cancelled_callback with
             | None => []
             | Some _ =>
               repeat false (List.length done)
                 ++ match rest with [] => [] | _ :: _ => [true] end
             end
        /\ (never_cancels is_cancelled_callback -> rest = [])
    end.
Proof.
  induction paths as [|path paths IH]; intros total i t w env.
  - exists [], []. simpl. rewrite app_nil_r.
    destruct progress_callback, is_cancelled_callback; repeat split.
  - rewrite analyze_files_loop_cons. unfold check_cancelled.
    destruct is_cancelled_callback as [ic|] eqn:Hic.
    + destruct (ic w) as [[|] w1] eqn:Hw.
      * (* cancelled before [path] *)
        exists [], (path :: paths). simpl. rewrite app_nil_r.
        destruct progress_callback; repeat split;
          intros Hnever; specialize (Hnever w); rewrite Hw in Hnever;
          discriminate.
      * unfold notify_progress.
        pose proof (single_file_file_path Path_name open_read SYSTEM_PROMPT
                      build_review_prompt analyze_code generate_report
                      path env) as Hq.
        pose proof (single_file_callback_free Path_name open_read
                      SYSTEM_PROMPT build_review_prompt analyze_code
                      generate_report path env) as Hfree.
        destruct (_analyze_single_file path env) as [[result env1] ev_a].
        apply callback_free_reads in Hfree as (Hac & Hap & _).
        simpl in Hq, Hac, Hap.
        destruct progress_callback as [pc|].
        -- specialize (IH total (S i) (record_result t result)
                         (pc i total (Path_name path) w1) env1).
           destruct (analyze_files_loop W (Some pc) (Some ic) total (S i)
                       paths (record_result t result)
                       (pc i total (Path_name path) w1) env1)
             as [[[t' w3] env2] ev'].
           destruct IH as (done & rest & Hp & Hr & Hpc & Hcc & Hn).
           exists (path :: done), rest. subst paths.
           repeat split; auto.
           ++ rewrite Hr. unfold record_result.
              destruct (success result); [|destruct (is_skip result)];
                simpl; rewrite map_app, <- app_assoc; simpl; rewrite Hq;
                reflexivity.
           ++ change (progress_calls
                        ([IsCancelled false]
                           ++ [Progress i total (Path_name path)]
                           ++ ev_a ++ ev'))
                with ((i, total, Path_name path)
                        :: progress_calls (ev_a ++ ev')).
              rewrite progress_calls_app, Hap, Hpc. reflexivity.
           ++ change (cancel_checks
                        ([IsCancelled false]
                           ++ [Progress i total (Path_name path)]
                           ++ ev_a ++ ev'))
                with (false :: cancel_checks (ev_a ++ ev')).
              rewrite cancel_checks_app, Hac, Hcc. reflexivity.
        -- specialize (IH total (S i) (record_result t result) w1 env1).
           destruct (analyze_files_loop W None (Some ic) total (S i)
                       paths (record_result t result) w1 env1)
             as [[[t' w3] env2] ev'].
           destruct IH as (done & rest & Hp & Hr & Hpc & Hcc & Hn).
           exists (path :: done), rest. subst paths.
           repeat split; auto.
           ++ rewrite Hr. unfold record_result.
              destruct (success result); [|destruct (is_skip result)];
                simpl; rewrite map_app, <- app_assoc; simpl; rewrite Hq;
                reflexivity.
           ++ change (progress_calls ([IsCancelled false] ++ [] ++ ev_a ++ ev'))
                with (progress_calls (ev_a ++ ev')).
              rewrite progress_calls_app, Hap, Hpc. reflexivity.
           ++ change (cancel_checks ([IsCancelled false] ++ [] ++ ev_a ++ ev'))
                with (false :: cancel_checks (ev_a ++ ev')).
              rewrite cancel_checks_app, Hac, Hcc. reflexivity.
    + unfold notify_progress.
      pose proof (single_file_file_path Path_name open_read SYSTEM_PROMPT
                    build_review_prompt analyze_code generate_report
                    path env) as Hq.
      pose proof (single_file_callback_free Path_name open_read
                    SYSTEM_PROMPT build_review_prompt analyze_code
                    generate_report path env) as Hfree.
      destruct (_analyze_single_file path env) as [[result env1] ev_a].
      apply callback_free_reads in Hfree as (Hac & Hap & _).
      simpl in Hq, Hac, Hap.
      destruct progress_callback as [pc|].
      * specialize (IH total (S i) (record_result t result)
                      (pc i total (Path_name path) w) env1).
        destruct (analyze_files_loop W (Some pc) None total (S i)
                    paths (record_result t result)
                    (pc i total (Path_name path) w) env1)
          as [[[t' w3] env2] ev'].
        destruct IH as (done & rest & Hp & Hr & Hpc & Hcc & Hn).
        exists (path :: done), rest. subst paths.
        repeat split; auto.
        -- rewrite Hr. unfold record_result.
           destruct (success result); [|destruct (is_skip result)];
             simpl; rewrite map_app, <- app_assoc; simpl; rewrite Hq;
             reflexivity.
        -- change (progress_calls
                     ([] ++ [Progress i total (Path_name path)]
                        ++ ev_a ++ ev'))
             with ((i, total, Path_name path) :: progress_calls (ev_a ++ ev')).
           rewrite progress_calls_app, Hap, Hpc. reflexivity.
        -- change (cancel_checks
                     ([] ++ [Progress i total (Path_name path)]
                        ++ ev_a ++ ev'))
             with (cancel_checks (ev_a ++ ev')).
           rewrite cancel_checks_app, Hac, Hcc. reflexivity.
      * specialize (IH total (S i) (record_result t result) w env1).
        destruct (analyze_files_loop W None None total (S i)
                    paths (record_result t result) w env1)
          as [[[t' w3] env2] ev'].
        destruct IH as (done & rest & Hp & Hr & Hpc & Hcc & Hn).
        exists (path :: done), rest. subst paths.
        repeat split; auto.
        -- rewrite Hr. unfold record_result.
           destruct (success result); [|destruct (is_skip result)];
             simpl; rewrite map_app, <- app_assoc; simpl; rewrite Hq;
             reflexivity.
        -- change (progress_calls ([] ++ [] ++ ev_a ++ ev'))
             with (progress_calls (ev_a ++ ev')).
           rewrite progress_calls_app, Hap, Hpc. reflexivity.
        -- change (cancel_checks ([] ++ [] ++ ev_a ++ ev'))
             with (cancel_checks (ev_a ++ ev')).
           rewrite cancel_checks_app, Hac, Hcc. reflexivity.
Qed.

(** The same facts for [analyze_files], where the processed files can be
    read off the results. *)
Lemma analyze_files_accounting (file_paths : list str) (w : W) (env : Env) :
  match analyze_files W progress_callback is_cancelled_callback
          file_paths w env with
  | (summary, _, _, tr) =>
    exists rest,
      file_paths = map file_path (results summary) ++ rest
      /\ progress_calls tr
         = match progress_callback with
           | None => []
           | Some _ =>
             expected_progress Path_name (List.length file_paths) 0
               (map file_path (results summary))
           end
      /\ cancel_checks tr
         = match is_cancelled_callback with
           | None => []
           | Some _ =>
             repeat false (List.length (results summary))
               ++ match rest with [] => [] | _ :: _ => [true] end
           end
      /\ (never_cancels is_cancelled_callback -> rest = [])
  end.
Proof.
  unfold BatchAnalyzer.analyze_files.
  pose proof (analyze_files_loop_accounting file_paths
                (List.length file_paths) 0 tally0 w env) as H.
  destruct (analyze_files_loop W progress_callback is_cancelled_callback
              (List.length file_paths) 0 file_paths tally0 w env)
    as [[[t w'] env'] tr].
  destruct H as (done & rest & Hp & Hr & Hpc & Hcc & Hn).
  simpl in Hr. simpl. exists rest.
  assert (Hlen : List.length (t_results t) = List.length done)
    by (rewrite <- Hr, length_map; reflexivity).
  rewrite Hr, Hlen. repeat split; auto.
Qed.

(** X1: the results of a summary are those of a prefix of the input list,
    one per file and in input order; [total_files] is the length of the
    whole input, so there are never more results than [total_files]. *)
Theorem results_follow_the_input_order (file_paths : list str) (w : W)
    (env : Env) :
  match analyze_files W progress_callback is_cancelled_callback
          file_paths w env with
  | (summary, _, _, _) =>
    total_files summary = List.length file_paths
    /\ (exists rest, file_paths = map file_path (results summary) ++ rest)
    /\ List.length (results summary) <= total_files summary
  end.
Proof.
  pose proof (analyze_files_accounting file_paths w env) as H.
  assert (Ht : total_files
                 (fst (fst (fst (analyze_files W progress_callback
                                   is_cancelled_callback file_paths w env))))
               = List.length file_paths).
  { unfold BatchAnalyzer.analyze_files.
    destruct (analyze_files_loop W progress_callback is_cancelled_callback
                (List.length file_paths) 0 file_paths tally0 w env)
      as [[[t w'] env'] tr]. reflexivity. }
  destruct (analyze_files W progress_callback is_cancelled_callback
              file_paths w env) as [[[summary w'] env'] tr].
  destruct H as (rest & Hp & _). simpl in Ht.
  repeat split; [exact Ht | exists rest; exact Hp |].
  rewrite Ht, Hp, length_app, length_map. lia.
Qed.

(** X2: when the cancellation callback is absent or always answers
    [False], every file of the input is processed: the results are those of
    the whole list, in order, and the three counters add up to
    [total_files]. *)
Theorem uncancelled_run_processes_every_file (file_paths : list str) (w : W)
    (env : Env) :
  never_cancels is_cancelled_callback ->
  match analyze_files W progress_callback is_cancelled_callback
          file_paths w env with
  | (summary, _, _, _) =>
    map file_path (results summary) = file_paths
    /\ List.length (results summary) = total_files summary
    /\ success_count summary + failure_count summary + skipped_count summary
       = total_files summary
  end.
Proof.
  intros Hnever.
  pose proof (analyze_files_accounting file_paths w env) as H.
  unfold BatchAnalyzer.analyze_files in *.
  pose proof (analyze_files_loop_preserves Path_name open_read SYSTEM_PROMPT
                build_review_prompt analyze_code generate_report
                progress_callback is_cancelled_callback counts_add_up
                (fun t path env H => record_result_counts _ H)
                file_paths (List.length file_paths) 0 tally0 w env eq_refl)
    as Hc.
  destruct (analyze_files_loop W progress_callback is_cancelled_callback
              (List.length file_paths) 0 file_paths tally0 w env)
    as [[[t w'] env'] tr].
  destruct H as (rest & Hp & _ & _ & Hn). simpl in *.
  rewrite (Hn Hnever), app_nil_r in Hp.
  unfold counts_add_up in Hc.
  assert (Hlen : List.length (t_results t) = List.length file_paths)
    by (rewrite Hp, length_map; reflexivity).
  repeat split; [symmetry; exact Hp | exact Hlen | lia].
Qed.

(** X3: the progress callback, when one is given, is invoked exactly once
    for each file that gets processed, in input order, with the indices
    0, 1, 2, ..., with the length of the whole input as total and with the
    file's name; it is not invoked for a file the run never reaches. *)
Theorem progress_notified_once_per_processed_file (file_paths : list str)
    (w : W) (env : Env) :
  match analyze_files W progress_callback is_cancelled_callback
          file_paths w env with
  | (summary, _, _, tr) =>
    progress_calls tr
    = match progress_callback with
      | None => []
      | Some _ =>
        expected_progress Path_name (List.length file_paths) 0
          (map file_path (results summary))
      end
  end.
Proof.
  pose proof (analyze_files_accounting file_paths w env) as H.
  destruct (analyze_files W progress_callback is_cancelled_callback
              file_paths w env) as [[[summary w'] env'] tr].
  destruct H as (rest & _ & Hpc & _). exact Hpc.
Qed.

(** X4: the cancellation callback, when one is given, is asked once before
    each file that gets processed, answering [False] each time, and once
    more, answering [True], exactly when the run stops before the end of the
    input.  A run over all the files never asks after the last one. *)
Theorem cancellation_asked_once_per_file (file_paths : list str) (w : W)
    (env : Env) :
  match analyze_files W progress_callback is_cancelled_callback
          file_paths w env with
  | (summary, _, _, tr) =>
    cancel_checks tr
    = match is_cancelled_callback with
      | None => []
      | Some _ =>
        repeat false (List.length (results summary))
          ++ (if List.length (results summary) <? List.length file_paths
              then [true] else [])
      end
  end.
Proof.
  pose proof (analyze_files_accounting file_paths w env) as H.
  destruct (analyze_files W progress_callback is_cancelled_callback
              file_paths w env) as [[[summary w'] env'] tr].
  destruct H as (rest & Hp & _ & Hcc & _). rewrite Hcc.
  destruct is_cancelled_callback; [|reflexivity].
  f_equal. rewrite Hp, length_app, length_map.
  destruct rest as [|x rest]; simpl.
  - rewrite Nat.add_0_r, Nat.ltb_irrefl. reflexivity.
  - replace (_ <? _) with true; [reflexivity|].
    symmetry. apply Nat.ltb_lt. lia.
Qed.

End Run.

End BatchAnalyzerAccounting.

(* ================================================================== *)
(** ** More on [APIClient.analyze_code] *)

Section APIClientMore.

Import APIClient APIClientRun.

Variable Net : Type.
Variable self_provider : provider.
Variable sdk_create : str -> Net -> (exn + str) * Net.
Variable sdk_stream : str -> Net -> (list str * option exn) * Net.

Local Abbreviation analyze_code := (analyze_code sdk_create).
Local Abbreviation analyze_code_loop := (analyze_code_loop sdk_create).
Local Abbreviation for_token_in_analyze_code :=
  (for_token_in_analyze_code self_provider sdk_create sdk_stream).
Local Abbreviation _stream_response_body :=
  (_stream_response_body self_provider sdk_stream).

(** What the generator body leaves in the trace. *)
Lemma stream_response_body_trace (prompt : str) (net : Net) :
  match _stream_response_body prompt net with
  | (d, net', tr) =>
    requests tr = [true] /\ sleeps tr = [] /\ caught tr = []
    /\ net' = snd (sdk_stream prompt net)
    /\ failure d = snd (fst (sdk_stream prompt net))
    /\ delivered d
       = match self_provider with
         | openai => filter truthy (fst (fst (sdk_stream prompt net)))
         | anthropic => fst (fst (sdk_stream prompt net))
         end
  end.
Proof.
  unfold APIClient._stream_response_body.
  destruct (sdk_stream prompt net) as [[chunks [e|]] net']; repeat split.
Qed.

(** X7: in streaming mode [max_retries] has no effect as soon as it is at
    least 1.  Iterating [analyze_code(prompt, stream=True, max_retries)]
    sends exactly one request and never waits; the caller receives the
    chunks of the provider's stream (for [openai], those with a non-empty
    content) and, if the stream breaks, the provider's own exception. *)
Theorem streaming_makes_one_request (prompt : str) (n : Z) (net : Net) :
  (0 < n)%Z ->
  match for_token_in_analyze_code prompt n net with
  | (d, net', tr) =>
    requests tr = [true] /\ sleeps tr = [] /\ caught tr = []
    /\ net' = snd (sdk_stream prompt net)
    /\ failure d = snd (fst (sdk_stream prompt net))
    /\ delivered d
       = match self_provider with
         | openai => filter truthy (fst (fst (sdk_stream prompt net)))
         | anthropic => fst (fst (sdk_stream prompt net))
         end
  end.
Proof.
  intros Hn.
  rewrite (streaming_runs_body_once self_provider sdk_create sdk_stream
             prompt net Hn).
  apply stream_response_body_trace.
Qed.

(** X8: with [max_retries <= 0] the loop body never runs: [analyze_code]
    returns [None] in either mode, without a request and without raising.
    A caller that iterates the result gets a [TypeError], which is not an
    [APIClientError]. *)
Theorem no_retries_no_request (prompt : str) (stream : bool) (n : Z)
    (net : Net) :
  (n <= 0)%Z ->
  analyze_code prompt stream n net = (Returned RetNone, net, [])
  /\ for_token_in_analyze_code prompt n net
     = (Drained [] (Some none_not_iterable), net, [])
  /\ isinstance_APIClientError none_not_iterable = false.
Proof.
  intros Hn. unfold APIClient.for_token_in_analyze_code, APIClient.analyze_code.
  rewrite (range_nonpos Hn). repeat split.
Qed.

Lemma total_seconds_app (a b : list Z) :
  total_seconds (a ++ b) = (total_seconds a + total_seconds b)%Z.
Proof.
  unfold total_seconds. induction a as [|x a IH]; simpl; [reflexivity|].
  rewrite IH. lia.
Qed.

Lemma total_seconds_powers (m : nat) :
  total_seconds (map (fun k => (2 ^ Z.of_nat k)%Z) (seq 0 m))
  = (2 ^ Z.of_nat m - 1)%Z.
Proof.
  induction m as [|m IH]; [reflexivity|].
  rewrite seq_S, map_app, total_seconds_app, IH.
  change (total_seconds (map (fun k => (2 ^ Z.of_nat k)%Z) [0 + m]))
    with (2 ^ Z.of_nat (0 + m) + 0)%Z.
  rewrite Nat.add_0_l, Nat2Z.inj_succ, Z.pow_succ_r by lia. lia.
Qed.

(** X9: the time [analyze_code] spends waiting.  If [c] errors were caught,
    the waits add up to [2^min(c, n-1) - 1] seconds; so a call that gives up
    after [n] failed attempts has waited [2^(n-1) - 1] seconds in all (3
    seconds for the default of 3 attempts), and a call answered at the first
    attempt has not waited. *)
Theorem total_backoff_time (prompt : str) (stream : bool) (n : Z) (net : Net) :
  match analyze_code prompt stream n net with
  | (o, _, tr) =>
    total_seconds (sleeps tr)
    = (2 ^ Z.of_nat (Nat.min (List.length (caught tr)) (Z.to_nat n - 1)) - 1)%Z
    /\ match o with
       | Raised _ => total_seconds (sleeps tr) = (2 ^ (n - 1) - 1)%Z
       | Returned _ =>
         caught tr = [] -> sleeps tr = []
       end
  end.
Proof.
  unfold APIClient.analyze_code. destruct (Z.ltb_spec 0 n) as [Hn|Hn].
  - pose proof (analyze_code_loop_schedule sdk_create prompt stream
                  (Z.to_nat n - 1) 0 net) as H.
    cbv zeta in H.
    replace (0 + S (Z.to_nat n - 1)) with (Z.to_nat n) in H by lia.
    replace (S (Z.to_nat n - 1)) with (Z.to_nat n) in H by lia.
    rewrite Z2Nat.id in H by lia. fold (range n) in H.
    destruct (analyze_code_loop prompt stream n (range n) net)
      as [[o net'] tr].
    destruct H as (_ & _ & Hsl & Ho).
    rewrite Hsl, total_seconds_powers. split; [reflexivity|].
    destruct o as [r|x].
    + intros Hc. rewrite Hc. reflexivity.
    + destruct Ho as [Hlen _]. rewrite Hlen.
      replace (Nat.min (Z.to_nat n) (Z.to_nat n - 1)) with (Z.to_nat n - 1)
        by lia.
      replace (Z.of_nat (Z.to_nat n - 1)) with (n - 1)%Z by lia.
      reflexivity.
  - rewrite (range_nonpos Hn). simpl. split; [reflexivity | auto].
Qed.

End APIClientMore.

(* ================================================================== *)
(** ** The analyzer wired to the client: who retries *)

Section WiringProperties.

Import BatchAnalyzer Wiring.

Variable Net : Type.
Variable Rest : Type.
Variable self_provider : APIClient.provider.
Variable sdk_create : str -> Net -> (exn + str) * Net.
Variable sdk_stream : str -> Net -> (list str * option exn) * Net.
Variable Path_name : str -> str.
Variable open_read : str -> Rest -> (exn + str) * Rest.
Variable SYSTEM_PROMPT : str.
Variable build_review_prompt :
  str -> list ReviewCategory -> OutputFormat -> bool -> Rest ->
  (exn + str) * Rest.
Variable generate_report :
  str -> str -> list str -> str -> Rest -> (exn + str) * Rest.

Local Abbreviation client :=
  (api_client_analyze_code (Rest := Rest) self_provider sdk_create sdk_stream).
Local Abbreviation reads :=
  (fun path => on_rest (Net := Net) (open_read path)).
Local Abbreviation builds :=
  (fun code cats fmt ex =>
     on_rest (Net := Net) (build_review_prompt code cats fmt ex)).
Local Abbreviation reports :=
  (fun original improved cats model =>
     on_rest (Net := Net) (generate_report original improved cats model)).
Local Abbreviation try_block :=
  (BatchAnalyzer.try_block SYSTEM_PROMPT builds client reports).
Local Abbreviation retry_loop :=
  (BatchAnalyzer.retry_loop SYSTEM_PROMPT builds client reports).
Local Abbreviation outside_is_not_client :=
  (no_client_error_from_outside sdk_stream build_review_prompt
     generate_report).

Lemma only_requests_refl (log : list APIClient.event) : only_requests log log 0.
Proof. exists []. rewrite app_nil_r. repeat split. Qed.

Lemma only_requests_trans (l1 l2 l3 : list APIClient.event) (j k : nat) :
  only_requests l1 l2 j -> only_requests l2 l3 k -> only_requests l1 l3 (j + k).
Proof.
  intros (n1 & -> & R1 & S1 & C1) (n2 & -> & R2 & S2 & C2).
  exists (n1 ++ n2). rewrite app_assoc.
  rewrite requests_app, sleeps_app, caught_app, R1, R2, S1, S2, C1, C2.
  rewrite repeat_app. repeat split.
Qed.

(** One use of the client in streaming mode: the generator is returned at
    once and its body is run by the [for] loop, so the call itself never
    raises and one request goes out. *)
Lemma client_streaming (prompt : str) (env : world Net Rest) :
  match client prompt true env with
  | (c, env') =>
    only_requests (client_log env) (client_log env') 1
    /\ rest env' = rest env
    /\ (exists tokens, c = CallIterated tokens
                            (snd (fst (sdk_stream prompt (net env)))))
  end.
Proof.
  unfold api_client_analyze_code.
  rewrite (analyze_code_stream_returns_generator sdk_create prompt
             (net env) (n := 3)) by lia.
  simpl APIClient.iterate.
  pose proof (stream_response_body_trace self_provider sdk_stream prompt
                (net env)) as H.
  destruct (APIClient._stream_response_body self_provider sdk_stream prompt
              (net env)) as [[d net2] ev2].
  destruct H as (Hr & Hs & Hc & _ & Hf & _). simpl.
  repeat split.
  - exists ev2. repeat split; assumption.
  - exists (APIClient.delivered d). rewrite Hf. reflexivity.
Qed.

Lemma on_rest_keeps_client (A : Type) (f : Rest -> A * Rest)
    (env : world Net Rest) :
  client_log (snd (on_rest f env)) = client_log env
  /\ net (snd (on_rest f env)) = net env
  /\ fst (on_rest f env) = fst (f (rest env)).
Proof. unfold on_rest. destruct (f (rest env)); repeat split. Qed.

(** One pass through the [try] block: one request per use of the client,
    and the exception that leaves the block, if any, comes from outside. *)
Lemma wired_try_block (code : str) (env : world Net Rest) :
  match try_block code env with
  | (o, env', tr) =>
    only_requests (client_log env) (client_log env')
      (List.length (client_calls tr))
    /\ (outside_is_not_client ->
        forall e, o = inl e -> isinstance_APIClientError e = false)
  end.
Proof.
  unfold BatchAnalyzer.try_block.
  destruct (on_rest_keeps_client
              (build_review_prompt code categories IMPROVED_CODE true) env)
    as (Hl1 & Hn1 & Ho1).
  destruct (on_rest (build_review_prompt code categories IMPROVED_CODE true)
              env) as [[e|prompt] env1]; simpl in Hl1, Hn1, Ho1.
  - rewrite Hl1. split; [apply only_requests_refl|].
    intros (_ & Hb & _) e' He'. injection He' as <-.
    eapply Hb. symmetry. exact Ho1.
  - pose proof (client_streaming (SYSTEM_PROMPT ++ [10; 10]%N ++ prompt) env1)
      as Hc.
    destruct (client (SYSTEM_PROMPT ++ [10; 10]%N ++ prompt) true env1)
      as [c env2].
    destruct Hc as (Hreq & _ & tokens & ->). rewrite Hl1 in Hreq.
    destruct (snd (fst (sdk_stream (SYSTEM_PROMPT ++ [10; 10]%N ++ prompt)
                          (net env1)))) as [e|] eqn:Hfault.
    + split; [exact Hreq|].
      intros (Hs & _ & _) e' He'. injection He' as <-.
      eapply Hs. exact Hfault.
    + destruct (on_rest_keeps_client
                  (generate_report code (accumulate tokens)
                     (map ReviewCategory_value categories) (lit "phi3:mini"))
                  env2) as (Hl3 & _ & Ho3).
      destruct (on_rest
                  (generate_report code (accumulate tokens)
                     (map ReviewCategory_value categories) (lit "phi3:mini"))
                  env2) as [[e|report] env3]; simpl in Hl3, Ho3;
        rewrite Hl3; (split; [exact Hreq|]).
      * intros (_ & _ & Hg) e' He'. injection He' as <-.
        eapply Hg. symmetry. exact Ho3.
      * intros _ e' He'. discriminate.
Qed.

Lemma wired_retry_loop (path name code : str) (attempts : list nat) :
  forall (retry_count : nat) (last_error : option exn) (env : world Net Rest),
    match retry_loop path name code attempts retry_count last_error env with
    | (_, env', tr) =>
      only_requests (client_log env) (client_log env')
        (List.length (client_calls tr))
      /\ (outside_is_not_client -> Forall (unexpected_line name) (printed tr))
    end.
Proof.
  induction attempts as [|attempt attempts IH];
    intros retry_count last_error env.
  - simpl. split; [apply only_requests_refl | constructor].
  - rewrite retry_loop_cons.
    pose proof (wired_try_block code env) as Ht.
    pose proof (try_block_trace_quiet SYSTEM_PROMPT builds client reports
                  code env) as Hq.
    destruct (try_block code env) as [[[e|[improved report]] env'] ev];
      destruct Ht as (Hreq & Hcls); destruct Hq as (Hp & _ & _).
    + specialize (IH (retry_count + 1) (Some e) env').
      destruct (retry_loop path name code attempts (retry_count + 1)
                  (Some e) env') as [[r env''] ev'].
      destruct IH as (Hreq' & Hlines).
      destruct (except_block_trace name attempt e) as (Xp & Xc & _).
      rewrite !client_calls_app, !length_app, Xc, !printed_app, Hp, Xp.
      simpl. split; [eapply only_requests_trans; eassumption|].
      intros Hout. constructor; [|exact (Hlines Hout)].
      exists attempt, e. unfold handler_line.
      rewrite (Hcls Hout e eq_refl). reflexivity.
    + rewrite Hp. split; [exact Hreq | constructor].
Qed.

(** X10: in the analyzer wired to the client only the analyzer retries.
    During the analysis of a file the provider receives exactly one
    streaming request per use of the client, three at most; the client's own
    retry loop catches nothing and its exponential backoff never waits. *)
Theorem wired_one_request_per_attempt (path : str) (env : world Net Rest) :
  match Wiring._analyze_single_file self_provider sdk_create sdk_stream
          Path_name open_read SYSTEM_PROMPT build_review_prompt
          generate_report path env with
  | (_, env', tr) =>
    only_requests (client_log env) (client_log env')
      (List.length (client_calls tr))
    /\ List.length (client_calls tr) <= MAX_RETRIES
  end.
Proof.
  unfold Wiring._analyze_single_file.
  pose proof (retry_loop_accounting SYSTEM_PROMPT builds client reports) as Hacc.
  unfold BatchAnalyzer._analyze_single_file.
  destruct (on_rest_keeps_client (open_read path) env) as (Hl & _ & _).
  destruct (on_rest (open_read path) env) as [[e|text] env1]; simpl in Hl.
  - destruct (isinstance_UnicodeDecodeError e); rewrite Hl; simpl;
      (split; [apply only_requests_refl | unfold MAX_RETRIES; lia]).
  - destruct (negb (truthy (strip text))).
    + rewrite Hl. simpl.
      split; [apply only_requests_refl | unfold MAX_RETRIES; lia].
    + pose proof (wired_retry_loop path (Path_name path) (strip text)
                    (seq 0 MAX_RETRIES) 0 None env1) as H.
      specialize (Hacc path (Path_name path) (strip text) 3 0 None env1
                    eq_refl).
      change (seq 0 3) with (seq 0 MAX_RETRIES) in Hacc.
      destruct (retry_loop path (Path_name path) (strip text)
                  (seq 0 MAX_RETRIES) 0 None env1) as [[r env2] tr].
      destruct H as (Hreq & _). rewrite Hl in Hreq.
      destruct Hacc as (_ & I2 & I3 & I4 & _ & _ & I7 & I8 & _).
      change (client_calls (OpenFile path :: tr)) with (client_calls tr).
      split; [exact Hreq|].
      unfold BatchRun.attempts_made, MAX_RETRIES in *.
      destruct (success r); [specialize (I4 eq_refl)|]; lia.
Qed.

(** X11: in the analyzer wired to the client, as long as the provider and
    the collaborators raise no [APIClientError] themselves, every failed
    attempt is handled by the handler of unexpected exceptions: each printed
    line is the line of that handler, and the handler of [APIClientError]
    is never entered. *)
Theorem wired_failures_are_unexpected (path : str) (env : world Net Rest) :
  outside_is_not_client ->
  Forall (unexpected_line (Path_name path))
    (printed
       (snd (Wiring._analyze_single_file self_provider sdk_create sdk_stream
               Path_name open_read SYSTEM_PROMPT build_review_prompt
               generate_report path env))).
Proof.
  intros Hout. unfold Wiring._analyze_single_file.
  unfold BatchAnalyzer._analyze_single_file.
  destruct (on_rest (open_read path) env) as [[e|text] env1].
  - destruct (isinstance_UnicodeDecodeError e); constructor.
  - destruct (negb (truthy (strip text))); [constructor|].
    pose proof (wired_retry_loop path (Path_name path) (strip text)
                  (seq 0 MAX_RETRIES) 0 None env1) as H.
    destruct (retry_loop path (Path_name path) (strip text)
                (seq 0 MAX_RETRIES) 0 None env1) as [[r env2] tr].
    destruct H as (_ & Hlines). exact (Hlines Hout).
Qed.

End WiringProperties.

(* ================================================================== *)
(** ** Properties of [PromptBuilder] *)

Section PromptBuilderProperties.

Import BatchAnalyzer PromptBuilder WithPromptBuilder.

Lemma in_firstn (A : Type) (n : nat) (l : list A) (x : A) :
  In x (firstn n l) -> In x l.
Proof.
  intros Hin. rewrite <- (firstn_skipn n l). apply in_or_app. left. exact Hin.
Qed.

Lemma ReviewCategory_eqb_eq (c1 c2 : ReviewCategory) :
  ReviewCategory_eqb c1 c2 = true <-> c1 = c2.
Proof. destruct c1, c2; simpl; split; congruence. Qed.

Section Builder.

Variable review_templates : ReviewCategory -> option template.

Local Abbreviation category_parts := (category_parts review_templates).
Local Abbreviation example_parts := (example_parts review_templates).
Local Abbreviation prompt_parts := (prompt_parts review_templates).
Local Abbreviation build_review_prompt :=
  (build_review_prompt review_templates).
Local Abbreviation first_missing :=
  (first_without_template review_templates).

(** The category lines are built unless a category has no template; the
    error is that of the first such category. *)
Lemma category_parts_outcome (categories : list ReviewCategory) :
  match first_missing categories with
  | Some c => category_parts categories = inl (KeyError c)
  | None => exists parts, category_parts categories = inr parts
  end.
Proof.
  unfold first_without_template.
  induction categories as [|c cs IH]; simpl; [eexists; reflexivity|].
  destruct (review_templates c) as [t|]; [|reflexivity].
  destruct (find _ cs) as [c'|].
  - rewrite IH. reflexivity.
  - destruct IH as [parts ->]. eexists; reflexivity.
Qed.

Lemma first_missing_none (categories : list ReviewCategory) :
  first_missing categories = None <->
  forall c, In c categories -> review_templates c <> None.
Proof.
  unfold first_without_template. split.
  - intros Hnone c Hin Hc.
    apply (find_none _ _ Hnone) in Hin. rewrite Hc in Hin. discriminate.
  - intros Hall. induction categories as [|c cs IH]; [reflexivity|].
    simpl. destruct (review_templates c) eqn:Hc.
    + apply IH. intros c' Hin. apply Hall. right. exact Hin.
    + exfalso. apply (Hall c); [left; reflexivity | exact Hc].
Qed.

(** The example parts are built when every example has a template. *)
Lemma example_parts_ok (examples : list example) :
  (forall ex, In ex examples -> review_templates (ex_category ex) <> None) ->
  exists parts, example_parts examples = inr parts.
Proof.
  induction examples as [|ex exs IH]; intros Hall; simpl;
    [eexists; reflexivity|].
  destruct (review_templates (ex_category ex)) as [t|] eqn:Ht.
  - destruct IH as [parts ->]; [|eexists; reflexivity].
    intros ex' Hin. apply Hall. right. exact Hin.
  - exfalso. apply (Hall ex); [left; reflexivity | exact Ht].
Qed.

Lemma relevant_examples_in (few_shot_examples : list example)
    (categories : list ReviewCategory) (ex : example) :
  In ex (relevant_examples few_shot_examples categories) ->
  In (ex_category ex) categories.
Proof.
  unfold relevant_examples. intros Hin. apply filter_In in Hin as [_ Hex].
  apply existsb_exists in Hex as (c & Hc & Heq).
  apply ReviewCategory_eqb_eq in Heq. subst c. exact Hc.
Qed.

(** X12: [build_review_prompt] raises exactly when one of the requested
    categories has no template, and then raises the [KeyError] of the first
    such category in the list; the examples never make it fail.  In
    particular it never raises for an empty list of categories. *)
Theorem build_review_prompt_raises_iff_template_missing
    (few_shot_examples : list example) (code : str)
    (categories : list ReviewCategory) (output_format : OutputFormat)
    (include_examples : bool) :
  match first_missing categories with
  | Some c =>
    In c categories /\ review_templates c = None
    /\ build_review_prompt few_shot_examples code categories output_format
         include_examples = inl (KeyError c)
  | None =>
    (forall c, In c categories -> review_templates c <> None)
    /\ exists prompt,
         build_review_prompt few_shot_examples code categories output_format
           include_examples = inr prompt
  end.
Proof.
  pose proof (category_parts_outcome categories) as Hcat.
  pose proof (first_missing_none categories) as Hnone.
  unfold PromptBuilder.build_review_prompt, PromptBuilder.prompt_parts.
  destruct (first_missing categories) as [c|] eqn:Hfirst.
  - unfold first_without_template in Hfirst.
    pose proof (find_some _ _ Hfirst) as [Hin Hc].
    repeat split; [exact Hin | destruct (review_templates c); congruence |].
    destruct categories as [|c0 cs]; [destruct Hin|].
    rewrite Hcat. reflexivity.
  - pose proof (proj1 Hnone eq_refl) as Hall. split; [exact Hall|].
    destruct categories as [|c0 cs].
    + rewrite andb_false_r. eexists; reflexivity.
    + destruct Hcat as [parts ->].
      destruct include_examples; simpl andb; [|eexists; reflexivity].
      destruct (relevant_examples few_shot_examples (c0 :: cs))
        as [|ex exs] eqn:Hrel; [eexists; reflexivity|].
      destruct (example_parts_ok (firstn 2 (ex :: exs))) as [eparts ->];
        [|eexists; reflexivity].
      intros ex' Hin. apply Hall.
      apply relevant_examples_in with (few_shot_examples := few_shot_examples).
      rewrite Hrel. eapply in_firstn, Hin.
Qed.

Lemma join_lines_last_two (parts : list str) (a b : str) :
  exists head,
    join_lines (parts ++ [a; b]) = head ++ a ++ [10]%N ++ b
    /\ (parts = [] -> head = []).
Proof.
  induction parts as [|x parts IH].
  - exists []. split; reflexivity.
  - destruct IH as (head & Hj & _).
    exists (x ++ [10]%N ++ head). split; [|discriminate].
    change ((x :: parts) ++ [a; b]) with (x :: (parts ++ [a; b])).
    destruct (parts ++ [a; b]) as [|y ys] eqn:Hp.
    + destruct parts; discriminate.
    + change (join_lines (x :: y :: ys))
        with (x ++ [10]%N ++ join_lines (y :: ys)).
      rewrite Hj, <- !app_assoc. reflexivity.
Qed.

(** X13: whenever [build_review_prompt] returns, the prompt ends with the
    code to analyze, verbatim inside its [csharp] fence, followed by the
    instruction of the output format; with no category the prompt is exactly
    that, whatever the examples and [include_examples] are. *)
Theorem prompt_ends_with_code_and_instruction
    (few_shot_examples : list example) (code : str)
    (categories : list ReviewCategory) (output_format : OutputFormat)
    (include_examples : bool) :
  match build_review_prompt few_shot_examples code categories output_format
          include_examples with
  | inr prompt =>
    exists head,
      prompt = head ++ code_part code ++ [10]%N
                 ++ instruction_part output_format
      /\ (categories = [] -> head = [])
  | inl _ => categories <> []
  end.
Proof.
  unfold PromptBuilder.build_review_prompt, PromptBuilder.prompt_parts.
  destruct categories as [|c cs].
  - rewrite andb_false_r. simpl. exists []. split; reflexivity.
  - destruct (category_parts (c :: cs)) as [e|parts1]; [discriminate|].
    destruct (include_examples
              && negb (Nat.eqb (List.length (c :: cs)) 0)).
    + destruct (relevant_examples few_shot_examples (c :: cs)) as [|ex exs].
      * destruct (join_lines_last_two
                    ((lit "다음 항목을 중점적으로 검토하세요:" :: parts1) ++ [])
                    (code_part code) (instruction_part output_format))
          as (head & Hj & _).
        exists head. rewrite <- app_assoc in Hj. split; [exact Hj|discriminate].
      * destruct (example_parts (firstn 2 (ex :: exs))) as [e|parts2];
          [discriminate|].
        destruct (join_lines_last_two
                    ((lit "다음 항목을 중점적으로 검토하세요:" :: parts1)
                       ++ ([10; 10]%N ++ lit "예제:") :: parts2)
                    (code_part code) (instruction_part output_format))
          as (head & Hj & _).
        exists head. rewrite <- app_assoc in Hj. split; [exact Hj|discriminate].
    + destruct (join_lines_last_two
                  ((lit "다음 항목을 중점적으로 검토하세요:" :: parts1) ++ [])
                  (code_part code) (instruction_part output_format))
        as (head & Hj & _).
      exists head. rewrite <- app_assoc in Hj. split; [exact Hj|discriminate].
Qed.

Lemma build_review_prompt_missing (few_shot_examples : list example)
    (code : str) (categories : list ReviewCategory)
    (output_format : OutputFormat) (include_examples : bool)
    (c : ReviewCategory) :
  first_missing categories = Some c ->
  build_review_prompt few_shot_examples code categories output_format
    include_examples = inl (KeyError c).
Proof.
  intros Hfirst. pose proof (category_parts_outcome categories) as Hcat.
  rewrite Hfirst in Hcat.
  unfold PromptBuilder.build_review_prompt, PromptBuilder.prompt_parts.
  destruct categories as [|c0 cs]; [discriminate|].
  rewrite Hcat. reflexivity.
Qed.

Lemma filter_all (A : Type) (f : A -> bool) (l : list A) :
  (forall x, In x l -> f x = true) -> filter f l = l.
Proof.
  induction l as [|x l IH]; intros Hall; [reflexivity|].
  simpl. rewrite (Hall x (or_introl eq_refl)), IH; [reflexivity|].
  intros y Hy. apply Hall. right. exact Hy.
Qed.

Lemma relevant_examples_firstn (few_shot_examples : list example)
    (categories : list ReviewCategory) (n : nat) :
  relevant_examples (firstn n (relevant_examples few_shot_examples categories))
    categories
  = firstn n (relevant_examples few_shot_examples categories).
Proof.
  unfold relevant_examples. apply filter_all.
  intros ex Hin. apply in_firstn in Hin.
  apply filter_In in Hin as [_ Hex]. exact Hex.
Qed.

(** X14: of the few-shot examples only the first two whose category is
    requested have any influence on the prompt; and with
    [include_examples=False] the examples have none at all.  The prompt is
    the one that would be built from those two examples alone, or from no
    example. *)
Theorem only_first_two_relevant_examples_matter
    (few_shot_examples : list example) (code : str)
    (categories : list ReviewCategory) (output_format : OutputFormat)
    (include_examples : bool) :
  build_review_prompt few_shot_examples code categories output_format
    include_examples
  = build_review_prompt
      (firstn 2 (relevant_examples few_shot_examples categories))
      code categories output_format include_examples
  /\ build_review_prompt few_shot_examples code categories output_format
       false
     = build_review_prompt [] code categories output_format false.
Proof.
  split; [|reflexivity].
  unfold PromptBuilder.build_review_prompt, PromptBuilder.prompt_parts.
  rewrite relevant_examples_firstn.
  destruct (relevant_examples few_shot_examples categories)
    as [|ex [|ex2 exs]]; reflexivity.
Qed.

End Builder.

(** X15: the built-in templates cover the eight categories: a builder that
    uses [REVIEW_TEMPLATES] returns a prompt for every code, every list of
    categories, every output format and every list of examples. *)
Theorem builtin_templates_never_raise (few_shot_examples : list example)
    (code : str) (categories : list ReviewCategory)
    (output_format : OutputFormat) (include_examples : bool) :
  exists prompt,
    build_review_prompt REVIEW_TEMPLATES few_shot_examples code categories
      output_format include_examples = inr prompt.
Proof.
  pose proof (category_parts_outcome REVIEW_TEMPLATES categories) as Hcat.
  assert (Hall : forall c, REVIEW_TEMPLATES c <> None)
    by (intros c; destruct c; discriminate).
  assert (Hnone : first_without_template REVIEW_TEMPLATES categories = None)
    by (apply first_missing_none; intros c _; apply Hall).
  rewrite Hnone in Hcat.
  unfold build_review_prompt, prompt_parts.
  destruct categories as [|c0 cs].
  - rewrite andb_false_r. eexists; reflexivity.
  - destruct Hcat as [parts ->].
    destruct include_examples; simpl andb; [|eexists; reflexivity].
    destruct (relevant_examples few_shot_examples (c0 :: cs))
      as [|ex exs]; [eexists; reflexivity|].
    destruct (example_parts_ok REVIEW_TEMPLATES (firstn 2 (ex :: exs)))
      as [eparts ->]; [intros ex' _; apply Hall | eexists; reflexivity].
Qed.

Section FromMarkdown.

Variable categories_data : str -> option category_data.

Local Abbreviation templates :=
  (_build_templates_from_markdown categories_data).
Local Abbreviation examples :=
  (_build_examples_from_markdown categories_data).

Lemma markdown_examples_categories (l : list ReviewCategory) :
  forall c,
    In c (map ex_category
            (flat_map
               (fun c =>
                  match categories_data (ReviewCategory_value c) with
                  | Some data =>
                    match d_examples data with
                    | first_example :: _ =>
                      [Example c (fst first_example) (snd first_example)]
                    | [] => []
                    end
                  | None => []
                  end) l)) ->
    In c l.
Proof.
  induction l as [|c0 l IH]; intros c Hin; [exact Hin|].
  simpl in Hin. rewrite map_app in Hin. apply in_app_or in Hin as [Hin|Hin].
  - left. destruct (categories_data (ReviewCategory_value c0)) as [data|];
      [|destruct Hin].
    destruct (d_examples data); [destruct Hin|].
    destruct Hin as [<-|[]]. reflexivity.
  - right. apply IH. exact Hin.
Qed.

Lemma markdown_examples_nodup (l : list ReviewCategory) :
  NoDup l ->
  NoDup (map ex_category
           (flat_map
              (fun c =>
                 match categories_data (ReviewCategory_value c) with
                 | Some data =>
                   match d_examples data with
                   | first_example :: _ =>
                     [Example c (fst first_example) (snd first_example)]
                   | [] => []
                   end
                 | None => []
                 end) l)).
Proof.
  induction 1 as [|c0 l Hnotin Hnd IH]; [constructor|].
  simpl. rewrite map_app.
  destruct (categories_data (ReviewCategory_value c0)) as [data|];
    [|exact IH].
  destruct (d_examples data); [exact IH|].
  simpl. constructor; [|exact IH].
  intros Hin. apply Hnotin. apply markdown_examples_categories. exact Hin.
Qed.

(** X16: a builder created from the Markdown files.  It returns a prompt
    exactly when the loaded data has an entry for the value of every
    requested category; and its list of examples holds at most one example
    per category, so eight at most. *)
Theorem markdown_builder_follows_loaded_data (code : str)
    (categories : list ReviewCategory) (output_format : OutputFormat)
    (include_examples : bool) :
  ((forall c, In c categories ->
              categories_data (ReviewCategory_value c) <> None)
   <-> exists prompt,
        build_review_prompt templates examples code categories output_format
          include_examples = inr prompt)
  /\ NoDup (map ex_category examples)
  /\ List.length examples <= 8.
Proof.
  assert (Hnd : NoDup (map ex_category examples)).
  { apply markdown_examples_nodup.
    repeat constructor; simpl; intuition discriminate. }
  split; [|split; [exact Hnd|]].
  - pose proof (category_parts_outcome templates categories) as Hcat.
    pose proof (first_missing_none templates categories) as Hnone.
    assert (Hsame : forall c,
               templates c <> None
               <-> categories_data (ReviewCategory_value c) <> None).
    { intros c. unfold _build_templates_from_markdown.
      destruct (categories_data (ReviewCategory_value c)); split;
        congruence. }
    split.
    + intros Hall.
      assert (Hfirst : first_without_template templates categories = None).
      { apply Hnone. intros c Hin. apply Hsame, Hall, Hin. }
      rewrite Hfirst in Hcat.
      unfold build_review_prompt, prompt_parts.
      destruct categories as [|c0 cs];
        [rewrite andb_false_r; eexists; reflexivity|].
      destruct Hcat as [parts ->].
      destruct include_examples; simpl andb; [|eexists; reflexivity].
      destruct (relevant_examples examples (c0 :: cs))
        as [|ex exs] eqn:Hrel; [eexists; reflexivity|].
      destruct (example_parts_ok templates (firstn 2 (ex :: exs)))
        as [eparts ->]; [|eexists; reflexivity].
      intros ex' Hin. apply Hsame, Hall.
      apply relevant_examples_in with (few_shot_examples := examples).
      rewrite Hrel. eapply in_firstn, Hin.
    + intros [prompt Hp] c Hin. apply Hsame.
      destruct (first_without_template templates categories) as [c'|] eqn:Hf.
      * rewrite (build_review_prompt_missing templates examples code
                   categories output_format include_examples Hf) in Hp.
        discriminate.
      * apply (proj1 Hnone eq_refl). exact Hin.
  - assert (Hincl : incl (map ex_category examples) all_categories)
      by (intros c Hin; apply markdown_examples_categories in Hin; exact Hin).
    pose proof (NoDup_incl_length Hnd Hincl) as Hlen.
    rewrite length_map in Hlen. exact Hlen.
Qed.

End FromMarkdown.

End PromptBuilderProperties.

(* ================================================================== *)
(** ** The analyzer with its prompt builder: a missing template *)

Section WithPromptBuilderProperties.

Import BatchAnalyzer PromptBuilder WithPromptBuilder.

Variable Env : Type.
Variable review_templates : ReviewCategory -> option template.
Variable few_shot_examples : list example.
Variable Path_name : str -> str.
Variable open_read : str -> Env -> (exn + str) * Env.
Variable analyze_code : str -> bool -> Env -> call * Env.
Variable generate_report :
  str -> str -> list str -> str -> Env -> (exn + str) * Env.

Local Abbreviation builds :=
  (prompt_builder_build (Env := Env) review_templates few_shot_examples).

Lemma key_error_is_no_skip (c : ReviewCategory) :
  contains SKIP_MARKER (exn_str (KeyError c)) = false.
Proof. destruct c; vm_compute; reflexivity. Qed.

(** With a template missing, the [try] block is left at once, with the
    [KeyError] and an unchanged environment. *)
Lemma try_block_missing_template (c : ReviewCategory) (code : str) (env : Env) :
  first_without_template review_templates categories = Some c ->
  BatchAnalyzer.try_block PromptBuilder.SYSTEM_PROMPT builds analyze_code
    generate_report code env
  = (inl (KeyError c), env, [BuildReviewPrompt code]).
Proof.
  intros Hfirst. unfold BatchAnalyzer.try_block, prompt_builder_build.
  rewrite (build_review_prompt_missing review_templates few_shot_examples
             code categories IMPROVED_CODE true Hfirst).
  reflexivity.
Qed.

(** X17: an analyzer whose prompt builder has no template for one of the
    seven categories it always asks for (a category file that was not
    loaded, say) cannot analyze any file.  Every file that loads is retried
    three times and comes back as a failure with [retry_count = 3] whose
    message carries the [KeyError] of the first missing category; the prompt
    is built three times, the client is never used, the procedure sleeps two
    seconds, and the tally counts the file as failed, not skipped. *)
Theorem missing_template_fails_without_the_client (c : ReviewCategory)
    (path text : str) (env env0 : Env) :
  first_without_template review_templates categories = Some c ->
  open_read path env = (inr text, env0) ->
  truthy (strip text) = true ->
  match WithPromptBuilder._analyze_single_file review_templates
          few_shot_examples Path_name open_read analyze_code generate_report
          path env with
  | (r, env', tr) =>
    success r = false /\ retry_count r = 3
    /\ error_message r = msg_llm_failed (Some (KeyError c))
    /\ is_skip r = false
    /\ env' = env0
    /\ client_calls tr = []
    /\ prompt_builds tr = [strip text; strip text; strip text]
    /\ time_sleeps tr = [1; 1]
  end.
Proof.
  intros Hfirst Ho Ht. unfold WithPromptBuilder._analyze_single_file.
  pose proof (try_block_missing_template (strip text) env0 Hfirst) as Htry.
  rewrite (@single_file_three_failures Env Path_name open_read
             PromptBuilder.SYSTEM_PROMPT builds analyze_code generate_report
             path text env env0 env0 env0 env0 _ _ _ _ _ _
             Ho Ht Htry Htry Htry).
  repeat split.
  rewrite is_skip_contains. cbn [error_message].
  rewrite msg_llm_failed_is_skip. apply key_error_is_no_skip.
Qed.

End WithPromptBuilderProperties.

(* ================================================================== *)
(** ** Properties of the construction of the client *)

Section APIClientSetupProperties.

Import APIClientSetup.

Lemma eqb_eq (a b : str) : eqb a b = true <-> a = b.
Proof.
  revert b. induction a as [|x a IH]; intros [|y b]; simpl;
    try (split; [discriminate | discriminate]); [split; reflexivity|].
  rewrite andb_true_iff, N.eqb_eq, IH. split.
  - intros [-> ->]. reflexivity.
  - intros H. injection H as -> ->. split; reflexivity.
Qed.

Lemma dict_get_in (V : Type) (key : str) (d : list (str * V)) (v : V) :
  dict_get key d = Some v -> In (key, v) d.
Proof.
  induction d as [|[k v'] d IH]; simpl; [discriminate|].
  destruct (eqb k key) eqn:Hk.
  - intros H. injection H as ->. apply eqb_eq in Hk. subst k. left. reflexivity.
  - intros H. right. apply IH. exact H.
Qed.

(** A property checked on every entry of [MODELS] holds of every
    configuration that [lookup] returns, and [lookup] only answers for the
    two providers of the table. *)
Lemma lookup_some (P : model_config -> bool) (provider model_name : str)
    (cfg : model_config) :
  all_models P = true ->
  lookup provider model_name = Some cfg ->
  P cfg = true
  /\ (provider = lit "openai" \/ provider = lit "anthropic").
Proof.
  unfold all_models, lookup. intros Hall Hl.
  destruct (dict_get provider MODELS) as [models|] eqn:Hp; [|discriminate].
  apply dict_get_in in Hp. apply dict_get_in in Hl.
  rewrite forallb_forall in Hall. pose proof (Hall _ Hp) as Hm.
  rewrite forallb_forall in Hm. split; [exact (Hm _ Hl)|].
  unfold MODELS in Hp. destruct Hp as [Hp|[Hp|[]]]; injection Hp as <- _;
    [left | right]; reflexivity.
Qed.

Section Init.

Variable Temperature : Type.
Variable Handle : Type.
Variable getenv : str -> option str.
Variable importable : str -> bool.
Variable sdk_new : str -> str -> Z -> exn + Handle.

Local Abbreviation __init__ := (__init__ getenv importable sdk_new).
Local Abbreviation _init_clients := (_init_clients getenv importable sdk_new).

Lemma init_with_handle (package key_name : str) (e1 e2 : exn) (t : Z)
    (h : option Handle) :
  init_with getenv importable sdk_new package key_name e1 e2 t = Returned h ->
  h <> None.
Proof.
  unfold init_with. destruct (importable package); [|discriminate].
  destruct (getenv key_name) as [k|]; [|discriminate].
  destruct (truthy k); [|discriminate].
  destruct (sdk_new package k t); [discriminate|].
  intros H. injection H as <-. discriminate.
Qed.

(** X18: what holds of every client that [__init__] returns.  Its provider
    is ['openai'] or ['anthropic'] and it holds an SDK client; its model is
    the one named, or the provider's default; its context window is that of
    [MODELS] for this model; its [max_tokens] is the value given, or the
    model's own when none or 0 was given, and then lies between 1 and the
    context window; and [get_model_info] reports these values together with
    the temperature given. *)
Theorem constructed_client_is_well_formed (p : str) (name : option str)
    (t : Z) (temp : Temperature) (mt : option Z) (self : client Temperature Handle) :
  __init__ p name t temp mt = Returned self ->
  (provider self = lit "openai" \/ provider self = lit "anthropic")
  /\ handle self <> None
  /\ model_name self
     = match name with Some n => n | None => default_model p end
  /\ (exists cfg,
        lookup (provider self) (model_name self) = Some cfg
        /\ context_window self = cfg_context_window cfg
        /\ max_tokens self
           = match mt with
             | Some m => if (m =? 0)%Z then cfg_max_tokens cfg else m
             | None => cfg_max_tokens cfg
             end)
  /\ ((mt = None \/ mt = Some 0%Z) ->
      (0 < max_tokens self <= context_window self)%Z)
  /\ get_model_info self
     = (p, model_name self, context_window self, max_tokens self, temp).
Proof.
  unfold APIClientSetup.__init__. intros H.
  destruct (lookup p (match name with Some n => n | None => default_model p end))
    as [cfg|] eqn:Hl; [|discriminate].
  assert (Hbounds : all_models
                      (fun c => (0 <? cfg_max_tokens c)%Z
                                && (cfg_max_tokens c <=? cfg_context_window c)%Z)
                    = true) by (vm_compute; reflexivity).
  destruct (lookup_some _ _ _ Hbounds Hl) as [Hcfg Hprov].
  apply andb_true_iff in Hcfg as [Hpos Hle].
  apply Z.ltb_lt in Hpos. apply Z.leb_le in Hle.
  destruct (_init_clients p t) as [h|e] eqn:Hinit; [|discriminate].
  injection H as <-. cbn [provider handle model_name context_window max_tokens
                            get_model_info temperature].
  repeat split; auto.
  - unfold APIClientSetup._init_clients in Hinit.
    destruct (eqb p (lit "openai")) eqn:E1;
      [eapply init_with_handle; exact Hinit|].
    destruct (eqb p (lit "anthropic")) eqn:E2;
      [eapply init_with_handle; exact Hinit|].
    destruct Hprov as [->| ->]; [vm_compute in E1 | vm_compute in E2];
      discriminate.
  - exists cfg. repeat split. destruct name; exact Hl.
  - destruct H as [->| ->]; simpl; lia.
  - destruct H as [->| ->]; simpl; lia.
Qed.

Lemma eqb_false_sym (a b : str) : eqb a b = false -> eqb b a = false.
Proof.
  intros H. destruct (eqb b a) eqn:E; [|reflexivity].
  apply eqb_eq in E. subst b.
  assert (Hrefl : eqb a a = true) by (apply eqb_eq; reflexivity).
  congruence.
Qed.

(** X19: the order in which [__init__] finds fault.  A pair (provider,
    model) that is not in [MODELS] raises [ModelNotFoundError] whatever the
    packages installed and the variables set: nothing is imported and no key
    is read.  For a known pair, a package that cannot be imported raises
    the base [APIClientError], whether or not the key is set; and with the
    package importable, an unset or empty key raises
    [APIKeyMissingError]. *)
Theorem construction_errors_in_order (p : str) (name : option str) (t : Z)
    (temp : Temperature) (mt : option Z) :
  match lookup p (match name with Some n => n | None => default_model p end)
  with
  | None =>
    __init__ p name t temp mt
    = Raised (model_not_found
                (match name with Some n => n | None => default_model p end) p)
  | Some _ =>
    if importable p then
      key_unset getenv (api_key_name p) = true ->
      exists e,
        __init__ p name t temp mt = Raised e
        /\ exn_cls e = APIKeyMissingError
    else
      exists e,
        __init__ p name t temp mt = Raised e /\ exn_cls e = APIClientError
  end.
Proof.
  unfold APIClientSetup.__init__.
  destruct (lookup p (match name with Some n => n | None => default_model p end))
    as [cfg|] eqn:Hl; [|reflexivity].
  destruct (lookup_some (fun _ => true) _ _ eq_refl Hl) as [_ [-> | ->]].
  - change (APIClientSetup._init_clients getenv importable sdk_new
              (lit "openai") t)
      with (init_with getenv importable sdk_new (lit "openai")
              (lit "OPENAI_API_KEY") openai_not_installed openai_key_missing t).
    unfold init_with, key_unset.
    change (api_key_name (lit "openai")) with (lit "OPENAI_API_KEY").
    destruct (importable (lit "openai")).
    + intros Hkey. destruct (getenv (lit "OPENAI_API_KEY")) as [k|].
      * apply negb_true_iff in Hkey. rewrite Hkey.
        eexists; split; reflexivity.
      * eexists; split; reflexivity.
    + eexists; split; reflexivity.
  - change (APIClientSetup._init_clients getenv importable sdk_new
              (lit "anthropic") t)
      with (init_with getenv importable sdk_new (lit "anthropic")
              (lit "ANTHROPIC_API_KEY") anthropic_not_installed
              anthropic_key_missing t).
    unfold init_with, key_unset.
    change (api_key_name (lit "anthropic")) with (lit "ANTHROPIC_API_KEY").
    destruct (importable (lit "anthropic")).
    + intros Hkey. destruct (getenv (lit "ANTHROPIC_API_KEY")) as [k|].
      * apply negb_true_iff in Hkey. rewrite Hkey.
        eexists; split; reflexivity.
      * eexists; split; reflexivity.
    + eexists; split; reflexivity.
Qed.

(** X20: the providers.  For ['openai'] and for ['anthropic'] the default
    model is an entry of [MODELS], so a client built without a model name
    never raises [ModelNotFoundError]; for any other provider [__init__]
    raises [ModelNotFoundError] whatever model is named. *)
Theorem providers_and_default_models (p : str) :
  if eqb p (lit "openai") || eqb p (lit "anthropic")
  then lookup p (default_model p) <> None
  else
    forall (name : option str) (t : Z) (temp : Temperature) (mt : option Z),
      __init__ p name t temp mt
      = Raised (model_not_found
                  (match name with Some n => n | None => default_model p end)
                  p).
Proof.
  destruct (eqb p (lit "openai")) eqn:E1.
  - apply eqb_eq in E1. subst p. vm_compute. discriminate.
  - destruct (eqb p (lit "anthropic")) eqn:E2.
    + apply eqb_eq in E2. subst p. vm_compute. discriminate.
    + intros name t temp mt. unfold APIClientSetup.__init__, lookup.
      apply eqb_false_sym in E1. apply eqb_false_sym in E2.
      let k := eval vm_compute in (lit "openai") in
      change (lit "openai") with k in E1.
      let k := eval vm_compute in (lit "anthropic") in
      change (lit "anthropic") with k in E2.
      unfold MODELS. cbn [dict_get]. rewrite E1, E2. reflexivity.
Qed.

End Init.

End APIClientSetupProperties.

(* ================================================================== *)
(** ** Properties of [ReportGenerator] *)

Section ReportGeneratorProperties.

Import PromptBuilder ReportGenerator.

Lemma startswith_app_l (p a b : str) :
  startswith p a = true -> startswith p (a ++ b) = true.
Proof.
  revert a. induction p as [|x p IH]; intros a H; [reflexivity|].
  destruct a as [|y a]; [discriminate|].
  simpl in *. apply andb_true_iff in H as [Hx Hp].
  rewrite Hx, (IH _ Hp). reflexivity.
Qed.

(** An occurrence in a prefix is an occurrence in the whole. *)
Lemma contains_app_l (p a b : str) :
  contains p a = true -> contains p (a ++ b) = true.
Proof.
  induction a as [|c a IH]; intros H.
  - destruct p as [|x p]; [destruct b; reflexivity | discriminate].
  - simpl in H. apply orb_true_iff in H as [H | H].
    + change (contains p ((c :: a) ++ b))
        with (startswith p ((c :: a) ++ b) || contains p (a ++ b)).
      rewrite (startswith_app_l _ _ b H). reflexivity.
    + change (contains p ((c :: a) ++ b))
        with (startswith p ((c :: a) ++ b) || contains p (a ++ b)).
      rewrite (IH H). apply orb_true_r.
Qed.

Lemma startswith_self_app (p b : str) : startswith p (p ++ b) = true.
Proof.
  induction p as [|x p IH]; [reflexivity|].
  simpl. rewrite N.eqb_refl, IH. reflexivity.
Qed.

Lemma contains_self_app (p b : str) : contains p (p ++ b) = true.
Proof.
  destruct p as [|x p]; [destruct b; reflexivity|].
  change (contains (x :: p) ((x :: p) ++ b))
    with (startswith (x :: p) ((x :: p) ++ b) || contains (x :: p) (p ++ b)).
  rewrite startswith_self_app. reflexivity.
Qed.

Lemma contains_infix (p a b : str) : contains p (a ++ p ++ b) = true.
Proof. apply contains_app_r, contains_self_app. Qed.

Lemma contains_within (p x a b : str) :
  contains p x = true -> contains p (a ++ x ++ b) = true.
Proof. intros H. apply contains_app_r, contains_app_l, H. Qed.

Lemma split_lines_cons (s : str) :
  exists line lines, split_lines s = line :: lines.
Proof.
  destruct s as [|c s]; simpl; [eauto|].
  destruct (c =? 10)%N; [eauto|].
  destruct (split_lines s); eauto.
Qed.

(** Joining the lines of a text with line feeds gives the text back. *)
Lemma join_split_lines (s : str) : join_lines (split_lines s) = s.
Proof.
  induction s as [|c s IH]; [reflexivity|].
  simpl split_lines.
  destruct (split_lines_cons s) as (l & ls & E). rewrite E in *.
  destruct (c =? 10)%N eqn:Ec.
  - apply N.eqb_eq in Ec. subst c.
    change (join_lines ([] :: l :: ls)) with ([10]%N ++ join_lines (l :: ls)).
    rewrite IH. reflexivity.
  - destruct ls as [|l2 ls].
    + simpl in *. rewrite IH. reflexivity.
    + change (join_lines ((c :: l) :: l2 :: ls))
        with (c :: (l ++ [10]%N ++ join_lines (l2 :: ls))).
      change (join_lines (l :: l2 :: ls))
        with (l ++ [10]%N ++ join_lines (l2 :: ls)) in IH.
      rewrite IH. reflexivity.
Qed.

(** Every line of a text is a contiguous part of it, the first one a
    prefix. *)
Lemma split_lines_parts (s : str) :
  forall line lines, split_lines s = line :: lines ->
    (exists b, s = line ++ b)
    /\ (forall x, In x lines -> exists a b, s = a ++ x ++ b).
Proof.
  induction s as [|c s IH]; intros line lines E.
  - simpl in E. injection E as <- <-. split; [exists []; reflexivity|].
    intros x [].
  - simpl in E.
    destruct (split_lines_cons s) as (l & ls & Es). rewrite Es in E.
    destruct (IH _ _ Es) as [[b Hb] Hls].
    destruct (c =? 10)%N eqn:Ec.
    + injection E as <- <-. split; [exists (c :: s); reflexivity|].
      intros x [<- | Hx].
      * exists [c], b. simpl. rewrite Hb at 1. reflexivity.
      * destruct (Hls _ Hx) as (a' & b' & H'). exists (c :: a'), b'.
        simpl. rewrite H' at 1. reflexivity.
    + injection E as <- <-. split.
      * exists b. simpl. rewrite Hb at 1. reflexivity.
      * intros x Hx. destruct (Hls _ Hx) as (a' & b' & H').
        exists (c :: a'), b'. simpl. rewrite H' at 1. reflexivity.
Qed.

Lemma split_lines_within (s x : str) :
  In x (split_lines s) -> exists a b, s = a ++ x ++ b.
Proof.
  destruct (split_lines_cons s) as (l & ls & E). rewrite E.
  destruct (split_lines_parts _ E) as [[b Hb] Hls].
  intros [<- | Hx]; [exists [], b; exact Hb | exact (Hls _ Hx)].
Qed.

(** While no line holds an explanation keyword, the loop keeps every
    line. *)
Lemma code_lines_keeps_all (lines : list str) :
  (forall line, In line lines ->
     existsb (fun keyword => contains keyword line) explanation_keywords
     = false) ->
  code_lines lines true = lines.
Proof.
  induction lines as [|line lines IH]; intros H; [reflexivity|].
  change (code_lines (line :: lines) true)
    with (if existsb (fun keyword => contains keyword line)
               explanation_keywords
          then code_lines lines false
          else line :: code_lines lines true).
  rewrite (H line (or_introl eq_refl)).
  rewrite IH; [reflexivity|]. intros l Hl. apply H. right. exact Hl.
Qed.

Lemma bullets_are_not_generic :
  bullet_null <> bullet_generic /\ bullet_using <> bullet_generic
  /\ bullet_try <> bullet_generic /\ bullet_throw <> bullet_generic.
Proof. repeat split; vm_compute; discriminate. Qed.

(** Up to four optional items, and a default item when none is present. *)
Lemma optional_items_bounds (A : Type) (b1 b2 b3 b4 : bool)
    (x1 x2 x3 x4 g : A) :
  x1 <> g -> x2 <> g -> x3 <> g -> x4 <> g ->
  forall l : list A,
    l = (let found :=
           (if b1 then [x1] else []) ++ (if b2 then [x2] else [])
             ++ (if b3 then [x3] else []) ++ (if b4 then [x4] else []) in
         match found with
         | [] => [g]
         | _ :: _ => found
         end) ->
    1 <= List.length l <= 4 /\ (In g l -> l = [g]).
Proof.
  intros H1 H2 H3 H4 l ->.
  destruct b1, b2, b3, b4; cbn [app List.length In];
    (split; [lia|]); intros H; try reflexivity;
    repeat (destruct H as [H | H]; [congruence|]); destruct H.
Qed.

Section Generator.

Variable lower : str -> str.
Variable findall_code_blocks : str -> list str.

Local Abbreviation improvements := (improvements lower).
Local Abbreviation _extract_code_from_response :=
  (_extract_code_from_response findall_code_blocks).
Local Abbreviation generate_report :=
  (generate_report lower findall_code_blocks).

(** X22: a response without a fenced code block and without any of the
    five explanation keywords comes back whole, only stripped: no line of
    it is dropped, whatever it starts with. *)
Theorem plain_response_is_only_stripped (llm_response : str) :
  findall_code_blocks llm_response = [] ->
  (forall keyword, In keyword explanation_keywords ->
     contains keyword llm_response = false) ->
  _extract_code_from_response llm_response = strip llm_response.
Proof.
  intros Hf Hk. unfold ReportGenerator._extract_code_from_response.
  rewrite Hf. rewrite code_lines_keeps_all.
  - rewrite join_split_lines. destruct (truthy (strip llm_response));
      reflexivity.
  - intros line Hl.
    destruct (existsb (fun keyword => contains keyword line)
                explanation_keywords) eqn:E; [|reflexivity].
    apply existsb_exists in E as (k & Hin & Hc).
    destruct (split_lines_within _ _ Hl) as (a & b & Hs).
    pose proof (contains_within k line a b Hc) as H.
    rewrite <- Hs, (Hk k Hin) in H. discriminate.
Qed.

(** X23: the report always shows, inside [csharp] fences, the original
    code as given under the heading Before and the code extracted from the
    response (not the raw response) under the heading After. *)
Theorem report_shows_original_and_extracted_code
    (original_code improved_code : str) (categories : list str)
    (model_name time_text : str) :
  let fenced code :=
    lit "```csharp" ++ [10]%N ++ code ++ [10]%N ++ lit "```" in
  let report :=
    generate_report original_code improved_code categories model_name
      time_text in
  contains (lit "### Before (원본 코드)" ++ [10; 10]%N ++ fenced original_code)
    report = true
  /\ contains
       (lit "### After (개선된 코드)" ++ [10; 10]%N
          ++ fenced (_extract_code_from_response improved_code))
       report = true.
Proof.
  cbv zeta.
  unfold ReportGenerator.generate_report, _generate_code_comparison.
  cbv zeta.
  set (clean := _extract_code_from_response improved_code).
  set (h := _generate_header time_text model_name).
  set (s := _generate_summary original_code clean categories).
  set (c := _generate_categories_section categories).
  set (i := ReportGenerator._generate_improvements_section lower
              original_code clean).
  set (f := _generate_footer model_name).
  set (before := lit "### Before (원본 코드)").
  set (after := lit "### After (개선된 코드)").
  set (open := lit "```csharp"). set (close := lit "```").
  set (title := lit "## 📝 코드 비교").
  cbv [join_sections].
  split.
  - match goal with
    | |- contains ?p _ = true =>
      replace (h ++ [10; 10]%N ++ s ++ [10; 10]%N ++ c ++ [10; 10]%N
                 ++ (title ++ [10; 10]%N ++ before ++ [10; 10]%N ++ open
                       ++ [10]%N ++ original_code ++ [10]%N ++ close
                       ++ [10; 10]%N ++ after ++ [10; 10]%N ++ open
                       ++ [10]%N ++ clean ++ [10]%N ++ close)
                 ++ [10; 10]%N ++ i ++ [10; 10]%N ++ f)
        with ((h ++ [10; 10]%N ++ s ++ [10; 10]%N ++ c ++ [10; 10]%N
                 ++ title ++ [10; 10]%N)
                ++ p
                ++ ([10; 10]%N ++ after ++ [10; 10]%N ++ open
                      ++ [10]%N ++ clean ++ [10]%N ++ close
                      ++ [10; 10]%N ++ i ++ [10; 10]%N ++ f))
        by (repeat rewrite <- app_assoc; reflexivity)
    end.
    apply contains_infix.
  - match goal with
    | |- contains ?p _ = true =>
      replace (h ++ [10; 10]%N ++ s ++ [10; 10]%N ++ c ++ [10; 10]%N
                 ++ (title ++ [10; 10]%N ++ before ++ [10; 10]%N ++ open
                       ++ [10]%N ++ original_code ++ [10]%N ++ close
                       ++ [10; 10]%N ++ after ++ [10; 10]%N ++ open
                       ++ [10]%N ++ clean ++ [10]%N ++ close)
                 ++ [10; 10]%N ++ i ++ [10; 10]%N ++ f)
        with ((h ++ [10; 10]%N ++ s ++ [10; 10]%N ++ c ++ [10; 10]%N
                 ++ title ++ [10; 10]%N ++ before ++ [10; 10]%N ++ open
                 ++ [10]%N ++ original_code ++ [10]%N ++ close
                 ++ [10; 10]%N)
                ++ p
                ++ ([10; 10]%N ++ i ++ [10; 10]%N ++ f))
        by (repeat rewrite <- app_assoc; reflexivity)
    end.
    apply contains_infix.
Qed.

(** X24: the list of detected improvements has between one and four
    bullets, and the generic bullet appears only alone, when none of the
    four heuristics fired. *)
Theorem improvements_never_empty (original improved : str) :
  1 <= List.length (improvements original improved) <= 4
  /\ (In bullet_generic (improvements original improved) ->
      improvements original improved = [bullet_generic]).
Proof.
  destruct bullets_are_not_generic as (Hn & Hu & Ht & Hw).
  apply (@optional_items_bounds str
           (contains (lit "null") (lower improved)
              && negb (contains (lit "null") (lower original)))
           (contains (lit "using") improved
              && negb (contains (lit "using") original))
           (contains (lit "try") improved || contains (lit "catch") improved)
           (contains (lit "throw") improved
              && negb (contains (lit "throw") original))
           bullet_null bullet_using bullet_try bullet_throw bullet_generic
           Hn Hu Ht Hw).
  reflexivity.
Qed.

End Generator.

End ReportGeneratorProperties.

(* ================================================================== *)
(** ** Properties of the batch caller of [MainWindow] *)

Section MainWindowProperties.

Import BatchAnalyzer MainWindow.

Section SaveLoop.

Variable Store : Type.
Variable save_report : FileAnalysisResult -> Store -> outcome unit * Store.

Local Abbreviation save_loop := (save_loop save_report).

(** The saver is called for the successful results, in order; the counter
    grows by the number of calls that returned, and a line is printed for
    each of the others. *)
Lemma save_loop_accounting (results : list FileAnalysisResult) :
  forall (saved_count : nat) (store : Store),
    match save_loop results saved_count store with
    | (n, _, tr) =>
      saves tr = filter success results
      /\ n + List.length (printed tr)
         = saved_count + List.length (filter success results)
    end.
Proof.
  induction results as [|r rs IH]; intros k store;
    [simpl; split; [reflexivity | lia]|].
  simpl MainWindow.save_loop. simpl filter.
  destruct (success r).
  - destruct (save_report r store) as [[u | e] store1].
    + specialize (IH (k + 1) store1).
      destruct (save_loop rs (k + 1) store1) as [[n store2] tr].
      destruct IH as [Hs Hn]. simpl. rewrite Hs. split; [reflexivity | lia].
    + specialize (IH k store1).
      destruct (save_loop rs k store1) as [[n store2] tr].
      destruct IH as [Hs Hn]. simpl. rewrite Hs. split; [reflexivity | lia].
  - apply IH.
Qed.

End SaveLoop.

Section AfterBatch.

Variable Env : Type.
Variable Path_name : str -> str.
Variable open_read : str -> Env -> (exn + str) * Env.
Variable SYSTEM_PROMPT : str.
Variable build_review_prompt :
  str -> list ReviewCategory -> OutputFormat -> bool -> Env -> (exn + str) * Env.
Variable analyze_code : str -> bool -> Env -> call * Env.
Variable generate_report :
  str -> str -> list str -> str -> Env -> (exn + str) * Env.
Variable W : Type.
Variable progress_callback : option (nat -> nat -> str -> W -> W).
Variable is_cancelled_callback : option (W -> bool * W).
Variable Store : Type.
Variable save_report : FileAnalysisResult -> Store -> outcome unit * Store.

(** X21: after a batch run, the saver is called exactly for the successful
    results, in the order of the results, [success_count] times in all;
    the number of saved reports and the number of printed save failures add
    up to [success_count], so [saved_count] never exceeds it. *)
Theorem reports_saved_for_successes_only (file_paths : list str) (w : W)
    (env : Env) (store : Store) :
  match BatchAnalyzer.analyze_files Path_name open_read SYSTEM_PROMPT
          build_review_prompt analyze_code generate_report
          progress_callback is_cancelled_callback file_paths w env with
  | (batch_result, _, _, _) =>
    match save_successful_reports save_report batch_result store with
    | (saved_count, _, tr) =>
      saves tr = filter success (results batch_result)
      /\ List.length (saves tr) = success_count batch_result
      /\ saved_count + List.length (printed tr) = success_count batch_result
      /\ saved_count <= success_count batch_result
    end
  end.
Proof.
  pose proof (@analyze_files_counts_by_marker Env Path_name open_read
                SYSTEM_PROMPT build_review_prompt analyze_code
                generate_report W progress_callback is_cancelled_callback
                file_paths w env) as H.
  destruct (BatchAnalyzer.analyze_files Path_name open_read SYSTEM_PROMPT
              build_review_prompt analyze_code generate_report
              progress_callback is_cancelled_callback file_paths w env)
    as [[[batch_result w'] env'] ev].
  destruct H as (Hs & _ & _).
  unfold save_successful_reports.
  pose proof (save_loop_accounting save_report (results batch_result) 0 store)
    as Hl.
  destruct (MainWindow.save_loop save_report (results batch_result) 0 store)
    as [[n store'] tr].
  destruct Hl as [Hsv Hn]. rewrite Hsv, Hs. repeat split; lia.
Qed.

End AfterBatch.

End MainWindowProperties.

(* ================================================================== *)
(** ** The later properties at work *)

Section MoreExamples.

Import BatchAnalyzer.

(** X2 at work: five files, a client that fails once, a cancellation
    callback that always answers [False]. *)
Lemma uncancelled_run_processes_every_file_witness :
  match Stub.batch (Stub.client_failing 1 Stub.temporary_error)
          (Some Stub.progress_noop) (Some Stub.never_cancel)
          Stub.five_files 0 0 with
  | (summary, _, _, _) =>
    map file_path (results summary) = Stub.five_files
    /\ List.length (results summary) = total_files summary
    /\ success_count summary + failure_count summary + skipped_count summary
       = total_files summary
  end.
Proof.
  apply (@uncancelled_run_processes_every_file nat Stub.Path_name
           Stub.open_read Stub.SYSTEM_PROMPT Stub.build_review_prompt
           (Stub.client_failing 1 Stub.temporary_error) Stub.generate_report
           nat (Some Stub.progress_noop) (Some Stub.never_cancel)
           Stub.five_files 0 0).
  intros w. reflexivity.
Defined.

(** X7 at work: a stream that breaks after one chunk, iterated with
    [max_retries=3]: one request, the chunk, and the provider's error. *)
Lemma streaming_makes_one_request_witness :
  match APIClient.for_token_in_analyze_code APIClient.openai
          Stub.create_timing_out Stub.stream_breaking (lit "review") 3 0 with
  | (d, net', tr) =>
    APIClient.requests tr = [true] /\ APIClient.sleeps tr = []
    /\ APIClient.caught tr = []
    /\ net' = 1
    /\ APIClient.failure d = Some Stub.reset_error
    /\ APIClient.delivered d = [lit "public "]
  end.
Proof.
  exact (@streaming_makes_one_request nat APIClient.openai
           Stub.create_timing_out Stub.stream_breaking (lit "review") 3%Z 0
           eq_refl).
Defined.

(** X8 at work: [max_retries=0]. *)
Lemma no_retries_no_request_witness :
  APIClient.analyze_code Stub.create_timing_out (lit "review") true 0 0
  = (Returned APIClient.RetNone, 0, [])
  /\ APIClient.for_token_in_analyze_code APIClient.openai
       Stub.create_timing_out Stub.stream_breaking (lit "review") 0 0
     = (APIClient.Drained [] (Some APIClientRun.none_not_iterable), 0, [])
  /\ isinstance_APIClientError APIClientRun.none_not_iterable = false.
Proof.
  exact (@no_retries_no_request nat APIClient.openai Stub.create_timing_out
           Stub.stream_breaking (lit "review") true 0%Z 0 (Z.le_refl 0)).
Defined.

(** X11 at work: every stream breaks with a connection reset; the three
    failed attempts are printed by the handler of unexpected exceptions. *)
Lemma wired_failures_are_unexpected_witness :
  Forall (Wiring.unexpected_line (Stub.Path_name (lit "A.cs")))
    (printed
       (snd (Wiring._analyze_single_file APIClient.openai
               Stub.create_timing_out Stub.stream_breaking Stub.Path_name
               Stub.open_read Stub.SYSTEM_PROMPT Stub.build_review_prompt
               Stub.generate_report (lit "A.cs") StubMore.fresh_world)))
  /\ List.length
       (printed
          (snd (Wiring._analyze_single_file APIClient.openai
                  Stub.create_timing_out Stub.stream_breaking Stub.Path_name
                  Stub.open_read Stub.SYSTEM_PROMPT Stub.build_review_prompt
                  Stub.generate_report (lit "A.cs") StubMore.fresh_world)))
     = 3.
Proof.
  split; [|vm_compute; reflexivity].
  apply (@wired_failures_are_unexpected nat nat APIClient.openai
           Stub.create_timing_out Stub.stream_breaking Stub.Path_name
           Stub.open_read Stub.SYSTEM_PROMPT Stub.build_review_prompt
           Stub.generate_report (lit "A.cs") StubMore.fresh_world).
  split; [|split].
  - intros prompt n e He. simpl in He. injection He as <-. reflexivity.
  - intros code cats fmt ex r e He. discriminate He.
  - intros original improved cats model r e He. discriminate He.
Defined.

(** X17 at work: the built-in templates without the one of [SECURITY]. *)
Lemma missing_template_fails_without_the_client_witness :
  match WithPromptBuilder._analyze_single_file
          StubMore.templates_without_security [] Stub.Path_name
          Stub.open_read Stub.client_silent Stub.generate_report
          (lit "A.cs") 0 with
  | (r, env', tr) =>
    success r = false /\ retry_count r = 3
    /\ error_message r = msg_llm_failed (Some (PromptBuilder.KeyError SECURITY))
    /\ is_skip r = false
    /\ env' = 0
    /\ client_calls tr = []
    /\ prompt_builds tr
       = [strip (lit "public class A{}" ++ [10]%N);
          strip (lit "public class A{}" ++ [10]%N);
          strip (lit "public class A{}" ++ [10]%N)]
    /\ time_sleeps tr = [1; 1]
  end.
Proof.
  apply (@missing_template_fails_without_the_client nat
           StubMore.templates_without_security [] Stub.Path_name
           Stub.open_read Stub.client_silent Stub.generate_report
           SECURITY (lit "A.cs") (lit "public class A{}" ++ [10]%N) 0 0);
    reflexivity.
Defined.

(** X18 at work: [APIClient('openai', timeout=60)] with the key set. *)
Lemma constructed_client_is_well_formed_witness :
  (APIClientSetup.provider StubMore.default_openai_client = lit "openai"
   \/ APIClientSetup.provider StubMore.default_openai_client = lit "anthropic")
  /\ APIClientSetup.handle StubMore.default_openai_client <> None
  /\ APIClientSetup.model_name StubMore.default_openai_client
     = APIClientSetup.default_model (lit "openai")
  /\ (exists cfg,
        APIClientSetup.lookup
          (APIClientSetup.provider StubMore.default_openai_client)
          (APIClientSetup.model_name StubMore.default_openai_client)
        = Some cfg
        /\ APIClientSetup.context_window StubMore.default_openai_client
           = APIClientSetup.cfg_context_window cfg
        /\ APIClientSetup.max_tokens StubMore.default_openai_client
           = APIClientSetup.cfg_max_tokens cfg)
  /\ ((@None Z = None \/ @None Z = Some 0%Z) ->
      (0 < APIClientSetup.max_tokens StubMore.default_openai_client
       <= APIClientSetup.context_window StubMore.default_openai_client)%Z)
  /\ APIClientSetup.get_model_info StubMore.default_openai_client
     = (lit "openai",
        APIClientSetup.model_name StubMore.default_openai_client,
        APIClientSetup.context_window StubMore.default_openai_client,
        APIClientSetup.max_tokens StubMore.default_openai_client, tt).
Proof.
  exact (@constructed_client_is_well_formed unit nat StubMore.getenv
           StubMore.importable StubMore.sdk_new (lit "openai") None 60%Z tt
           None StubMore.default_openai_client eq_refl).
Defined.

(** X22 at work: two lines of code, indented and without a fence. *)
Lemma plain_response_is_only_stripped_witness :
  ReportGenerator._extract_code_from_response StubMore.no_code_block
    StubMore.plain_response
  = strip StubMore.plain_response.
Proof.
  apply (@plain_response_is_only_stripped StubMore.no_code_block
           StubMore.plain_response).
  - reflexivity.
  - intros keyword Hk.
    repeat (destruct Hk as [<- | Hk]; [vm_compute; reflexivity|]).
    destruct Hk.
Defined.

End MoreExamples.
